(** * Decision and coordination core of the trading-agent fleet

    A shallow embedding of the TypeScript sources: the token claim
    coordinator, the technical indicators, the market regime detector, the
    quality filter, the signal engine, the learning controller, the LLM
    fallbacks and the position lifecycle of [BaseAgent]; then the
    dead-token blacklist, the post-buy monitor, the volume spike detector,
    the buy side of a cycle with the runner's loop, and the trading helpers.

    Conventions of the embedding.
    - [bigint] values (wei amounts, cost bases) are [Z]; the [/] of bigint
      truncates toward zero and is [Z.quot].
    - Millisecond and second timestamps are [Z]; every operation that reads
      [Date.now()] takes the instant as an argument [now].
    - A JavaScript [number] is the rational [Q] it denotes; where the
      source can meet [NaN] (an unparsable string, [0/0]) the value is an
      [option Q] with [None] for [NaN], and every comparison with [NaN] is
      [false].  The PnL percentage of a holding and the drop from its peak
      are rounded as binary64 rounds them (module [JS], through the Standard
      Library's [SpecFloat]); elsewhere the arithmetic is exact.  An
      infinity is modelled where a quotient whose divisor can be zero feeds
      a comparison, and where a field of parsed JSON is converted to a number
      (module [Ext]).
    - [console.log] and the database audit log are omitted.  A reason string
      built from a template is represented by the fixed text of the template
      (scoring reasons) or by a constructor carrying the figure it prints
      (quality and sell reasons). *)

From Stdlib Require Import ZArith QArith Qminmax Qabs Bool Ascii String List Lia Lqa.
From Stdlib Require Import Qround SpecFloat.
From stdpp Require Import gmap strings.

Local Open Scope Z_scope.

(** ** JavaScript numbers *)

Module JS.

Definition Qltb (x y : Q) : bool := negb (Qle_bool y x).
Definition Qgtb (x y : Q) : bool := Qltb y x.
Definition Qgeb (x y : Q) : bool := Qle_bool y x.

(** [number] that may be [NaN]. *)
Definition num := option Q.

Definition NaN : num := None.

Definition nlt (a : num) (c : Q) : bool :=
  match a with Some x => Qltb x c | None => false end.
Definition ngt (a : num) (c : Q) : bool :=
  match a with Some x => Qgtb x c | None => false end.
Definition nle (a : num) (c : Q) : bool :=
  match a with Some x => Qle_bool x c | None => false end.
Definition nge (a : num) (c : Q) : bool :=
  match a with Some x => Qgeb x c | None => false end.

(** Truthiness of a number: [0] and [NaN] are falsy. *)
Definition truthy (a : num) : bool :=
  match a with Some x => negb (Qeq_bool x 0) | None => false end.

(** [a || d] on numbers. *)
Definition nor (a : num) (d : Q) : Q :=
  match a with
  | Some x => if Qeq_bool x 0 then d else x
  | None => d
  end.

Definition ndivc (a : num) (c : Q) : num :=
  match a with Some x => Some (x / c)%Q | None => None end.

(** *** binary64

    Where the rounding of a [number] decides an exit, the operation is the
    one of IEEE 754 at precision 53 with maximal exponent 1024, as the
    Standard Library specifies it.  A double is passed around as the
    rational it denotes; an infinity is passed as [2 ^ 1024] with its sign,
    which compares with every finite double as the infinity does and
    converts back to it. *)
Definition prec : Z := 53.
Definition emax : Z := 1024.

(** [Number(n)] for a bigint [n], and for an integer literal *)
Definition Number (n : Z) : spec_float := binary_normalize prec emax n 0 false.

(** The double nearest to [q]: [q] itself when it is a double (a double is
    an integer over a power of two), and the double a decimal literal [q]
    of the source denotes. *)
Definition toDouble (q : Q) : spec_float :=
  let r := Qred q in
  let k := Z.log2 (Zpos (Qden r)) in
  if (Zpos (Qden r) =? 2 ^ k)%Z
  then binary_normalize prec emax (Qnum r) (- k) false
  else SFdiv prec emax (Number (Qnum r)) (Number (Zpos (Qden r))).

(** The rational a double denotes, [NaN] for [NaN]. *)
Definition ofDouble (x : spec_float) : num :=
  match x with
  | S754_nan => NaN
  | S754_zero _ => Some 0%Q
  | S754_infinity s =>
      Some (if s then - inject_Z (2 ^ 1024) else inject_Z (2 ^ 1024))%Q
  | S754_finite s m e =>
      let v := if (0 <=? e)%Z then inject_Z (Zpos m * 2 ^ e)
               else (Zpos m # Z.to_pos (2 ^ (- e))) in
      Some (if s then - v else v)%Q
  end.

(** [a - b] *)
Definition fsub (a b : Q) : num :=
  ofDouble (SFsub prec emax (toDouble a) (toDouble b)).

(** [String.prototype.toLowerCase] on the ASCII range. *)
Definition ascii_lower (c : ascii) : ascii :=
  let n := nat_of_ascii c in
  if (Nat.leb 65 n && Nat.leb n 90)%bool then ascii_of_nat (n + 32) else c.

Fixpoint toLowerCase (s : string) : string :=
  match s with
  | EmptyString => EmptyString
  | String c r => String (ascii_lower c) (toLowerCase r)
  end.

End JS.

(** ** Numbers with infinities

    Where the sources divide by a figure that can be [0], the quotient can
    be an infinity and the comparisons that follow see it.  (A negative
    zero, which no figure here can be, is not distinguished.) *)

Module Ext.

Import JS.
Local Open Scope Q_scope.

Inductive xnum :=
| XNaN
| XNegInf
| XFin (q : Q)
| XPosInf.

(** [a / b] *)
Definition xdiv (a b : num) : xnum :=
  match a, b with
  | Some x, Some y =>
      if Qeq_bool y 0 then
        if Qeq_bool x 0 then XNaN
        else if Qltb 0 x then XPosInf else XNegInf
      else XFin (x / y)
  | _, _ => XNaN
  end.

(** [a * c] for a constant [c > 0] *)
Definition xmulc (a : xnum) (c : Q) : xnum :=
  match a with
  | XFin q => XFin (q * c)
  | _ => a
  end.

(** [a >= c], [a < c] and [a > c] for a constant [c] *)
Definition xge (a : xnum) (c : Q) : bool :=
  match a with
  | XFin q => Qgeb q c
  | XPosInf => true
  | _ => false
  end.

Definition xlt (a : xnum) (c : Q) : bool :=
  match a with
  | XFin q => Qltb q c
  | XNegInf => true
  | _ => false
  end.

(** [a - b] on numbers that may be [NaN] *)
Definition nsub (a b : num) : num :=
  match a, b with
  | Some x, Some y => Some (x - y)
  | _, _ => None
  end.

End Ext.

(** ** Token claim coordinator ([AgentCoordinator]) *)

Module AgentCoordinator.

Record TokenClaim := mkClaim {
  tokenAddress : string;
  agentId : string;
  agentName : string;
  claimedAt : Z;
  expiresAt : Z;
  reason : string
}.

Definition DEFAULT_LOCK_DURATION : Z := 300000.
Definition MAX_LOCK_DURATION : Z := 600000.

(** [{...existing, expiresAt: e}] *)
Definition withExpiresAt (c : TokenClaim) (e : Z) : TokenClaim :=
  {| tokenAddress := tokenAddress c; agentId := agentId c;
     agentName := agentName c; claimedAt := claimedAt c;
     expiresAt := e; reason := reason c |}.

(** [cleanupExpiredClaims]: every entry with [expiresAt < now] is deleted. *)
Definition cleanupExpiredClaims (now : Z) (claims : gmap string TokenClaim)
  : gmap string TokenClaim :=
  filter (fun kv : string * TokenClaim => ~ (expiresAt kv.2 < now)) claims.

(** The tail of [claimToken]: "Claim is available - take it!". *)
Definition takeClaim (normalizedAddress agent name why : string)
    (durationMs now : Z) (claims : gmap string TokenClaim)
  : bool * gmap string TokenClaim :=
  let clampedDuration := Z.min durationMs MAX_LOCK_DURATION in
  (true,
   <[normalizedAddress :=
       {| tokenAddress := normalizedAddress; agentId := agent;
          agentName := name; claimedAt := now;
          expiresAt := now + clampedDuration; reason := why |}]> claims).

(** [claimToken(tokenAddress, agentId, agentName, reason, durationMs)] run at
    instant [now] on the shared map; returns the boolean and the new map.
    A caller that omits [durationMs] passes [DEFAULT_LOCK_DURATION]. *)
Definition claimToken (tokenAddr agent name why : string)
    (durationMs now : Z) (claims : gmap string TokenClaim)
  : bool * gmap string TokenClaim :=
  let normalizedAddress := JS.toLowerCase tokenAddr in
  let claims := cleanupExpiredClaims now claims in
  match claims !! normalizedAddress with
  | Some existing =>
      if now <=? expiresAt existing then
        if String.eqb (agentId existing) agent then
          (true,
           <[normalizedAddress := withExpiresAt existing (now + durationMs)]>
             claims)
        else (false, claims)
      else
        takeClaim normalizedAddress agent name why durationMs now
          (delete normalizedAddress claims)
  | None => takeClaim normalizedAddress agent name why durationMs now claims
  end.

(** [releaseToken(tokenAddress, agentId)] *)
Definition releaseToken (tokenAddr agent : string)
    (claims : gmap string TokenClaim) : gmap string TokenClaim :=
  let normalizedAddress := JS.toLowerCase tokenAddr in
  match claims !! normalizedAddress with
  | None => claims
  | Some existing =>
      if negb (String.eqb (agentId existing) agent) then claims
      else delete normalizedAddress claims
  end.

(** [isTokenAvailable(tokenAddress)] *)
Definition isTokenAvailable (tokenAddr : string) (now : Z)
    (claims : gmap string TokenClaim) : bool * gmap string TokenClaim :=
  let normalizedAddress := JS.toLowerCase tokenAddr in
  match claims !! normalizedAddress with
  | None => (true, claims)
  | Some existing =>
      if expiresAt existing <? now then (true, delete normalizedAddress claims)
      else (false, claims)
  end.

(** [getClaimInfo(tokenAddress)] *)
Definition getClaimInfo (tokenAddr : string)
    (claims : gmap string TokenClaim) : option TokenClaim :=
  claims !! JS.toLowerCase tokenAddr.

End AgentCoordinator.

(** ** Score accumulation

    Every scoring function of the sources threads a pair of locals, the
    running [score] (or [adjustment]) and the array [reasons]; [bump d r]
    is [score += d; reasons.push(r)].  A pushed reason is represented by the
    fixed text of its template, without the interpolated figures. *)

Module Score.

Definition acc : Type := Z * list string.

Definition bump (d : Z) (r : string) (a : acc) : acc :=
  (fst a + d, snd a ++ r :: nil).

(** [strategy === name] *)
Definition eqs (strategy name : string) : bool := String.eqb strategy name.

End Score.

(** ** Market data provider types ([nadfun/api]) *)

Module Nadfun.

Import JS.

(** A decimal string field of the API: what matters to the sources is
    whether it is empty (then [s || "0"] replaces it) and what [parseFloat]
    reads from it. *)
Inductive numstr :=
| EmptyStr
| Str (parsed : num).

(** [parseFloat(s || "0")] *)
Definition parseFloatOr0 (s : numstr) : num :=
  match s with EmptyStr => Some 0%Q | Str v => v end.

(** [a || b] on two such strings *)
Definition strOr (a b : numstr) : numstr :=
  match a with EmptyStr => b | Str _ => a end.

Record TokenInfo := mkTokenInfo {
  token_id : string;
  name : string;
  symbol : string;
  created_at : Z
}.

Record MarketInfo := mkMarketInfo {
  market_type : string;
  reserve_native : numstr;
  mi_price : numstr;
  price_native : numstr;
  mi_volume : numstr;
  mi_holder_count : option Z
}.

(** [percent_1h] is read by the agent through [(token as any).percent_1h]. *)
Record RecentToken := mkRecentToken {
  token_info : TokenInfo;
  market_info : option MarketInfo;
  percent : option Q;
  percent_1h : option Q
}.

Record TokenMarketData := mkTokenMarketData {
  price : numstr;
  market_cap : numstr;
  volume_24h : numstr;
  price_change_1h : option Q;
  price_change_24h : option Q;
  holder_count : option Z;
  is_graduated : bool
}.

(** The literal [1e18]: wei per MON. *)
Definition e18 : Q := inject_Z (10 ^ 18).

(** [x ?? 0] *)
Definition nullish0 (x : option Q) : Q :=
  match x with Some v => v | None => 0%Q end.

(** [n || 0] on an optional count *)
Definition countOr0 (n : option Z) : Z :=
  match n with Some v => v | None => 0 end.

(** [n && n > c] on an optional count *)
Definition countGt (n : option Z) (c : Z) : bool :=
  match n with Some v => negb (v =? 0) && (c <? v) | None => false end.

(** [x && x > c] and [x && x < c] on an optional number *)
Definition andGt (x : option Q) (c : Q) : bool := truthy x && ngt x c.
Definition andLt (x : option Q) (c : Q) : bool := truthy x && nlt x c.

End Nadfun.

(** ** Technical indicators ([technical-analysis.ts])

    The series are finite numbers and the arithmetic of this module is
    exact; what is proved of the indicators is which of them a series makes
    available, not the figures. *)

Module TechnicalAnalysis.

Local Open Scope Q_scope.
Import JS.

Inductive Crossover := Bullish | Bearish | Neutral.
Inductive VolumeTrend := Increasing | Decreasing | Stable.

(** [ChartCandle] after [parseFloat] of its two strings. *)
Record ChartCandle := mkCandle {
  timestamp : Z;
  price : num;
  volume : num
}.

(** [number | null] fields are [option Q] with [None] for [null]. *)
Record TechnicalIndicators := mkTA {
  rsi : option Q;
  smaShort : option Q;
  smaLong : option Q;
  emaShort : option Q;
  emaLong : option Q;
  vwap : option Q;
  currentPrice : Q;
  priceVsVwap : option Q;
  smaCrossover : Crossover;
  emaCrossover : Crossover;
  volatility : option Q;
  volumeTrend : VolumeTrend;
  momentum : option Q
}.

Definition Qsum (l : list Q) : Q := fold_left Qplus l 0.

Definition natQ (n : nat) : Q := inject_Z (Z.of_nat n).

(** [arr.slice(-n)] *)
Definition sliceLast {A} (n : nat) (l : list A) : list A :=
  match n with
  | O => l
  | _ => skipn (length l - n) l
  end.

(** [arr.slice(-a, -b)] for [0 < b <= a] *)
Definition sliceBetween {A} (a b : nat) (l : list A) : list A :=
  firstn ((length l - b) - (length l - a)) (skipn (length l - a) l).

(** [changes[i-1] = prices[i] - prices[i-1]] *)
Fixpoint changes (prices : list Q) : list Q :=
  match prices with
  | p0 :: ((p1 :: _) as rest) => (p1 - p0) :: changes rest
  | _ => nil
  end.

Definition calculateRSI (prices : list Q) (period : nat) : option Q :=
  if (length prices <? period + 1)%nat then None
  else
    let recentChanges := sliceLast period (changes prices) in
    let avgGain :=
      Qsum (map (fun c => if Qgtb c 0 then c else 0) recentChanges) in
    let avgLoss :=
      Qsum (map (fun c => if Qgtb c 0 then 0 else Qabs c) recentChanges) in
    let avgGain := avgGain / natQ period in
    let avgLoss := avgLoss / natQ period in
    if Qeq_bool avgLoss 0 then Some 100
    else
      let rs := avgGain / avgLoss in
      Some (100 - 100 / (1 + rs)).

Definition calculateSMA (prices : list Q) (period : nat) : option Q :=
  if (length prices <? period)%nat then None
  else Some (Qsum (sliceLast period prices) / natQ period).

Definition calculateEMA (prices : list Q) (period : nat) : option Q :=
  if (length prices <? period)%nat then None
  else
    let multiplier := 2 / (natQ period + 1) in
    let ema := Qsum (firstn period prices) / natQ period in
    Some (fold_left (fun ema p => (p - ema) * multiplier + ema)
            (skipn period prices) ema).

(** The loop of [calculateVWAP]: [volumes[i] || 0] reads [0] past the end. *)
Fixpoint vwapSums (prices volumes : list Q) (cumPV cumV : Q) : Q * Q :=
  match prices with
  | nil => (cumPV, cumV)
  | p :: ps =>
      let vol := match volumes with v :: _ => v | nil => 0 end in
      vwapSums ps (tl volumes) (cumPV + p * vol) (cumV + vol)
  end.

Definition calculateVWAP (prices volumes : list Q) : option Q :=
  match prices, volumes with
  | nil, _ | _, nil => None
  | _, _ =>
      let '(cumPriceVolume, cumVolume) := vwapSums prices volumes 0 0 in
      if Qeq_bool cumVolume 0 then None
      else Some (cumPriceVolume / cumVolume)
  end.

Fixpoint returns (prices : list Q) : list Q :=
  match prices with
  | p0 :: ((p1 :: _) as rest) =>
      if Qgtb p0 0 then ((p1 - p0) / p0) :: returns rest else returns rest
  | _ => nil
  end.

Section Volatility.

(** [Math.sqrt], which has no rational counterpart, is a parameter. *)
Variable Math_sqrt : Q -> Q.

Definition calculateVolatility (prices : list Q) : option Q :=
  if (length prices <? 3)%nat then None
  else
    let rs := returns prices in
    match rs with
    | nil => None
    | _ =>
        let mean := Qsum rs / natQ (length rs) in
        let variance :=
          Qsum (map (fun r => (r - mean) * (r - mean)) rs)
          / natQ (length rs) in
        Some (Math_sqrt variance)
    end.

End Volatility.

Definition getVolumeTrend (volumes : list Q) : VolumeTrend :=
  if (length volumes <? 4)%nat then Stable
  else
    let recent := sliceLast 3 volumes in
    let prior := sliceBetween 6 3 volumes in
    match prior with
    | nil => Stable
    | _ =>
        let recentAvg := Qsum recent / natQ (length recent) in
        let priorAvg := Qsum prior / natQ (length prior) in
        if Qeq_bool priorAvg 0 then
          (if Qgtb recentAvg 0 then Increasing else Stable)
        else
          let change := (recentAvg - priorAvg) / priorAvg in
          if Qgtb change 0.2 then Increasing
          else if Qltb change (-0.2) then Decreasing
          else Stable
    end.

(** [candles.map(c => parseFloat(c.price)).filter(p => p > 0)] *)
Fixpoint positivePrices (candles : list ChartCandle) : list Q :=
  match candles with
  | nil => nil
  | c :: cs =>
      match price c with
      | Some p => if Qgtb p 0 then p :: positivePrices cs
                  else positivePrices cs
      | None => positivePrices cs
      end
  end.

(** [candles.map(c => parseFloat(c.volume)).filter(v => !isNaN(v))] *)
Fixpoint definedVolumes (candles : list ChartCandle) : list Q :=
  match candles with
  | nil => nil
  | c :: cs =>
      match volume c with
      | Some v => v :: definedVolumes cs
      | None => definedVolumes cs
      end
  end.

Definition crossover (short long : option Q) : Crossover :=
  match short, long with
  | Some s, Some l =>
      if Qgtb s (l * 1.01) then Bullish
      else if Qltb s (l * 0.99) then Bearish
      else Neutral
  | _, _ => Neutral
  end.

Definition computeIndicators (Math_sqrt : Q -> Q)
    (candles : list ChartCandle) : TechnicalIndicators :=
  let prices := positivePrices candles in
  let volumes := definedVolumes candles in
  let currentPrice := List.last prices 0 in
  let rsi := calculateRSI prices 14 in
  let smaShort := calculateSMA prices 5 in
  let smaLong := calculateSMA prices 20 in
  let emaShort := calculateEMA prices 5 in
  let emaLong := calculateEMA prices 20 in
  let vwap := calculateVWAP prices volumes in
  let volatility := calculateVolatility Math_sqrt prices in
  let priceVsVwap :=
    match vwap with
    | Some v => if Qgtb v 0 then Some ((currentPrice - v) / v * 100) else None
    | None => None
    end in
  let momentum :=
    if (6 <=? length prices)%nat then
      let oldPrice := List.nth (length prices - 6) prices 0 in
      if Qgtb oldPrice 0
      then Some ((currentPrice - oldPrice) / oldPrice * 100) else None
    else None in
  {| rsi := rsi; smaShort := smaShort; smaLong := smaLong;
     emaShort := emaShort; emaLong := emaLong; vwap := vwap;
     currentPrice := currentPrice; priceVsVwap := priceVsVwap;
     smaCrossover := crossover smaShort smaLong;
     emaCrossover := crossover emaShort emaLong;
     volatility := volatility;
     volumeTrend := getVolumeTrend volumes;
     momentum := momentum |}.

End TechnicalAnalysis.

(** [technicalScoreAdjustment] lives in the same source file; it is kept in
    a module of its own because it uses the score accumulator. *)

Module TechnicalScore.

Import JS Score TechnicalAnalysis.
Local Open Scope Q_scope.
Local Open Scope bool_scope.

(** [!x] on a [number | null] *)
Definition falsy (x : option Q) : bool := negb (truthy x).

(** The body of [technicalScoreAdjustment] between the early return and the
    final clamp: the six groups of rules. *)
Definition technicalRules (ta : TechnicalIndicators) (strategy : string)
  : acc :=
    let a : acc := (0%Z, nil) in
    (* RSI *)
    let a :=
      match rsi ta with
      | Some r =>
          if eqs strategy "contrarian" then
            if Qltb r 25 then bump 20 "RSI deeply oversold - contrarian buy" a
            else if Qltb r 35 then bump 10 "RSI oversold" a
            else if Qgtb r 75 then bump (-15) "RSI overbought - avoid buying" a
            else a
          else if eqs strategy "trend_follower" || eqs strategy "swing_trader"
          then
            if Qgeb r 40 && Qle_bool r 65 then
              bump 10 "RSI in momentum zone" a
            else if Qgtb r 80 then
              bump (-15) "RSI overbought - overextended" a
            else if Qltb r 25 then
              bump (-10) "RSI deeply oversold - no momentum" a
            else a
          else
            if Qgtb r 80 then bump (-10) "RSI overbought" a
            else if Qltb r 25 then bump 5 "RSI oversold" a
            else a
      | None => a
      end in
    (* Moving average crossovers *)
    let a :=
      match emaCrossover ta with
      | Neutral => a
      | c =>
          if eqs strategy "trend_follower" || eqs strategy "swing_trader" then
            match c with
            | Bullish => bump 15 "EMA bullish crossover (short > long)" a
            | _ => bump (-15) "EMA bearish crossover (short < long)" a
            end
          else
            match c with
            | Bullish => bump 8 "EMA bullish signal" a
            | _ => bump (-8) "EMA bearish signal" a
            end
      end in
    (* VWAP *)
    let a :=
      match priceVsVwap ta with
      | Some v =>
          if eqs strategy "contrarian" then
            if Qltb v (-5) then bump 10 "Price below VWAP - undervalued" a
            else a
          else if eqs strategy "volume_watcher" || eqs strategy "trend_follower"
          then
            if Qgtb v 3 then bump 8 "Price above VWAP - buyers in control" a
            else if Qltb v (-5) then bump (-5) "Price below VWAP" a
            else a
          else a
      | None => a
      end in
    (* Volume trend *)
    let a :=
      match volumeTrend ta with
      | Increasing =>
          if eqs strategy "volume_watcher"
          then bump 12 "Volume trending up - confirming move" a
          else bump 5 "Increasing volume" a
      | Decreasing =>
          if eqs strategy "volume_watcher"
          then bump (-10) "Volume declining - weak conviction" a
          else bump (-3) "Declining volume" a
      | Stable => a
      end in
    (* Momentum *)
    let a :=
      match momentum ta with
      | Some m =>
          if eqs strategy "alpha_hunter" || eqs strategy "degen_ape" then
            if Qgtb m 15 then bump 10 "Strong momentum" a else a
          else if eqs strategy "contrarian" then
            if Qltb m (-15)
            then bump 10 "Dropping fast - reversion opportunity" a else a
          else a
      | None => a
      end in
    (* Volatility *)
    let a :=
      match volatility ta with
      | Some v =>
          if eqs strategy "swing_trader" then
            if Qgtb v 0.1
            then bump 8 "High volatility - swing opportunity" a else a
          else if eqs strategy "diamond_hands" then
            if Qgtb v 0.2
            then bump (-8) "Too volatile for long hold" a else a
          else a
      | None => a
      end in
    a.

Definition technicalScoreAdjustment (ta : TechnicalIndicators)
    (strategy : string) : Z * list string :=
  if falsy (rsi ta) && falsy (vwap ta) && falsy (smaShort ta) then
    (0%Z, "Insufficient chart data for TA"%string :: nil)
  else
    let a := technicalRules ta strategy in
    (Z.max (-30) (Z.min 30 (fst a)), snd a).

End TechnicalScore.

(** ** Holder concentration ([whale-analysis.ts]) *)

Module WhaleAnalysis.

Import JS Score.
Local Open Scope Q_scope.
Local Open Scope bool_scope.

Inductive Concentration := High | Moderate | Distributed.

Record HolderData := mkHolder {
  address : string;
  balance : string;
  percentage : Q
}.

Record WhaleAnalysis := mkWhale {
  totalHolders : Z;
  top1Pct : Q;
  top5Pct : Q;
  top10Pct : Q;
  whaleCount : Z;
  microHolders : Z;
  concentration : Concentration;
  hasLargeWhale : bool
}.

(** [[...holders].sort((a, b) => b.percentage - a.percentage)]: a stable
    sort by decreasing percentage. *)
Fixpoint insertDesc (h : HolderData) (l : list HolderData) : list HolderData :=
  match l with
  | nil => h :: nil
  | x :: r =>
      if Qle_bool (percentage x) (percentage h) then h :: l
      else x :: insertDesc h r
  end.

Definition sortDesc (l : list HolderData) : list HolderData :=
  fold_right insertDesc nil l.

Definition sumPct (l : list HolderData) : Q :=
  fold_left (fun s h => s + percentage h) l 0.

Definition countIf (f : HolderData -> bool) (l : list HolderData) : Z :=
  Z.of_nat (length (List.filter f l)).

Definition analyzeHolders (holders : list HolderData) : WhaleAnalysis :=
  let sorted := sortDesc holders in
  let totalHolders := Z.of_nat (length sorted) in
  let top1Pct := match sorted with h :: _ => percentage h | nil => 0 end in
  let top5Pct := sumPct (firstn 5 sorted) in
  let top10Pct := sumPct (firstn 10 sorted) in
  let whaleCount := countIf (fun h => Qgtb (percentage h) 5) sorted in
  let microHolders := countIf (fun h => Qltb (percentage h) 0.1) sorted in
  let hasLargeWhale := Qgtb top1Pct 20 in
  let concentration :=
    if Qgtb top5Pct 70 || hasLargeWhale then High
    else if Qltb top5Pct 40 && (20 <? totalHolders)%Z then Distributed
    else Moderate in
  {| totalHolders := totalHolders; top1Pct := top1Pct; top5Pct := top5Pct;
     top10Pct := top10Pct; whaleCount := whaleCount;
     microHolders := microHolders; concentration := concentration;
     hasLargeWhale := hasLargeWhale |}.

Definition isHigh (c : Concentration) : bool :=
  match c with High => true | _ => false end.

(** The body of [whaleScoreAdjustment] between the early return and the
    final clamp. *)
Definition whaleRules (wa : WhaleAnalysis) (strategy : string) : acc :=
    let a : acc := (0%Z, nil) in
    (* Holder count *)
    let a :=
      if (50 <? totalHolders wa)%Z then bump 8 "Strong holder base" a
      else if (20 <? totalHolders wa)%Z then bump 4 "Decent holder count" a
      else if (totalHolders wa <? 5)%Z
      then bump (-10) "Very few holders - high risk" a
      else a in
    (* Concentration risk *)
    let a :=
      if hasLargeWhale wa then
        if eqs strategy "degen_ape" then bump (-3) "Whale alert" a
        else bump (-12) "Whale concentration risk" a
      else a in
    let a :=
      match concentration wa with
      | Distributed =>
          if eqs strategy "diamond_hands"
          then bump 12 "Well distributed - healthy for long hold" a
          else bump 6 "Distributed holder base" a
      | High =>
          if negb (eqs strategy "degen_ape") && negb (eqs strategy "alpha_hunter")
          then bump (-8) "High concentration" a
          else a
      | Moderate => a
      end in
    (* Whale count as smart money signal *)
    let a :=
      if (3 <=? whaleCount wa)%Z && (whaleCount wa <=? 6)%Z
         && negb (isHigh (concentration wa))
      then bump 5 "Multiple whales showing interest" a
      else a in
    (* Many micro holders *)
    let a :=
      if (30 <? microHolders wa)%Z then bump 5 "Strong organic growth" a
      else a in
    a.

Definition whaleScoreAdjustment (wa : WhaleAnalysis) (strategy : string)
  : Z * list string :=
  if (totalHolders wa =? 0)%Z then
    (0%Z, "No holder data available"%string :: nil)
  else
    let a := whaleRules wa strategy in
    (Z.max (-20) (Z.min 20 (fst a)), snd a).

End WhaleAnalysis.

(** ** Market regime detector ([market-regime.ts]) *)

Module MarketRegime.

Import JS Score Nadfun.
Local Open Scope Q_scope.
Local Open Scope bool_scope.

Inductive MarketRegime := bull | bear | sideways.

Record RegimeAnalysis := mkRegime {
  regime : MarketRegime;
  confidence : Z;
  avgPriceChange1h : num;
  avgPriceChange24h : num;
  positiveTokenPct : num;
  avgVolume : num;
  newTokenRate : Z;
  reasons : list string
}.

Record TokenDataPair := mkPair {
  token : RecentToken;
  market : option TokenMarketData
}.

(** [tokenDataPairs.filter(p => p.market !== null)], as the market data *)
Fixpoint withMarket (pairs : list TokenDataPair) : list TokenMarketData :=
  match pairs with
  | nil => nil
  | p :: ps =>
      match market p with
      | Some m => m :: withMarket ps
      | None => withMarket ps
      end
  end.

(** [reduce((s, c) => s + c, 0)] over numbers that may be [NaN] *)
Definition nsum (l : list num) : num :=
  fold_left (fun s c =>
               match s, c with
               | Some x, Some y => Some (x + y)
               | _, _ => None
               end) l (Some 0).

(** [total / length] where [total] is [0] whenever [length] is: [0 / 0] is
    [NaN]. *)
Definition navg (total : num) (len : nat) : num :=
  match len with
  | O => None
  | _ => ndivc total (inject_Z (Z.of_nat len))
  end.

(** The locals [bullScore], [bearScore] and [reasons]. *)
Record Tally := mkTally {
  bullScore : Z;
  bearScore : Z;
  why : list string
}.

Definition bullUp (d : Z) (r : string) (t : Tally) : Tally :=
  {| bullScore := bullScore t + d; bearScore := bearScore t;
     why := why t ++ r :: nil |}.

Definition bearUp (d : Z) (r : string) (t : Tally) : Tally :=
  {| bullScore := bullScore t; bearScore := bearScore t + d;
     why := why t ++ r :: nil |}.

(** "Score-based regime detection": the five threshold rules. *)
Definition tally (avg1h avg24h positivePct avgVol : num) (newTokens : Z)
  : Tally :=
  let t := {| bullScore := 0; bearScore := 0; why := nil |} in
  (* Price trend *)
  let t :=
    if ngt avg1h 5 then bullUp 30 "Avg 1h change: +" t
    else if nlt avg1h (-5) then bearUp 30 "Avg 1h change: " t
    else t in
  let t :=
    if ngt avg24h 10 then bullUp 20 "Avg 24h change: +" t
    else if nlt avg24h (-10) then bearUp 20 "Avg 24h change: " t
    else t in
  (* Breadth *)
  let t :=
    if ngt positivePct 65 then bullUp 25 "tokens positive - broad rally" t
    else if nlt positivePct 35
    then bearUp 25 "tokens positive - broad decline" t
    else t in
  (* Volume *)
  let t :=
    if ngt avgVol 50000 then bullUp 10 "High avg volume" t
    else if nlt avgVol 100 then bearUp 5 "Low volume" t
    else t in
  (* New token creation *)
  let t :=
    if (20 <? newTokens)%Z then bullUp 15 "Active token creation" t
    else if (newTokens <? 5)%Z then bearUp 10 "Low token creation" t
    else t in
  t.

(** "Determine regime": regime, confidence and the closing reason. *)
Definition decideRegime (bullScore bearScore : Z)
  : MarketRegime * Z * string :=
  if (bearScore + 15 <? bullScore)%Z then
    (bull, Z.min 90 (50 + bullScore - bearScore),
     "REGIME: Bull market detected"%string)
  else if (bullScore + 15 <? bearScore)%Z then
    (bear, Z.min 90 (50 + bearScore - bullScore),
     "REGIME: Bear market detected"%string)
  else
    (sideways, Z.max 30 (70 - Z.abs (bullScore - bearScore)),
     "REGIME: Sideways/choppy market"%string).

Definition priceChanges1h (wm : list TokenMarketData) : list Q :=
  List.filter (fun c => Qltb (Qabs c) 500)
    (map (fun m => nullish0 (price_change_1h m)) wm).

Definition priceChanges24h (wm : list TokenMarketData) : list Q :=
  List.filter (fun c => Qltb (Qabs c) 1000)
    (map (fun m => nullish0 (price_change_24h m)) wm).

Definition volumes (wm : list TokenMarketData) : list num :=
  map (fun m => ndivc (parseFloatOr0 (volume_24h m)) e18) wm.

Definition recentTokenCount (nowSec : Z) (pairs : list TokenDataPair) : Z :=
  Z.of_nat (length (List.filter
    (fun p => (nowSec - created_at (token_info (token p)) <? 3600)%Z) pairs)).

Definition avgPc1h (wm : list TokenMarketData) : num :=
  let l := priceChanges1h wm in
  navg (Some (TechnicalAnalysis.Qsum l)) (length l).

Definition avgPc24h (wm : list TokenMarketData) : num :=
  let l := priceChanges24h wm in
  navg (Some (TechnicalAnalysis.Qsum l)) (length l).

Definition positivePct (wm : list TokenMarketData) : num :=
  let l := priceChanges1h wm in
  let positive := length (List.filter (fun c => Qgtb c 0) l) in
  match navg (Some (inject_Z (Z.of_nat positive))) (length l) with
  | Some r => Some (r * 100)
  | None => None
  end.

Definition avgVol (wm : list TokenMarketData) : num :=
  let l := volumes wm in navg (nsum l) (length l).

(** The point totals a batch reaches ([bullScore] and [bearScore] just
    before "Determine regime"). *)
Definition batchTally (nowSec : Z) (pairs : list TokenDataPair) : Tally :=
  let wm := withMarket pairs in
  tally (avgPc1h wm) (avgPc24h wm) (positivePct wm) (avgVol wm)
    (recentTokenCount nowSec pairs).

(** [detectMarketRegime(tokenDataPairs)], with [nowSec] for
    [Math.floor(Date.now() / 1000)]. *)
Definition detectMarketRegime (nowSec : Z) (pairs : list TokenDataPair)
  : RegimeAnalysis :=
  let wm := withMarket pairs in
  if (length wm <? 5)%nat then
    {| regime := sideways; confidence := 20;
       avgPriceChange1h := Some 0; avgPriceChange24h := Some 0;
       positiveTokenPct := Some 50; avgVolume := Some 0;
       newTokenRate := 0;
       reasons := "Insufficient data for regime detection"%string :: nil |}
  else
    let t := batchTally nowSec pairs in
    let '(rg, conf, closing) := decideRegime (bullScore t) (bearScore t) in
    {| regime := rg; confidence := conf;
       avgPriceChange1h := avgPc1h wm; avgPriceChange24h := avgPc24h wm;
       positiveTokenPct := positivePct wm; avgVolume := avgVol wm;
       newTokenRate := recentTokenCount nowSec pairs;
       reasons := why t ++ closing :: nil |}.

(** The confidence formula in the words of the specification,
    [clamp(50 + |bullScore - bearScore|, 30, 90)], to be compared with what
    [decideRegime] computes. *)
Definition spec_confidence (bullScore bearScore : Z) : Z :=
  Z.max 30 (Z.min 90 (50 + Z.abs (bullScore - bearScore))).

(** [regimeThresholdAdjustment(regime, baseThreshold)] *)
Definition regimeThresholdAdjustment (rg : MarketRegime) (baseThreshold : Z)
  : Z :=
  match rg with
  | bull => Z.max 85 (baseThreshold - 5)
  | bear => Z.min 95 (baseThreshold + 15)
  | sideways => baseThreshold
  end.

(** The table [bonuses] of [regimeStrategyBonus]; a strategy absent from a
    row reads [undefined], which [?? 0] turns into [0]. *)
Definition bonuses (rg : MarketRegime) (strategy : string) : Z :=
  match rg with
  | bull =>
      if eqs strategy "alpha_hunter" then 10
      else if eqs strategy "degen_ape" then 15
      else if eqs strategy "trend_follower" then 12
      else if eqs strategy "volume_watcher" then 8
      else if eqs strategy "swing_trader" then 5
      else if eqs strategy "diamond_hands" then 5
      else if eqs strategy "sniper" then 8
      else if eqs strategy "contrarian" then -10
      else 0
  | bear =>
      if eqs strategy "contrarian" then 15
      else if eqs strategy "diamond_hands" then -5
      else if eqs strategy "alpha_hunter" then -10
      else if eqs strategy "degen_ape" then -15
      else if eqs strategy "trend_follower" then -10
      else if eqs strategy "volume_watcher" then -5
      else if eqs strategy "swing_trader" then 5
      else if eqs strategy "sniper" then -5
      else 0
  | sideways =>
      if eqs strategy "swing_trader" then 10
      else if eqs strategy "contrarian" then 5
      else if eqs strategy "volume_watcher" then 5
      else if eqs strategy "trend_follower" then -5
      else 0
  end%Z.

(** [regimeStrategyBonus(regime, strategy)]: the adjustment and whether a
    reason text accompanies it ([adj !== 0]). *)
Definition regimeStrategyBonus (rg : MarketRegime) (strategy : string)
  : Z * option string :=
  let adj := bonuses rg strategy in
  (adj,
   if (adj =? 0)%Z then None
   else Some (if (0 <? adj)%Z then "market favors strategy"%string
              else "market penalizes strategy"%string)).

End MarketRegime.

(** ** Quality filter ([quality-filter.ts]) *)

Module QualityFilter.

Import JS Nadfun.
Local Open Scope Q_scope.
Local Open Scope bool_scope.

(** The reason strings of a rejection, with the figure each one prints. *)
Inductive QualityReason :=
| NoMarketData
| InsufficientLiquidity (reserve : num)
| TooFewHolders (holders : Z)
| TooYoung (ageHours : Q)
| InvalidPrice
| DumpingHard (priceChange1h : Q)
| LowQualityScore (score : Z).

Record QualityCheckResult := mkQuality {
  passed : bool;
  reason : option QualityReason;
  score : Z
}.

Definition reject (r : QualityReason) (s : Z) : QualityCheckResult :=
  {| passed := false; reason := Some r; score := s |}.

(** [a / b] on numbers that may be [NaN]; used where [b] is not [0]. *)
Definition ndiv (a b : num) : num :=
  match a, b with
  | Some x, Some y => Some (x / y)
  | _, _ => None
  end.

(** [x > lo && x <= hi] *)
Definition nbetween (x : num) (lo hi : Q) : bool := ngt x lo && nle x hi.

(** [checkTokenQuality(token)], with [nowSec] for
    [Math.floor(Date.now() / 1000)]. *)
Definition checkTokenQuality (nowSec : Z) (token : RecentToken)
  : QualityCheckResult :=
  let info := token_info token in
  match market_info token with
  | None => reject NoMarketData 0
  | Some market =>
    (* 1. minimum liquidity *)
    let reserve := ndivc (parseFloatOr0 (reserve_native market)) e18 in
    if nlt reserve 3 then reject (InsufficientLiquidity reserve) 0 else
    (* 2. minimum holders *)
    let holders := countOr0 (mi_holder_count market) in
    if (holders <? 30)%Z then reject (TooFewHolders holders) 0 else
    (* 4. token age *)
    let ageSeconds := (nowSec - created_at info)%Z in
    let ageHours := inject_Z ageSeconds / 3600 in
    if Qltb ageHours 2 then reject (TooYoung ageHours) 0 else
    (* 5. price *)
    let price := parseFloatOr0 (mi_price market) in
    if nle price 0 then reject InvalidPrice 0 else
    (* quality scoring *)
    let score := 50%Z in
    let priceChange1h := nor (percent token) 0 in
    match
      (if Qgtb priceChange1h 10 then Some (score + 20)
       else if Qgtb priceChange1h 0 then Some (score + 10)
       else if Qgtb priceChange1h (-5) then Some (score + 5)
       else if Qgtb priceChange1h (-15) then Some (score - 10)
       else None)%Z
    with
    | None => reject (DumpingHard priceChange1h) 0
    | Some score =>
    let score :=
      (if 500 <? holders then score + 15
       else if 200 <? holders then score + 10
       else if 100 <? holders then score + 5
       else score)%Z in
    let score :=
      (if ngt reserve 100 then score + 15
       else if ngt reserve 50 then score + 10
       else if ngt reserve 25 then score + 5
       else score)%Z in
    let score :=
      (if Qgtb ageHours 72 then score + 10
       else if Qgtb ageHours 24 then score + 5
       else score)%Z in
    let volume24h := ndivc (parseFloatOr0 (mi_volume market)) e18 in
    let volumeToReserveRatio := ndiv volume24h reserve in
    let score :=
      (if ngt volumeToReserveRatio 20 then score - 15
       else if nbetween volumeToReserveRatio 5 10 then score + 10
       else if nbetween volumeToReserveRatio 2 5 then score + 5
       else score)%Z in
    let score := Z.max 0 (Z.min 100 score) in
    if (score <? 60)%Z then reject (LowQualityScore score) score
    else {| passed := true; reason := None; score := score |}
    end
  end.

End QualityFilter.

(** ** Signal engine ([signal-engine.ts]) *)

Module SignalEngine.

Import JS Score Nadfun.
Local Open Scope Z_scope.
Local Open Scope bool_scope.

Record TokenContext := mkCtx {
  token : RecentToken;
  market : option TokenMarketData;
  curveProgress : option Q;
  ageSeconds : Z;
  technical : option TechnicalAnalysis.TechnicalIndicators;
  whaleData : option WhaleAnalysis.WhaleAnalysis;
  regime : option MarketRegime.MarketRegime
}.

(** The [metrics] map of a signal; a field that the source fills with the
    string ["N/A"] or ["unknown"] is [None]. *)
Record Metrics := mkMetrics {
  m_age : Z;
  m_price : numstr;
  m_volume24h : numstr;
  m_volumeMon : Q;
  m_priceChange1h : Q;
  m_priceChange24h : Q;
  m_holderCount : Z;
  m_curveProgress : Q;
  m_rsi : option Q;
  m_emaCrossover : option TechnicalAnalysis.Crossover;
  m_vwap : option Q;
  m_volumeTrend : option TechnicalAnalysis.VolumeTrend;
  m_holderConcentration : option WhaleAnalysis.Concentration;
  m_top5HolderPct : option Q;
  m_marketRegime : option MarketRegime.MarketRegime
}.

Record MarketSignal := mkSignal {
  tokenAddress : string;
  tokenSymbol : string;
  tokenName : string;
  score : Z;
  reasons : list string;
  metrics : Metrics
}.

(** [volumeToMon(raw)] on [ctx.market?.volume_24h || "0"] *)
Definition volumeToMon (raw : numstr) : Q :=
  match parseFloatOr0 raw with
  | Some wei => if Qeq_bool wei 0 then 0%Q else (wei / e18)%Q
  | None => 0%Q
  end.

(** [ctx.market?.field] *)
Definition mVolume (ctx : TokenContext) : numstr :=
  match market ctx with Some m => volume_24h m | None => EmptyStr end.
Definition mHolders (ctx : TokenContext) : option Z :=
  match market ctx with Some m => holder_count m | None => None end.
Definition mPc1h (ctx : TokenContext) : option Q :=
  match market ctx with Some m => price_change_1h m | None => None end.
Definition mPc24h (ctx : TokenContext) : option Q :=
  match market ctx with Some m => price_change_24h m | None => None end.
Definition mGraduated (ctx : TokenContext) : bool :=
  match market ctx with Some m => is_graduated m | None => false end.

Definition vol (ctx : TokenContext) : Q := volumeToMon (mVolume ctx).
Definition holders (ctx : TokenContext) : Z := countOr0 (mHolders ctx).

(** [score += x.adjustment; reasons.push(...x.reasons)] *)
Definition absorb (x : Z * list string) (a : acc) : acc :=
  (fst a + fst x, snd a ++ snd x).

Definition baseScore (ctx : TokenContext) : acc :=
  match market ctx with
  | None => (5, "No market data available"%string :: nil)
  | Some m =>
      let a : acc := (35, nil) in
      let v := volumeToMon (volume_24h m) in
      let a :=
        if Qgtb v 10000000 then bump 15 "Massive volume" a
        else if Qgtb v 1000000 then bump 10 "Strong volume" a
        else if Qgtb v 100000 then bump 6 "Good volume" a
        else if Qgtb v 10000 then bump 2 "Low volume" a
        else a in
      let a :=
        if countGt (holder_count m) 100 then bump 10 "Strong holder base" a
        else if countGt (holder_count m) 30 then bump 6 "Decent holders" a
        else if countGt (holder_count m) 10 then bump 3 "Some holders" a
        else a in
      let a :=
        if andGt (price_change_1h m) 5 then bump 5 "Upward momentum" a
        else if andLt (price_change_1h m) (-10) then bump (-10) "Dumping" a
        else a in
      let a :=
        match technical ctx with
        | Some t =>
            absorb (TechnicalScore.technicalScoreAdjustment t "base") a
        | None => a
        end in
      let a :=
        match whaleData ctx with
        | Some w => absorb (WhaleAnalysis.whaleScoreAdjustment w "base") a
        | None => a
        end in
      a
  end.

Definition strategyOverlay (ctx : TokenContext) (strategy : string) (a : acc)
  : acc :=
  let a :=
    match technical ctx with
    | Some t => absorb (TechnicalScore.technicalScoreAdjustment t strategy) a
    | None => a
    end in
  let a :=
    match whaleData ctx with
    | Some w => absorb (WhaleAnalysis.whaleScoreAdjustment w strategy) a
    | None => a
    end in
  let a :=
    match regime ctx with
    | Some rg =>
        let rb := MarketRegime.regimeStrategyBonus rg strategy in
        (fst a + fst rb,
         match snd rb with Some r => snd a ++ r :: nil | None => snd a end)
    | None => a
    end in
  a.

(** [buildSignal(ctx, score, reasons)] *)
Definition buildSignal (ctx : TokenContext) (a : acc) : MarketSignal :=
  {| tokenAddress := token_id (token_info (token ctx));
     tokenSymbol := symbol (token_info (token ctx));
     tokenName := name (token_info (token ctx));
     score := Z.max 0 (Z.min 100 (fst a));
     reasons := snd a;
     metrics :=
       {| m_age := ageSeconds ctx;
          m_price :=
            match market ctx with
            | Some m => strOr (price m) (Str (Some 0%Q))
            | None => Str (Some 0%Q)
            end;
          m_volume24h := strOr (mVolume ctx) (Str (Some 0%Q));
          m_volumeMon := vol ctx;
          m_priceChange1h := nor (mPc1h ctx) 0;
          m_priceChange24h := nor (mPc24h ctx) 0;
          m_holderCount := holders ctx;
          m_curveProgress := nor (curveProgress ctx) 0;
          m_rsi :=
            match technical ctx with
            | Some t => TechnicalAnalysis.rsi t | None => None end;
          m_emaCrossover :=
            option_map TechnicalAnalysis.emaCrossover (technical ctx);
          m_vwap :=
            match technical ctx with
            | Some t => TechnicalAnalysis.vwap t | None => None end;
          m_volumeTrend :=
            option_map TechnicalAnalysis.volumeTrend (technical ctx);
          m_holderConcentration :=
            option_map WhaleAnalysis.concentration (whaleData ctx);
          m_top5HolderPct :=
            option_map WhaleAnalysis.top5Pct (whaleData ctx);
          m_marketRegime := regime ctx |} |}.

(** [name.includes(w)] *)
Fixpoint includes (s w : string) : bool :=
  String.prefix w s ||
  match s with
  | EmptyString => false
  | String _ r => includes r w
  end.

Definition memeWords : list string :=
  ("meme" :: "pepe" :: "doge" :: "moon" :: "ape" :: "chad" :: "wojak"
   :: "based" :: "giga" :: "monkey" :: "cat" :: "dog" :: "frog" :: "nyan"
   :: "shib" :: "bonk" :: "cope" :: "wagmi" :: nil)%string.

Definition scoreSniper (ctx : TokenContext) : MarketSignal :=
  let a := baseScore ctx in
  let v := vol ctx in
  let h := holders ctx in
  let age := ageSeconds ctx in
  (* age is everything for sniping *)
  let a :=
    if age <? 120 then
      if Qgtb v 5000 then bump 30 "Ultra-fresh token - prime snipe" a
      else if Qgtb v 500 then bump 20 "Fresh launch - initial buying" a
      else if Qgtb v 100 then bump 10 "Very new with small activity" a
      else a
    else if age <? 300 then
      if Qgtb v 20000 && (5 <? h)
      then bump 25 "New token with strong interest" a
      else if Qgtb v 5000 && (3 <? h) then bump 15 "New token" a
      else if Qgtb v 1000
      then bump 5 "Recently launched with some activity" a
      else a
    else if age <? 600 then
      if Qgtb v 50000 && (10 <? h)
      then bump 15 "Early token with confirmed demand" a
      else a
    else bump (-20) "Token too old for sniping" a in
  (* fast holder growth on a new token *)
  let a :=
    if (8 <? h) && (age <? 180) then bump 15 "Rapid holder growth" a
    else if (5 <? h) && (age <? 300) then bump 8 "Growing holders" a
    else a in
  (* bonding curve progress on a new token *)
  let a :=
    match curveProgress ctx with
    | Some cp =>
        if age <? 600 then
          let progressPct := (cp / 100)%Q in
          if Qgtb progressPct 10 then bump 12 "Strong curve progress" a
          else if Qgtb progressPct 3 then bump 6 "Early curve progress" a
          else a
        else a
    | None => a
    end in
  (* positive early price action *)
  let a :=
    if andGt (mPc1h ctx) 0 && (age <? 600)
    then bump 5 "Positive price since launch" a
    else a in
  buildSignal ctx (strategyOverlay ctx "sniper" a).

Definition scoreAlphaHunter (ctx : TokenContext) : MarketSignal :=
  let a := baseScore ctx in
  let v := vol ctx in
  let h := holders ctx in
  let age := ageSeconds ctx in
  let a :=
    if (120 <=? age) && (age <? 300) && Qgtb v 10000
    then bump 25 "Alpha window" a
    else if (300 <=? age) && (age <? 900) && Qgtb v 50000
    then bump 15 "Early token with volume proof" a
    else if (age <? 120) && Qgtb v 2000
    then bump 15 "Very new with activity" a
    else if 1800 <? age then bump (-15) "Token too old for alpha hunting" a
    else a in
  let a :=
    if (10 <? h) && (age <? 600) then bump 10 "Fast adoption" a else a in
  let a :=
    if Qgtb v 50000 && andGt (mPc1h ctx) 5
    then bump 10 "Volume-backed pump" a
    else a in
  buildSignal ctx (strategyOverlay ctx "alpha_hunter" a).

Definition scoreDiamondHands (ctx : TokenContext) : MarketSignal :=
  let a := baseScore ctx in
  let v := vol ctx in
  let h := holders ctx in
  let a :=
    if 3600 <? ageSeconds ctx then bump 10 "Established token (1h+)" a
    else bump (-10) "Too young for diamond hands" a in
  let a :=
    if 200 <? h then bump 15 "Excellent holder base" a
    else if 50 <? h then bump 8 "Good holder count" a
    else if h <? 20 then bump (-10) "Insufficient holders for long hold" a
    else a in
  let a :=
    if Qgtb v 5000000 then bump 12 "Very high volume" a
    else if Qgtb v 500000 then bump 8 "Consistent volume" a
    else if Qltb v 50000 then bump (-5) "Weak volume for long hold" a
    else a in
  let a :=
    if andGt (mPc24h ctx) 0 then bump 8 "Positive 24h trend" a else a in
  let a :=
    if andGt (mPc1h ctx) 0 then bump 5 "Positive 1h trend" a else a in
  let a :=
    if mGraduated ctx then bump 10 "Graduated to DEX - proven demand" a
    else a in
  buildSignal ctx (strategyOverlay ctx "diamond_hands" a).

Definition scoreSwingTrader (ctx : TokenContext) : MarketSignal :=
  let a := baseScore ctx in
  let v := vol ctx in
  let a :=
    if Qltb v 100000
    then bump (-10) "Insufficient liquidity for swing trade" a
    else if Qgtb v 1000000 then bump 8 "Good liquidity" a
    else a in
  let a :=
    if truthy (mPc1h ctx) then
      if ngt (mPc1h ctx) 15 then bump 20 "Strong upswing" a
      else if ngt (mPc1h ctx) 5 then bump 12 "Moderate upswing" a
      else if nlt (mPc1h ctx) (-5) then bump (-15) "Downswing - not buying" a
      else a
    else a in
  let a :=
    if andGt (mPc1h ctx) 5 && Qgtb v 500000
    then bump 10 "Volume-confirmed price swing" a
    else a in
  buildSignal ctx (strategyOverlay ctx "swing_trader" a).

Definition scoreDegenApe (ctx : TokenContext) : MarketSignal :=
  let a := baseScore ctx in
  let v := vol ctx in
  let h := holders ctx in
  let age := ageSeconds ctx in
  let a :=
    if (age <? 600) && Qgtb v 10000 && (5 <? h)
    then bump 15 "Fresh active token - aping in" a
    else a in
  let nm := toLowerCase (name (token_info (token ctx))) in
  let a :=
    if existsb (fun w => includes nm w) memeWords
    then bump 8 "Meme vibes detected" a
    else a in
  let a :=
    if andGt (mPc1h ctx) 30 && Qgtb v 1000000
    then bump 20 "Volume-backed moon" a
    else if andGt (mPc1h ctx) 15 && Qgtb v 100000
    then bump 12 "Pumping with volume" a
    else if andGt (mPc1h ctx) 10 && Qgtb v 50000 then bump 5 "Pumping" a
    else a in
  let a :=
    if (20 <? h) && (age <? 1800) then bump 8 "holders - organic growth" a
    else a in
  buildSignal ctx (strategyOverlay ctx "degen_ape" a).

Definition scoreVolumeWatcher (ctx : TokenContext) : MarketSignal :=
  let a := baseScore ctx in
  let v := vol ctx in
  let a :=
    if Qgtb v 50000000 then bump 25 "Massive volume" a
    else if Qgtb v 5000000 then bump 18 "Very high volume" a
    else if Qgtb v 1000000 then bump 12 "Strong volume" a
    else if Qgtb v 100000 then bump 5 "Moderate volume" a
    else a in
  let a :=
    if andGt (mPc1h ctx) 5 && Qgtb v 1000000
    then bump 15 "Volume-confirmed price increase" a
    else a in
  let a :=
    if andGt (mPc24h ctx) 0 && Qgtb v 5000000
    then bump 8 "Sustained volume with positive 24h trend" a
    else a in
  buildSignal ctx (strategyOverlay ctx "volume_watcher" a).

Definition scoreTrendFollower (ctx : TokenContext) : MarketSignal :=
  let a := baseScore ctx in
  let v := vol ctx in
  let a :=
    if Qltb v 100000 then bump (-8) "Low liquidity for trend following" a
    else a in
  let a :=
    if andGt (mPc1h ctx) 10 then bump 18 "Strong 1h trend" a
    else if andGt (mPc1h ctx) 3 then bump 8 "Positive 1h" a
    else a in
  let a :=
    if andGt (mPc24h ctx) 20 then bump 12 "Strong 24h trend" a
    else if andGt (mPc24h ctx) 5 then bump 6 "Positive 24h" a
    else a in
  let a :=
    if andGt (mPc1h ctx) 3 && andGt (mPc24h ctx) 0
    then bump 12 "Multi-timeframe trend alignment" a
    else a in
  let a :=
    if andLt (mPc1h ctx) (-5) then bump (-20) "Downtrend - avoiding" a
    else a in
  buildSignal ctx (strategyOverlay ctx "trend_follower" a).

Definition scoreContrarian (ctx : TokenContext) : MarketSignal :=
  let a := baseScore ctx in
  let v := vol ctx in
  let h := holders ctx in
  let a :=
    if Qltb v 100000 || (h <? 20)
    then bump (-20) "Insufficient liquidity/holders for contrarian play" a
    else a in
  let a :=
    if andLt (mPc1h ctx) (-15) && (50 <? h)
    then bump 25 "Deeply oversold quality token" a
    else if andLt (mPc1h ctx) (-8) && (20 <? h)
    then bump 15 "Dipping with holder base" a
    else if andLt (mPc1h ctx) (-5) && (15 <? h) then bump 8 "Minor dip" a
    else a in
  let a :=
    if andLt (mPc24h ctx) (-20) && andGt (mPc1h ctx) 0
    then bump 20 "Recovery after dump - mean reversion play" a
    else a in
  let a :=
    if andGt (mPc1h ctx) 30
    then bump (-15) "Overpumped - would sell, not buy" a
    else a in
  let a :=
    if mGraduated ctx && Qgtb v 500000
    then bump 8 "Graduated token on dip - higher recovery chance" a
    else a in
  buildSignal ctx (strategyOverlay ctx "contrarian" a).

(** [STRATEGY_SCORERS[strategy]]; [None] is the [undefined] of a key that
    the table lacks. *)
Definition STRATEGY_SCORERS (strategy : string)
  : option (TokenContext -> MarketSignal) :=
  if eqs strategy "alpha_hunter" then Some scoreAlphaHunter
  else if eqs strategy "diamond_hands" then Some scoreDiamondHands
  else if eqs strategy "swing_trader" then Some scoreSwingTrader
  else if eqs strategy "degen_ape" then Some scoreDegenApe
  else if eqs strategy "volume_watcher" then Some scoreVolumeWatcher
  else if eqs strategy "trend_follower" then Some scoreTrendFollower
  else if eqs strategy "contrarian" then Some scoreContrarian
  else if eqs strategy "sniper" then Some scoreSniper
  else None.

End SignalEngine.

(** ** Adaptive learning controller ([learning-system.ts]) *)

Module LearningSystem.

Import JS.
Local Open Scope Q_scope.
Local Open Scope bool_scope.

Record AgentLearningProfile := mkProfile {
  totalTrades : Z;
  wins : Z;
  losses : Z;
  winRate : Q;
  netPnL : Q;
  confidenceThreshold : Q;
  positionSize : Q;
  maxPositions : Z
}.

Definition calculateAdaptiveConfidence (winRate : Q) (totalTrades : Z) : Q :=
  if (totalTrades <? 10)%Z then 75
  else if Qgeb winRate 0.5 then 60
  else if Qgeb winRate 0.35 then 70
  else 70.

Definition calculateAdaptivePositionSize (winRate netPnL : Q) : Q :=
  let baseSize := 5 in
  if Qltb netPnL (-10) then 2
  else if Qgeb winRate 0.5 && Qgtb netPnL 10 then 10
  else if Qgeb winRate 0.4 then 7
  else baseSize.

Definition calculateMaxPositions (winRate : Q) : Z :=
  if Qgeb winRate 0.5 then 5
  else if Qgeb winRate 0.35 then 3
  else 2.

(** [shouldTakeTradeBasedOnLearning(profile, confidence, currentPositions)],
    the [allowed] field.  The confidence is the one [makeAgentDecision]
    returns, which can be [NaN]; [NaN < threshold] is false. *)
Definition shouldTakeTradeBasedOnLearning (profile : AgentLearningProfile)
    (confidence : num) (currentPositions : Z) : bool :=
  if nlt confidence (confidenceThreshold profile) then false
  else if (maxPositions profile <=? currentPositions)%Z then false
  else true.

(** [getRecommendedPositionSize(profile, confidence)] *)
Definition getRecommendedPositionSize (profile : AgentLearningProfile)
    (confidence : Q) : Q :=
  let baseSize := positionSize profile in
  let confidenceMultiplier := 0.5 + confidence / 100 in
  Qmin 15 (Qmax 2 (baseSize * confidenceMultiplier)).

End LearningSystem.

(** ** Advisory calls ([llm-confirm.ts], [llm-decision-maker.ts]) *)

Module Advisory.

Import JS.
Local Open Scope Z_scope.
Local Open Scope bool_scope.

(** What the [try] block around the chat-completion request can meet: the
    request throws (network error, rejection, time-out of the client),
    the response has no content, [JSON.parse] throws on the content, or the
    content parses to a payload [P]. *)
Inductive LLMOutcome (P : Type) :=
| CallThrows
| NoContent
| MalformedJSON
| Parsed (payload : P).

Arguments CallThrows {P}.
Arguments NoContent {P}.
Arguments MalformedJSON {P}.
Arguments Parsed {P} payload.

(** *** [confirmTradeWithLLM] *)

Inductive ConfirmReasoning :=
| NoResponse
| NoReasoningProvided
| FromModel (text : string)
| FallbackOnScore (score : Z).

Record LLMDecision := mkLLMDecision {
  approved : bool;
  reasoning : ConfirmReasoning
}.

(** The parsed JSON of a confirmation: [Boolean(parsed.approved)] and the
    [reasoning] string, [None] when it is absent or empty. *)
Record ConfirmPayload := mkConfirmPayload {
  p_approved : bool;
  p_reasoning : option string
}.

Definition confirmTradeWithLLM (signal : SignalEngine.MarketSignal)
    (out : LLMOutcome ConfirmPayload) : LLMDecision :=
  match out with
  | NoContent => {| approved := false; reasoning := NoResponse |}
  | Parsed p =>
      {| approved := p_approved p;
         reasoning := match p_reasoning p with
                      | Some t => FromModel t
                      | None => NoReasoningProvided
                      end |}
  | CallThrows | MalformedJSON =>
      (* catch: approve only if the signal score is very high *)
      {| approved := 85 <=? SignalEngine.score signal;
         reasoning := FallbackOnScore (SignalEngine.score signal) |}
  end.

(** *** [makeAgentDecision] *)

Inductive Action := BUY | SKIP | SELL.

Inductive DecisionReasoning :=
| DNoResponse
| DFromModel (text : option string)
| LLMError.

(** A field of the parsed JSON where the code expects a number.  The model
    may put anything there; the code looks at whether the value is truthy,
    at what [Math.min] makes of it (it converts with [Number(...)]) and, for
    an amount, at whether [toFixed] can print it. *)
Inductive JsonField :=
| Falsy                       (* absent, [null], [false], [""], [NaN] *)
| Finite (x : Q)              (* a finite number; [0] is falsy *)
| Other (toNumber : Ext.xnum) (* any other value, all of them truthy: a
                                  string, [true], an object, an array, a
                                  literal out of range such as [1e400] *).

(** [!!v] *)
Definition truthyField (v : JsonField) : bool :=
  match v with
  | Falsy => false
  | Finite x => negb (Qeq_bool x 0)
  | Other _ => true
  end.

(** [Math.max(0, Math.min(100, v || 50))] *)
Definition clampConfidence (v : JsonField) : num :=
  match v with
  | Falsy => Some 50%Q
  | Finite x => Some (Qmax 0 (Qmin 100 (if Qeq_bool x 0 then 50%Q else x)))
  | Other Ext.XNaN => NaN
  | Other Ext.XNegInf => Some 0%Q
  | Other (Ext.XFin q) => Some (Qmax 0 (Qmin 100 q))
  | Other Ext.XPosInf => Some 100%Q
  end.

Record AgentDecision := mkDecision {
  action : Action;
  confidence : num;
  d_reasoning : DecisionReasoning;
  targetAmount : JsonField
}.

(** The parsed JSON of a decision: the [action] string and what stands in
    the [confidence] and [targetAmount] fields. *)
Record DecisionPayload := mkDecisionPayload {
  dp_action : string;
  dp_confidence : JsonField;
  dp_reasoning : option string;
  dp_targetAmount : JsonField
}.

(** [["BUY", "SKIP", "SELL"].includes(parsed.action)], else ["SKIP"] *)
Definition validateAction (a : string) : Action :=
  if String.eqb a "BUY" then BUY
  else if String.eqb a "SELL" then SELL
  else SKIP.

Definition makeAgentDecision (out : LLMOutcome DecisionPayload)
  : AgentDecision :=
  match out with
  | NoContent =>
      {| action := SKIP; confidence := Some 0%Q; d_reasoning := DNoResponse;
         targetAmount := Falsy |}
  | Parsed p =>
      let act := validateAction (dp_action p) in
      let conf := clampConfidence (dp_confidence p) in
      let target :=
        match act with
        | BUY =>
            if truthyField (dp_targetAmount p) then dp_targetAmount p
            else Finite (if ngt conf 70 then 10%Q else 5%Q)
        | _ => dp_targetAmount p
        end in
      {| action := act; confidence := conf;
         d_reasoning := DFromModel (dp_reasoning p);
         targetAmount := target |}
  | CallThrows | MalformedJSON =>
      (* catch: "Fallback: Conservative SKIP" *)
      {| action := SKIP; confidence := Some 0%Q; d_reasoning := LLMError;
         targetAmount := Falsy |}
  end.

(** The two advisory paths of the repository: the earlier agent asks
    [confirmTradeWithLLM] about its top signal, the current agent asks
    [makeAgentDecision] about each candidate. *)
Inductive AdvisoryPath := ConfirmPath | DecisionPath.

(** Whether the buy of [signal] goes ahead when the advisory request
    throws. *)
Definition fallbackApproves (path : AdvisoryPath)
    (signal : SignalEngine.MarketSignal) : bool :=
  match path with
  | ConfirmPath => approved (confirmTradeWithLLM signal CallThrows)
  | DecisionPath =>
      match action (makeAgentDecision CallThrows) with
      | BUY => true
      | _ => false
      end
  end.

End Advisory.

(** ** Agent specialization ([agent-specialization.ts]) *)

Module AgentSpecialization.

Import JS Score.
Local Open Scope Z_scope.
Local Open Scope bool_scope.

(** [maxAge: Infinity] is an absent bound: no age exceeds it. *)
Record TimeWindow := mkWindow {
  minAge : option Z;
  maxAge : option Z;
  minCurveProgress : option Q;
  maxCurveProgress : option Q;
  enabled : bool
}.

Definition AGENT_TIME_WINDOWS (strategy : string) : option TimeWindow :=
  if eqs strategy "sniper" then
    Some (mkWindow (Some 60) (Some 180) None None false)
  else if eqs strategy "alpha_hunter" then
    Some (mkWindow (Some 180) (Some 600) None None false)
  else if eqs strategy "volume_watcher" then
    Some (mkWindow (Some 300) (Some 7200) None None true)
  else if eqs strategy "trend_follower" then
    Some (mkWindow (Some 3600) (Some 14400) None None false)
  else if eqs strategy "contrarian" then
    Some (mkWindow (Some 3600) None None None true)
  else if eqs strategy "diamond_hands" then
    Some (mkWindow None None (Some 9500%Q) (Some 9999%Q) false)
  else if eqs strategy "swing_trader" then
    Some (mkWindow (Some 7200) None None None false)
  else if eqs strategy "degen_ape" then
    Some (mkWindow None None None None false)
  else None.

(** [isTokenInWindow(strategy, tokenAgeSeconds, curveProgress).allowed] *)
Definition isTokenInWindow (strategy : string) (tokenAgeSeconds : Z)
    (curveProgress : option Q) : bool :=
  match AGENT_TIME_WINDOWS strategy with
  | None => false
  | Some window =>
      if negb (enabled window) then false
      else if eqs strategy "diamond_hands" then
        match curveProgress with
        | None => false
        | Some cp =>
            if match minCurveProgress window with
               | Some lo => Qltb cp lo | None => false end then false
            else if match maxCurveProgress window with
                    | Some hi => Qgtb cp hi | None => false end then false
            else true
        end
      else if match minAge window with
              | Some lo => tokenAgeSeconds <? lo | None => false end
      then false
      else if match maxAge window with
              | Some hi => hi <? tokenAgeSeconds | None => false end
      then false
      else true
  end.

End AgentSpecialization.

(** ** Position lifecycle ([base-agent.ts]) *)

Module BaseAgent.

Import JS Score Nadfun.
Local Open Scope Z_scope.
Local Open Scope bool_scope.

Definition STALE_HOLD_MINUTES : Q := 90.
Definition SIGNAL_THRESHOLD : Z := 75.

Record TrailingState := mkTrailing {
  peakPnlPct : Q;
  lastUpdated : Z
}.

Inductive ExitType := partial | full.

(** The reason of a sell decision, one constructor per template string of
    the source; a profit-target reason carries its label. *)
Inductive SellReason :=
| NoCostBasis
| ProfitTarget (label : string)
| StopLoss
| TrailingStop
| TimeProfit
| TimeStop
| ExtendedHold
| StalePosition
| Hold.

Record SellDecision := mkSell {
  sell : bool;
  reason : SellReason;
  exitType : ExitType
}.

(** [Number((unrealizedPnl * 10000n) / costBasis) / 100]: the basis points
    as a double, divided by the double 100.  (A quotient of two integers is
    never [NaN].) *)
Definition pnlPercentOf (unrealizedPnl costBasis : Z) : Q :=
  nullish0
    (ofDouble
       (SFdiv prec emax (Number (Z.quot (unrealizedPnl * 10000) costBasis))
          (Number 100))).

(** The PnL percentage [evaluateHoldings] derives from a sell quote
    [monValue] and the stored cost basis. *)
Definition holdingPnlPercent (monValue costBasis : Z) : Q :=
  if 0 <? costBasis then pnlPercentOf (monValue - costBasis) costBasis
  else 0%Q.

Definition hit (label : string) (e : ExitType) : SellDecision :=
  {| sell := true; reason := ProfitTarget label; exitType := e |}.

Definition holdDecision : SellDecision :=
  {| sell := false; reason := Hold; exitType := full |}.

Definition checkStrategyProfitTargets (strategy : string) (pnlPercent : Q)
  : SellDecision :=
  if eqs strategy "sniper" then
    if Qgeb pnlPercent 30 then hit "Snipe moon" full
    else if Qgeb pnlPercent 15 then hit "Snipe profit" partial
    else holdDecision
  else if eqs strategy "alpha_hunter" then
    if Qgeb pnlPercent 20 then hit "Alpha moon" full
    else if Qgeb pnlPercent 12 then hit "Alpha profit" partial
    else holdDecision
  else if eqs strategy "diamond_hands" then
    if Qgeb pnlPercent 60 then hit "Diamond 60%" full
    else if Qgeb pnlPercent 30 then hit "Diamond big win" partial
    else if Qgeb pnlPercent 20 then hit "Diamond partial" partial
    else holdDecision
  else if eqs strategy "swing_trader" then
    if Qgeb pnlPercent 18 then hit "Swing target" full
    else if Qgeb pnlPercent 8 then hit "Swing partial" partial
    else holdDecision
  else if eqs strategy "degen_ape" then
    if Qgeb pnlPercent 60 then hit "Degen 60%" full
    else if Qgeb pnlPercent 30 then hit "Degen big win" partial
    else if Qgeb pnlPercent 15 then hit "Degen partial" partial
    else holdDecision
  else if eqs strategy "volume_watcher" then
    if Qgeb pnlPercent 20 then hit "Volume target" full
    else if Qgeb pnlPercent 12 then hit "Volume partial" partial
    else holdDecision
  else if eqs strategy "trend_follower" then
    if Qgeb pnlPercent 25 then hit "Trend target" full
    else if Qgeb pnlPercent 12 then hit "Trend partial" partial
    else holdDecision
  else if eqs strategy "contrarian" then
    if Qgeb pnlPercent 20 then hit "Contrarian exit" full
    else if Qgeb pnlPercent 12 then hit "Contrarian partial" partial
    else holdDecision
  else holdDecision.

Definition getTrailingStopThreshold (strategy : string) : Q :=
  if eqs strategy "sniper" then 8
  else if eqs strategy "alpha_hunter" then 10
  else if eqs strategy "diamond_hands" then 15
  else if eqs strategy "swing_trader" then 8
  else if eqs strategy "degen_ape" then 12
  else if eqs strategy "volume_watcher" then 10
  else if eqs strategy "trend_follower" then 10
  else if eqs strategy "contrarian" then 10
  else 10.

Definition exitNow (r : SellReason) : SellDecision :=
  {| sell := true; reason := r; exitType := full |}.

(** [stopLoss] of [evaluateSellCondition] *)
Definition stopLossOf (strategy : string) : Q :=
  if eqs strategy "sniper" || eqs strategy "alpha_hunter" then (-5)%Q
  else (-7)%Q.

Definition evaluateSellCondition (strategy : string)
    (costBasis currentValue unrealizedPnl : Z) (trailing : TrailingState)
    (holdDurationMinutes : Q) : SellDecision :=
  if costBasis <=? 0 then
    {| sell := false; reason := NoCostBasis; exitType := full |}
  else
    let pnlPercent := pnlPercentOf unrealizedPnl costBasis in
    (* strategy-specific profit targets *)
    let profitCheck := checkStrategyProfitTargets strategy pnlPercent in
    if sell profitCheck then profitCheck
    (* hard stop-loss *)
    else if Qle_bool pnlPercent (stopLossOf strategy) then exitNow StopLoss
    else
      (* trailing stop *)
      let trailingDropPct := fsub (peakPnlPct trailing) pnlPercent in
      let trailingThreshold := getTrailingStopThreshold strategy in
      if Qgtb (peakPnlPct trailing) 5 && ngt trailingDropPct trailingThreshold
      then exitNow TrailingStop
      (* time-based exits *)
      else if Qgeb holdDurationMinutes 20 && Qgeb pnlPercent 8
      then exitNow TimeProfit
      else if Qgeb holdDurationMinutes 30 && Qgeb pnlPercent 3
      then exitNow TimeProfit
      else if Qgeb holdDurationMinutes 40 && Qle_bool pnlPercent (-3)
      then exitNow TimeStop
      else if Qgeb holdDurationMinutes 60 && Qle_bool pnlPercent (-5)
      then exitNow ExtendedHold
      else if Qgeb holdDurationMinutes STALE_HOLD_MINUTES
      then exitNow StalePosition
      else holdDecision.

Definition calculateSellAmount (totalBalance : Z) (_pnlPercent : Q)
    (exitType : ExitType) : Z :=
  match exitType with
  | full => totalBalance
  | partial =>
      let sellPct := 50 in
      let sellAmount := Z.quot (totalBalance * sellPct) 100 in
      let minSellAmount := Z.quot totalBalance 4 in
      if minSellAmount <? sellAmount then sellAmount else minSellAmount
  end.

(** *** The agent's stores *)

Record Holding := mkHolding {
  h_id : string;
  h_tokenAddress : string;
  h_tokenSymbol : string;
  h_amount : Z;
  h_costBasis : Z
}.

Record Trade := mkTrade {
  t_tokenAddress : string;
  t_amountIn : Z;
  t_amountOut : Z;
  t_pnl : Z;
  t_fullExit : bool
}.

(** The rows of the [holding] table by id, the in-memory [trailingStops]
    map by lower-cased token address, and the sell trades recorded. *)
Record AgentState := mkState {
  holdings : gmap string Holding;
  trailingStops : gmap string TrailingState;
  trades : list Trade
}.

Definition withCostBasis (h : Holding) (c : Z) : Holding :=
  {| h_id := h_id h; h_tokenAddress := h_tokenAddress h;
     h_tokenSymbol := h_tokenSymbol h; h_amount := h_amount h;
     h_costBasis := c |}.

(** [proportionalCost] of [executeSell]; [vaultAfter] is the amount the vault
    reports for the holding after the sale, [None] when that read fails. *)
Definition totalBalanceOf (vaultAfter : option Z) (sellAmount : Z) : Z :=
  match vaultAfter with
  | Some amount => amount + sellAmount
  | None => sellAmount
  end.

Definition proportionalCostOf (costBasis sellAmount totalBalance : Z) : Z :=
  if 0 <? totalBalance then Z.quot (costBasis * sellAmount) totalBalance
  else costBasis.

(** [executeSell(holding, sellAmount, _currentValue, costBasis, reason,
    isFullExit)].  [saleResult] is the [amountOut] of [sellToken], [None]
    when the sale throws; the database is taken to accept its writes. *)
Definition executeSell (saleResult : option Z) (vaultAfter : option Z)
    (holding : Holding) (sellAmount currentValue costBasis : Z)
    (isFullExit : bool) (st : AgentState) : AgentState :=
  match saleResult with
  | None => st
  | Some amountOut =>
      let totalBalance := totalBalanceOf vaultAfter sellAmount in
      let proportionalCost :=
        proportionalCostOf costBasis sellAmount totalBalance in
      let realizedPnl := amountOut - proportionalCost in
      let trade :=
        {| t_tokenAddress := h_tokenAddress holding;
           t_amountIn := sellAmount; t_amountOut := amountOut;
           t_pnl := realizedPnl; t_fullExit := isFullExit |} in
      if isFullExit then
        {| holdings := delete (h_id holding) (holdings st);
           trailingStops :=
             delete (toLowerCase (h_tokenAddress holding)) (trailingStops st);
           trades := trades st ++ trade :: nil |}
      else
        let remainingCost := costBasis - proportionalCost in
        {| holdings :=
             alter (fun h => withCostBasis h
                               (if 0 <? remainingCost then remainingCost
                                else 0))
                   (h_id holding) (holdings st);
           trailingStops := trailingStops st;
           trades := trades st ++ trade :: nil |}
  end.

(** The sell step of [evaluateHoldings] once [evaluateSellCondition] asked
    for an exit of type [exitType] on a holding whose vault balance is
    [balance] and whose sell quote is [monValue]. *)
Definition sellHolding (saleResult : option Z) (vaultAfter : option Z)
    (holding : Holding) (balance monValue : Z) (exitType : ExitType)
    (st : AgentState) : AgentState :=
  let costBasis := h_costBasis holding in
  let pnlPercent := holdingPnlPercent monValue costBasis in
  let sellAmount := calculateSellAmount balance pnlPercent exitType in
  executeSell saleResult vaultAfter holding sellAmount monValue costBasis
    (sellAmount =? balance) st.

(** *** The scan loop of [scanAndBuy] *)

(** The [market] object the agent builds from the inline [market_info]. *)
Definition inlineMarket (t : RecentToken) (m : MarketInfo) : TokenMarketData :=
  {| price := strOr (price_native m) (strOr (mi_price m) (Str (Some 0%Q)));
     market_cap := strOr (reserve_native m) (Str (Some 0%Q));
     volume_24h := strOr (mi_volume m) (Str (Some 0%Q));
     price_change_1h := Some (nullish0 (percent_1h t));
     price_change_24h := Some (nullish0 (percent t));
     holder_count := Some (countOr0 (mi_holder_count m));
     is_graduated := String.eqb (market_type m) "DEX" |}.

Definition tokenKey (t : RecentToken) : string :=
  toLowerCase (token_id (token_info t)).

(** [tokenMarketPairs]: the first twenty tokens that carry [market_info]. *)
Fixpoint marketPairs (tokens : list RecentToken)
  : list MarketRegime.TokenDataPair :=
  match tokens with
  | nil => nil
  | t :: ts =>
      match market_info t with
      | Some m =>
          {| MarketRegime.token := t;
             MarketRegime.market := Some (inlineMarket t m) |}
          :: marketPairs ts
      | None => marketPairs ts
      end
  end.

Definition tokenMarketPairs (recentTokens : list RecentToken)
  : list MarketRegime.TokenDataPair :=
  marketPairs (firstn 20 recentTokens).

(** [tokenMarketPairs.find(p => ...toLowerCase() === tokenAddress)?.market] *)
Definition cachedMarket (pairs : list MarketRegime.TokenDataPair)
    (tokenAddress : string) : option TokenMarketData :=
  match List.find (fun p => String.eqb (tokenKey (MarketRegime.token p))
                              tokenAddress) pairs with
  | Some p => MarketRegime.market p
  | None => None
  end.

Section Scan.

(** The agent and the instant of the cycle. *)
Variable strategy : string.
Variable nowSec : Z.
(** The cycle's blacklist (held, bought by another agent, recently sold). *)
Variable blacklist : gset string.
(** External collaborators: the dead-token registry, the curve-progress
    read ([None] when it throws), the chart and the holder list. *)
Variable deadTokenBlacklisted : string -> bool.
Variable getCurveProgress : string -> option Q.
Variable getTokenChart : string -> list TechnicalAnalysis.ChartCandle.
Variable getTokenHolders : string -> list WhaleAnalysis.HolderData.
Variable Math_sqrt : Q -> Q.
(** Shared per cycle. *)
Variable pairs : list MarketRegime.TokenDataPair.
Variable regime : MarketRegime.MarketRegime.

Definition MAX_DETAILED : nat := 5.

(** What one iteration of [for (const token of recentTokens)] does: [None]
    when it leaves through a [continue], otherwise the context handed to the
    scorer.  [detailedCount] is the number of chart fetches so far. *)
Definition prepareContext (detailedCount : nat) (token : RecentToken)
  : option SignalEngine.TokenContext :=
  let tokenAddress := tokenKey token in
  if decide (tokenAddress ∈ blacklist) then None else
  let market :=
    match market_info token with
    | Some m => Some (inlineMarket token m)
    | None => cachedMarket pairs tokenAddress
    end in
  match market with
  | None => None
  | Some market =>
    (* FILTER 1: blacklisted dead tokens *)
    if deadTokenBlacklisted tokenAddress then None else
    (* FILTER 2: quality check *)
    if negb (QualityFilter.passed
               (QualityFilter.checkTokenQuality nowSec token)) then None else
    (* FILTER 3: non-zero price *)
    if nle (parseFloatOr0 (price market)) 0 then None else
    (* FILTER 3: minimum volume *)
    let vol24hMon := SignalEngine.volumeToMon (volume_24h market) in
    let minVolume :=
      if eqs strategy "sniper" || eqs strategy "alpha_hunter"
      then 100%Q else 1000%Q in
    if Qltb vol24hMon minVolume then None else
    (* FILTER 4: minimum 30 holders *)
    if match holder_count market with
       | Some h => h <? 30 | None => false end then None else
    (* FILTER 5: tokens dumping hard *)
    if negb (eqs strategy "contrarian")
       && Qltb (nullish0 (price_change_1h market)) (-20) then None else
    let ageSeconds := nowSec - created_at (token_info token) in
    let curveProgress := getCurveProgress tokenAddress in
    (* FILTER 6: time window *)
    if negb (AgentSpecialization.isTokenInWindow strategy ageSeconds
               curveProgress) then None else
    let detailed := (detailedCount <? MAX_DETAILED)%nat in
    let chart := getTokenChart tokenAddress in
    let technical :=
      if detailed && (5 <=? length chart)%nat
      then Some (TechnicalAnalysis.computeIndicators Math_sqrt chart)
      else None in
    let holderList := getTokenHolders tokenAddress in
    let whaleData :=
      if detailed && (0 <? length holderList)%nat
      then Some (WhaleAnalysis.analyzeHolders holderList)
      else None in
    Some {| SignalEngine.token := token;
            SignalEngine.market := Some market;
            SignalEngine.curveProgress := curveProgress;
            SignalEngine.ageSeconds := ageSeconds;
            SignalEngine.technical := technical;
            SignalEngine.whaleData := whaleData;
            SignalEngine.regime := Some regime |}
  end.

(** The loop, for a scorer taken from [STRATEGY_SCORERS].  It returns the
    contexts on which the scorer was called, in order, each with the signal
    it produced. *)
Fixpoint scanLoop (scorer : SignalEngine.TokenContext -> SignalEngine.MarketSignal)
    (detailedCount : nat) (tokens : list RecentToken)
  : list (SignalEngine.TokenContext * SignalEngine.MarketSignal) :=
  match tokens with
  | nil => nil
  | token :: rest =>
      match prepareContext detailedCount token with
      | None => scanLoop scorer detailedCount rest
      | Some ctx =>
          let detailedCount' :=
            if (detailedCount <? MAX_DETAILED)%nat then S detailedCount
            else detailedCount in
          (ctx, scorer ctx) :: scanLoop scorer detailedCount' rest
      end
  end.

End Scan.

(** The scoring part of [scanAndBuy]: every scorer call of the cycle, and
    the [signals] array before it is sorted.  [None] is the early return on
    an unknown strategy. *)
Definition scanAndScore (strategy : string) (nowSec : Z)
    (blacklist : gset string) (deadTokenBlacklisted : string -> bool)
    (getCurveProgress : string -> option Q)
    (getTokenChart : string -> list TechnicalAnalysis.ChartCandle)
    (getTokenHolders : string -> list WhaleAnalysis.HolderData)
    (Math_sqrt : Q -> Q) (recentTokens : list RecentToken)
  : option (list (SignalEngine.TokenContext * SignalEngine.MarketSignal)
            * list SignalEngine.MarketSignal) :=
  let pairs := tokenMarketPairs recentTokens in
  let regimeAnalysis := MarketRegime.detectMarketRegime nowSec pairs in
  let regime := MarketRegime.regime regimeAnalysis in
  let dynamicThreshold :=
    MarketRegime.regimeThresholdAdjustment regime SIGNAL_THRESHOLD in
  match SignalEngine.STRATEGY_SCORERS strategy with
  | None => None
  | Some scorer =>
      let calls :=
        scanLoop strategy nowSec blacklist deadTokenBlacklisted
          getCurveProgress getTokenChart getTokenHolders Math_sqrt pairs
          regime scorer 0 recentTokens in
      Some (calls,
            List.filter
              (fun s => dynamicThreshold <=? SignalEngine.score s)
              (map snd calls))
  end.

End BaseAgent.

(** ** Sample inputs

    Concrete values on which the properties below are exercised. *)

Module Samples.

Import JS Nadfun.
Local Open Scope Z_scope.

Definition wei (mon : Z) : numstr := Str (Some (inject_Z (mon * 10 ^ 18))).

(** A token nobody trades: no market data at all. *)
Definition ghostToken : RecentToken :=
  {| token_info := {| token_id := "0xDEAD"; name := "ghost"; symbol := "GHO";
                      created_at := 0 |};
     market_info := None; percent := None; percent_1h := None |}.

Definition ghostContext : SignalEngine.TokenContext :=
  {| SignalEngine.token := ghostToken; SignalEngine.market := None;
     SignalEngine.curveProgress := None; SignalEngine.ageSeconds := 0;
     SignalEngine.technical := None; SignalEngine.whaleData := None;
     SignalEngine.regime := None |}.

(** Reserve of 10 MON, 5 holders, created 30 minutes before [thinNow]. *)
Definition thinNow : Z := 1700000000.

Definition thinMarket : MarketInfo :=
  {| market_type := "CURVE"; reserve_native := wei 10;
     mi_price := Str (Some 1%Q); price_native := Str (Some 1%Q);
     mi_volume := wei 5000; mi_holder_count := Some 5 |}.

Definition thinToken : RecentToken :=
  {| token_info := {| token_id := "0xF00D"; name := "thin"; symbol := "THN";
                      created_at := thinNow - 1800 |};
     market_info := Some thinMarket; percent := Some 12%Q;
     percent_1h := Some 12%Q |}.

(** A batch of five: four tokens up 10% over the hour and one flat, so the
    average 1h change is +8% and the breadth 80%. *)
Definition batchToken (id : string) : RecentToken :=
  {| token_info := {| token_id := id; name := id; symbol := id;
                      created_at := 0 |};
     market_info := None; percent := None; percent_1h := None |}.

Definition batchPair (id : string) (change1h : Q) : MarketRegime.TokenDataPair :=
  {| MarketRegime.token := batchToken id;
     MarketRegime.market :=
       Some {| price := Str (Some 1%Q); market_cap := wei 10;
               volume_24h := wei 1000; price_change_1h := Some change1h;
               price_change_24h := Some 0%Q; holder_count := Some 40;
               is_graduated := false |} |}.

Definition risingBatch : list MarketRegime.TokenDataPair :=
  batchPair "0xa1" 10 :: batchPair "0xa2" 10 :: batchPair "0xa3" 10
  :: batchPair "0xa4" 10 :: batchPair "0xa5" 0 :: nil.

(** Five tokens of a calm market: two slightly up, two slightly down, one
    flat. *)
Definition calmBatch : list MarketRegime.TokenDataPair :=
  batchPair "0xb1" 1 :: batchPair "0xb2" 1 :: batchPair "0xb3" (-1)
  :: batchPair "0xb4" (-1) :: batchPair "0xb5" 0 :: nil.

(** A signal with a raw score of [n]. *)
Definition signalScoring (n : Z) : SignalEngine.MarketSignal :=
  SignalEngine.buildSignal ghostContext (n, nil).

(** A position of [2 * 10^18] token units bought for [10^18 + 1] wei. *)
Definition oddHolding : BaseAgent.Holding :=
  {| BaseAgent.h_id := "h1"; BaseAgent.h_tokenAddress := "0xF00D";
     BaseAgent.h_tokenSymbol := "THN"; BaseAgent.h_amount := 2 * 10 ^ 18;
     BaseAgent.h_costBasis := 10 ^ 18 + 1 |}.

Definition oddState : BaseAgent.AgentState :=
  {| BaseAgent.holdings := {[ "h1"%string := oddHolding ]};
     BaseAgent.trailingStops := ∅; BaseAgent.trades := nil |}.

End Samples.

(** ** Coordinator housekeeping ([AgentCoordinator], monitoring entry points) *)

Module CoordinatorOps.

Import JS AgentCoordinator.

(** [getAllClaims()]: the sweep, then the records left (in the order of the
    map's enumeration). *)
Definition getAllClaims (now : Z) (claims : gmap string TokenClaim)
  : list TokenClaim * gmap string TokenClaim :=
  let claims := cleanupExpiredClaims now claims in
  (map snd (map_to_list claims), claims).

(** One turn of the loop of [releaseAllByAgent] on the entry
    [(address, claim)], with the counter [released] and the map so far. *)
Definition releaseStep (agent : string) (address : string) (claim : TokenClaim)
    (st : Z * gmap string TokenClaim) : Z * gmap string TokenClaim :=
  if String.eqb (agentId claim) agent
  then (fst st + 1, delete address (snd st))
  else st.

(** [releaseAllByAgent(agentId)]: the loop over the entries of the map;
    returns [released] and the map left. *)
Definition releaseAllByAgent (agent : string)
    (claims : gmap string TokenClaim) : Z * gmap string TokenClaim :=
  map_fold (releaseStep agent) (0, claims) claims.

(** One turn of the loop of [getStats]:
    [claimsByAgent[name] = (claimsByAgent[name] || 0) + 1]. *)
Definition statsStep (_ : string) (claim : TokenClaim)
    (claimsByAgent : gmap string Z) : gmap string Z :=
  <[agentName claim :=
      (match claimsByAgent !! agentName claim with
       | Some n => if n =? 0 then 0 else n
       | None => 0
       end) + 1]> claimsByAgent.

Record Stats := mkStats {
  activeClaims : Z;
  claimsByAgent : gmap string Z
}.

(** [getStats()] at instant [now]; returns the figures and the swept map. *)
Definition getStats (now : Z) (claims : gmap string TokenClaim)
  : Stats * gmap string TokenClaim :=
  let claims := cleanupExpiredClaims now claims in
  ({| activeClaims := Z.of_nat (size claims);
      claimsByAgent := map_fold statsStep ∅ claims |}, claims).

(** [reset()] *)
Definition reset (claims : gmap string TokenClaim)
  : gmap string TokenClaim := ∅.

(** The shape every operation of the coordinator keeps: a record sits under
    its own [tokenAddress], and that key is in lower case. *)
Definition keyed (claims : gmap string TokenClaim) : Prop :=
  forall k c, claims !! k = Some c ->
    tokenAddress c = k /\ toLowerCase k = k.

End CoordinatorOps.

(** ** Dead-token blacklist ([dead-token-blacklist.ts]) *)

Module DeadTokenBlacklist.

Import JS.

Record DeadTokenEntry := mkDeadToken {
  tokenAddress : string;
  tokenSymbol : string;
  detectedAt : Z;
  holderGrowth : Z;
  reason : string
}.

Definition BLACKLIST_DURATION : Z := 60 * 60 * 1000.

(** [add(tokenAddress, tokenSymbol, holderGrowth, reason)] at instant [now] *)
Definition add (tokenAddr sym : string) (growth : Z) (why : string)
    (now : Z) (blacklist : gmap string DeadTokenEntry)
  : gmap string DeadTokenEntry :=
  let entry := {| tokenAddress := toLowerCase tokenAddr; tokenSymbol := sym;
                  detectedAt := now; holderGrowth := growth;
                  reason := why |} in
  <[tokenAddress entry := entry]> blacklist.

(** [cleanup()]: every entry with [now - detectedAt > BLACKLIST_DURATION] is
    deleted. *)
Definition cleanup (now : Z) (blacklist : gmap string DeadTokenEntry)
  : gmap string DeadTokenEntry :=
  filter (fun kv : string * DeadTokenEntry =>
            ~ (now - detectedAt kv.2 > BLACKLIST_DURATION)) blacklist.

(** [isBlacklisted(tokenAddress)] *)
Definition isBlacklisted (tokenAddr : string) (now : Z)
    (blacklist : gmap string DeadTokenEntry)
  : bool * gmap string DeadTokenEntry :=
  let blacklist := cleanup now blacklist in
  (match blacklist !! toLowerCase tokenAddr with
   | Some _ => true
   | None => false
   end, blacklist).

(** [getInfo(tokenAddress)] *)
Definition getInfo (tokenAddr : string) (now : Z)
    (blacklist : gmap string DeadTokenEntry)
  : option DeadTokenEntry * gmap string DeadTokenEntry :=
  let blacklist := cleanup now blacklist in
  (blacklist !! toLowerCase tokenAddr, blacklist).

(** [size()] *)
Definition size (now : Z) (blacklist : gmap string DeadTokenEntry)
  : Z * gmap string DeadTokenEntry :=
  let blacklist := cleanup now blacklist in
  (Z.of_nat (base.size blacklist), blacklist).

End DeadTokenBlacklist.

(** ** Post-buy monitor ([post-buy-monitor.ts]) *)

Module PostBuyMonitor.

Import JS Nadfun Ext.
Local Open Scope Z_scope.
Local Open Scope bool_scope.

Inductive MonitorAction :=
| HOLD
| SELL_DEMAND_SPIKE
| SELL_DEAD_TOKEN
| SELL_MOMENTUM_DYING.

Inductive Momentum := ACCELERATING | STABLE | DYING | DEAD.

Record BuyMetrics := mkBuyMetrics {
  tokenAddress : string;
  tokenSymbol : option string;
  buyTime : Z;
  buyPrice : num;
  buyHolderCount : Z;
  buyVolume : num;
  buyCurveProgress : num
}.

Record MomentumSnapshot := mkSnapshot {
  timestamp : Z;
  holderCount : Z;
  volume : num;
  price : num;
  curveProgress : num
}.

Record MonitorMetrics := mkMetrics {
  holderGrowth : Z;
  volumeGrowth : xnum;
  priceChange : xnum;
  momentum : Momentum
}.

(** The [reason] text is left out. *)
Record MonitoringResult := mkResult {
  action : MonitorAction;
  confidence : Z;
  metrics : option MonitorMetrics
}.

(** The three maps of the monitor, keyed by the token address as given. *)
Record MonitorState := mkMonitor {
  snapshots : gmap string (list MomentumSnapshot);
  twoMinCheckDone : gmap string bool;
  fiveMinCheckDone : gmap string bool
}.

(** [startMonitoring(buyMetrics)] *)
Definition startMonitoring (b : BuyMetrics) (st : MonitorState)
  : MonitorState :=
  {| snapshots :=
       <[tokenAddress b :=
           {| timestamp := buyTime b; holderCount := buyHolderCount b;
              volume := buyVolume b; price := buyPrice b;
              curveProgress := buyCurveProgress b |}
           :: nil]> (snapshots st);
     twoMinCheckDone := twoMinCheckDone st;
     fiveMinCheckDone := fiveMinCheckDone st |}.

(** [stopMonitoring(tokenAddress)] *)
Definition stopMonitoring (tok : string) (st : MonitorState) : MonitorState :=
  {| snapshots := delete tok (snapshots st);
     twoMinCheckDone := delete tok (twoMinCheckDone st);
     fiveMinCheckDone := delete tok (fiveMinCheckDone st) |}.

(** [analyzeMomentumTrend(snapshots)], which never answers [DEAD] *)
Definition analyzeMomentumTrend (snaps : list MomentumSnapshot) : Momentum :=
  if (length snaps <? 3)%nat then STABLE
  else
    match TechnicalAnalysis.sliceLast 3 snaps with
    | r0 :: r1 :: r2 :: _ =>
        let growthRate1 := holderCount r1 - holderCount r0 in
        let growthRate2 := holderCount r2 - holderCount r1 in
        if (growthRate1 <? growthRate2) && (3 <=? growthRate2)
        then ACCELERATING
        else if (growthRate2 <? growthRate1) && (growthRate2 <=? 1)
        then DYING
        else STABLE
    | _ => STABLE
    end.

(** [classifyMomentum(holderGrowth, elapsedSeconds)] *)
Definition classifyMomentum (holderGrowth : Z) (elapsedSeconds : Q)
  : Momentum :=
  let holderGrowthRate :=
    xdiv (Some (inject_Z holderGrowth)) (Some (elapsedSeconds / 60)%Q) in
  if xge holderGrowthRate 5 then ACCELERATING
  else if xge holderGrowthRate 2 then STABLE
  else if xge holderGrowthRate 0.5 then DYING
  else DEAD.

(** What [getTokenPrice] does: it throws, answers [null], or answers. *)
Inductive PriceFetch :=
| FetchThrows
| FetchNull
| FetchData (m : TokenMarketData).

(** [parseFloat(s)] *)
Definition parseFloat (s : numstr) : num :=
  match s with EmptyStr => None | Str v => v end.

(** [!map.get(tokenAddress)] *)
Definition notDone (m : gmap string bool) (tok : string) : bool :=
  match m !! tok with Some true => false | _ => true end.

Definition sellResult (a : MonitorAction) (c : Z) (hg : Z) (vg pc : xnum)
    (m : Momentum) : MonitoringResult :=
  {| action := a; confidence := c;
     metrics := Some {| holderGrowth := hg; volumeGrowth := vg;
                        priceChange := pc; momentum := m |} |}.

(** [checkMomentum(tokenAddress, buyMetrics)] at instant [now] (milliseconds);
    [fetched] is the answer of [getTokenPrice] and [holdersLength] the length
    of the holder list ([None] when that request fails).  It returns the
    verdict, the monitor's maps and the dead-token blacklist. *)
Definition checkMomentum (tok : string) (b : BuyMetrics) (now : Z)
    (fetched : PriceFetch) (holdersLength : option Z)
    (st : MonitorState)
    (blacklist : gmap string DeadTokenBlacklist.DeadTokenEntry)
  : MonitoringResult * MonitorState
    * gmap string DeadTokenBlacklist.DeadTokenEntry :=
  let elapsedSeconds := (inject_Z (now - buyTime b) / 1000)%Q in
  match fetched with
  | FetchThrows =>
      ({| action := HOLD; confidence := 30; metrics := None |}, st, blacklist)
  | FetchNull =>
      ({| action := HOLD; confidence := 0; metrics := None |}, st, blacklist)
  | FetchData marketData =>
      let currentPrice := parseFloat (Nadfun.price marketData) in
      let currentVolume := parseFloatOr0 (volume_24h marketData) in
      let currentHolders :=
        match holder_count marketData with
        | Some h =>
            if negb (h =? 0) then h
            else match holdersLength with
                 | Some n => n | None => buyHolderCount b end
        | None =>
            match holdersLength with
            | Some n => n | None => buyHolderCount b end
        end in
      (* add snapshot *)
      let snaps :=
        (match snapshots st !! tok with Some l => l | None => nil end)
        ++ {| timestamp := now; holderCount := currentHolders;
              volume := currentVolume; price := currentPrice;
              curveProgress := Some 0%Q |} :: nil in
      let st := {| snapshots := <[tok := snaps]> (snapshots st);
                   twoMinCheckDone := twoMinCheckDone st;
                   fiveMinCheckDone := fiveMinCheckDone st |} in
      (* growth metrics *)
      let holderGrowth := currentHolders - buyHolderCount b in
      let volumeGrowth := xdiv currentVolume (buyVolume b) in
      let priceChange :=
        xmulc (xdiv (nsub currentPrice (buyPrice b)) (buyPrice b)) 100 in
      let sold a c m :=
        sellResult a c holderGrowth volumeGrowth priceChange m in
      let dead :=
        match tokenSymbol b with
        | Some s => if String.eqb s "" then String.substring 0 10 tok else s
        | None => String.substring 0 10 tok
        end in
      (* the part after the two check points *)
      let momentumAnalysis st blacklist :=
        let analysed :=
          if Qgeb elapsedSeconds 600 && (3 <=? length snaps)%nat
          then
            match analyzeMomentumTrend snaps with
            | ACCELERATING =>
                if xge priceChange 20
                then Some (sold SELL_DEMAND_SPIKE 90 ACCELERATING)
                else None
            | DYING =>
                if xlt priceChange (-5) && Qgeb elapsedSeconds 1800
                then Some (sold SELL_MOMENTUM_DYING 80 DYING)
                else None
            | _ => None
            end
          else None in
        match analysed with
        | Some r => (r, st, blacklist)
        | None =>
            (sold HOLD 50 (classifyMomentum holderGrowth elapsedSeconds),
             st, blacklist)
        end in
      (* mid check, 30 minutes *)
      let midCheck st blacklist :=
        if Qgeb elapsedSeconds 1800 && notDone (fiveMinCheckDone st) tok
        then
          let st := {| snapshots := snapshots st;
                       twoMinCheckDone := twoMinCheckDone st;
                       fiveMinCheckDone :=
                         <[tok := true]> (fiveMinCheckDone st) |} in
          if (50 <=? holderGrowth) && xge priceChange 25
          then (sold SELL_DEMAND_SPIKE 98 ACCELERATING, st, blacklist)
          else if (holderGrowth <=? 7) && xlt priceChange (-2)
          then (sold SELL_MOMENTUM_DYING 85 DYING, st,
                DeadTokenBlacklist.add tok dead holderGrowth
                  "Momentum dying" now blacklist)
          else momentumAnalysis st blacklist
        else momentumAnalysis st blacklist in
      (* early check, 15 minutes *)
      if Qgeb elapsedSeconds 900 && notDone (twoMinCheckDone st) tok
      then
        let st := {| snapshots := snapshots st;
                     twoMinCheckDone := <[tok := true]> (twoMinCheckDone st);
                     fiveMinCheckDone := fiveMinCheckDone st |} in
        if (30 <=? holderGrowth) && xge priceChange 15
        then (sold SELL_DEMAND_SPIKE 95 ACCELERATING, st, blacklist)
        else if (15 <=? holderGrowth) && xge priceChange 10
        then (sold SELL_DEMAND_SPIKE 85 ACCELERATING, st, blacklist)
        else if (holderGrowth <=? 4) && xlt priceChange (-3)
        then (sold SELL_DEAD_TOKEN 90 DEAD, st,
              DeadTokenBlacklist.add tok dead holderGrowth
                "Dead launch" now blacklist)
        else midCheck st blacklist
      else midCheck st blacklist
  end.

(** The post-buy step of [evaluateHoldings] for one holding.  [now] is the
    instant at which the agent computed [holdDurationMinutes], [monitorNow]
    the later instant at which [checkMomentum] reads the clock; [signal] is
    the signal stored with the first buy ([None] when there is none), from
    which the buy metrics are rebuilt.  [None] is returned when no check is
    made. *)
Definition holdDurationMinutes (acquiredAt : option Z) (now : Z) : Q :=
  match acquiredAt with
  | Some t => (inject_Z (now - t) / 60000)%Q
  | None => 0%Q
  end.

Definition postBuyCheck (tok : string) (acquiredAt : option Z) (now : Z)
    (signal : option BuyMetrics) (monitorNow : Z)
    (fetched : PriceFetch) (holdersLength : option Z)
    (st : MonitorState)
    (blacklist : gmap string DeadTokenBlacklist.DeadTokenEntry)
  : option MonitoringResult * MonitorState
    * gmap string DeadTokenBlacklist.DeadTokenEntry :=
  match acquiredAt with
  | Some buyTime =>
      if Qle_bool (holdDurationMinutes acquiredAt now) 10 then
        match signal with
        | None => (None, st, blacklist)
        | Some s =>
            let '(r, st, blacklist) :=
              checkMomentum tok
                {| tokenAddress := tok; tokenSymbol := None;
                   buyTime := buyTime; buyPrice := buyPrice s;
                   buyHolderCount := buyHolderCount s;
                   buyVolume := buyVolume s;
                   buyCurveProgress := buyCurveProgress s |}
                monitorNow fetched holdersLength st blacklist in
            (Some r, st, blacklist)
        end
      else (None, st, blacklist)
  | None => (None, st, blacklist)
  end.

End PostBuyMonitor.

(** ** Volume spike detector ([volume-spike-detector.ts]) *)

Module VolumeSpikeDetector.

Import JS Nadfun Ext.
Local Open Scope Z_scope.
Local Open Scope bool_scope.

Record VolumeSnapshot := mkVolumeSnapshot {
  tokenAddress : string;
  volume24h : num;
  timestamp : Z;
  holderCount : Z
}.

Record VolumeSpike := mkSpike {
  sp_tokenAddress : string;
  sp_tokenSymbol : string;
  volumeIncrease : xnum;
  previousVolume : num;
  currentVolume : num;
  holderGrowth : Z;
  detectedAt : Z
}.

Definition MIN_VOLUME_INCREASE : Q := 0.5.
Definition MIN_BASE_VOLUME : Q := 10.
Definition SNAPSHOT_HISTORY_SIZE : nat := 6.

(** [analyzeToken(tokenData)] at instant [now]: the spike handed to the
    callbacks, if any, and the history map. *)
Definition analyzeToken (tokenData : RecentToken) (now : Z)
    (volumeHistory : gmap string (list VolumeSnapshot))
  : option VolumeSpike * gmap string (list VolumeSnapshot) :=
  let tokenAddress := toLowerCase (token_id (token_info tokenData)) in
  let currentVolume :=
    ndivc (parseFloatOr0 (match market_info tokenData with
                          | Some m => mi_volume m
                          | None => EmptyStr
                          end)) e18 in
  let holderCount :=
    match market_info tokenData with
    | Some m => countOr0 (mi_holder_count m)
    | None => 0
    end in
  if nlt currentVolume MIN_BASE_VOLUME then (None, volumeHistory)
  else
    let history :=
      match volumeHistory !! tokenAddress with
      | Some h => h
      | None => nil
      end in
    let snapshot :=
      {| tokenAddress := tokenAddress; volume24h := currentVolume;
         timestamp := now; holderCount := holderCount |} in
    let history := history ++ snapshot :: nil in
    let history :=
      if (SNAPSHOT_HISTORY_SIZE <? length history)%nat then tl history
      else history in
    let volumeHistory := <[tokenAddress := history]> volumeHistory in
    if (length history <? 2)%nat then (None, volumeHistory)
    else
      match List.nth_error history (length history - 2) with
      | None => (None, volumeHistory)
      | Some previous =>
          let volumeIncrease :=
            xdiv (nsub currentVolume (volume24h previous))
                 (volume24h previous) in
          let holderGrowth := holderCount - VolumeSpikeDetector.holderCount previous in
          if xge volumeIncrease MIN_VOLUME_INCREASE && (3 <=? holderGrowth)
          then
            (Some {| sp_tokenAddress := tokenAddress;
                     sp_tokenSymbol := symbol (token_info tokenData);
                     volumeIncrease := xmulc volumeIncrease 100;
                     previousVolume := volume24h previous;
                     currentVolume := currentVolume;
                     holderGrowth := holderGrowth;
                     detectedAt := now |},
             volumeHistory)
          else (None, volumeHistory)
      end.

(** [cleanupOldSnapshots()] at instant [now] *)
Definition cleanupOldSnapshots (now : Z)
    (volumeHistory : gmap string (list VolumeSnapshot))
  : gmap string (list VolumeSnapshot) :=
  let oneHourAgo := now - 60 * 60 * 1000 in
  omap (fun history =>
          let recent :=
            List.filter (fun s => oneHourAgo <? timestamp s) history in
          match recent with
          | nil => None
          | _ => Some recent
          end) volumeHistory.

(** The shape of the history map between calls: no history is empty or
    longer than six snapshots, and a recorded volume is never a number
    below the base volume. *)
Definition tidy (volumeHistory : gmap string (list VolumeSnapshot)) : Prop :=
  forall k h, volumeHistory !! k = Some h ->
    (1 <= length h <= SNAPSHOT_HISTORY_SIZE)%nat
    /\ Forall (fun s => nlt (volume24h s) MIN_BASE_VOLUME = false) h.

End VolumeSpikeDetector.

(** ** The buy side of a cycle ([learning-system.ts], [scanAndBuy]) *)

Module BuyDecision.

Import JS Score Nadfun LearningSystem Advisory.
Local Open Scope Z_scope.
Local Open Scope bool_scope.

Definition MAX_HOLDINGS_PER_AGENT : Z := 2.

(** [parseEther(TRADE_CONFIG.MIN_TRADE_AMOUNT)], half a MON in wei *)
Definition minAmount : Z := 5 * 10 ^ 17.

(** [getAgentLearningProfile]: the profile computed from the [pnl] column
    of the agent's last trades, [None] for a trade without one. *)
Definition getAgentLearningProfile (pnls : list (option Z))
  : AgentLearningProfile :=
  let totalTrades := Z.of_nat (length pnls) in
  let wins :=
    Z.of_nat (length (List.filter
      (fun p => match p with Some v => 0 <? v | None => false end) pnls)) in
  let losses :=
    Z.of_nat (length (List.filter
      (fun p => match p with Some v => v <? 0 | None => false end) pnls)) in
  let winRate :=
    if 0 <? totalTrades then (inject_Z wins / inject_Z totalTrades)%Q
    else 0%Q in
  let netPnL :=
    TechnicalAnalysis.Qsum
      (map (fun p => match p with
                     | Some v => (inject_Z v / e18)%Q
                     | None => 0%Q
                     end) pnls) in
  {| totalTrades := totalTrades; wins := wins; losses := losses;
     winRate := winRate; netPnL := netPnL;
     confidenceThreshold := calculateAdaptiveConfidence winRate totalTrades;
     positionSize := calculateAdaptivePositionSize winRate netPnL;
     maxPositions := calculateMaxPositions winRate |}.

(** [signals.sort((a, b) => b.score - a.score)]: a stable sort by
    decreasing score. *)
Fixpoint insertByScore (s : SignalEngine.MarketSignal)
    (l : list SignalEngine.MarketSignal) : list SignalEngine.MarketSignal :=
  match l with
  | nil => s :: nil
  | x :: r =>
      if SignalEngine.score x <=? SignalEngine.score s then s :: l
      else x :: insertByScore s r
  end.

Definition sortByScore (l : list SignalEngine.MarketSignal)
  : list SignalEngine.MarketSignal :=
  fold_right insertByScore nil l.

(** [signals.slice(0, Math.min(5, signals.length))] of the sorted signals *)
Definition topCandidates (signals : list SignalEngine.MarketSignal)
  : list SignalEngine.MarketSignal :=
  firstn 5 (sortByScore signals).

(** The loop over the candidates: the first one for which the model says
    [BUY] and the learning check agrees.  [llm] is what the model answers
    when asked about a token. *)
Fixpoint chooseToken (profile : AgentLearningProfile) (holdingsLength : Z)
    (recentTokens : list RecentToken)
    (llm : RecentToken -> SignalEngine.MarketSignal
           -> LLMOutcome DecisionPayload)
    (candidates : list SignalEngine.MarketSignal)
  : option (SignalEngine.MarketSignal * AgentDecision) :=
  match candidates with
  | nil => None
  | signal :: rest =>
      match List.find
              (fun t => String.eqb
                          (toLowerCase (token_id (token_info t)))
                          (toLowerCase (SignalEngine.tokenAddress signal)))
              recentTokens with
      | None => chooseToken profile holdingsLength recentTokens llm rest
      | Some tokenData =>
          let agentDecision := makeAgentDecision (llm tokenData signal) in
          match action agentDecision with
          | BUY =>
              if shouldTakeTradeBasedOnLearning profile
                   (confidence agentDecision) holdingsLength
              then Some (signal, agentDecision)
              else chooseToken profile holdingsLength recentTokens llm rest
          | _ => chooseToken profile holdingsLength recentTokens llm rest
          end
      end
  end.

(** [llmDecision.targetAmount || getRecommendedPositionSize(...)]; the
    recommended size of a confidence that is [NaN] is [NaN]. *)
Definition tradeAmount (profile : AgentLearningProfile)
    (llmDecision : AgentDecision) : JsonField :=
  if truthyField (targetAmount llmDecision) then targetAmount llmDecision
  else
    match confidence llmDecision with
    | Some c => Finite (getRecommendedPositionSize profile c)
    | None => Falsy
    end.

(** The amounts [tradeAmount.toFixed(4)] prints as a decimal: [toFixed]
    exists on numbers only, prints ["NaN"] and ["Infinity"] as such and a
    number of [1e21] or more in exponent notation, and [parseEther] throws
    on each of these. *)
Definition printable (tradeAmount : JsonField) : option Q :=
  match tradeAmount with
  | Finite x => if Qltb (Qabs x) (inject_Z (10 ^ 21)) then Some x else None
  | _ => None
  end.

(** [x.toFixed(4)] in ten-thousandths: the nearest, the larger of two
    equally near. *)
Definition toFixed4 (x : Q) : Z :=
  let n := Qfloor (Qabs x * 10000 + (1 # 2))%Q in
  if Qltb x 0 then - n else n.

(** [parseEther(x.toFixed(4))] *)
Definition parseEther4 (x : Q) : Z := toFixed4 x * 10 ^ 14.

(** What the outside world answers during one [scanAndBuy]: the database
    (addresses held, addresses sold in the last 30 minutes, the [pnl]
    column of the last trades), the chain and the market data provider, the
    model, and the buy itself ([None] when [buyToken] throws). *)
Record BuyEnv := mkBuyEnv {
  mkey : string;
  holdingAddresses : list string;
  recentSellAddresses : list string;
  tradePnls : list (option Z);
  deadTokenBlacklisted : string -> bool;
  getCurveProgress : string -> option Q;
  getTokenChart : string -> list TechnicalAnalysis.ChartCandle;
  getTokenHolders : string -> list WhaleAnalysis.HolderData;
  Math_sqrt : Q -> Q;
  llm : RecentToken -> SignalEngine.MarketSignal
        -> LLMOutcome DecisionPayload;
  buyToken : string -> Q -> option (Z * Z)
}.

(** "Build blacklist: held tokens + MKEY + recently sold + cross-agent
    bought" *)
Definition cycleBlacklist (env : BuyEnv) (crossAgentBlacklist : gset string)
  : gset string :=
  list_to_set (map toLowerCase (holdingAddresses env))
  ∪ {[ toLowerCase (mkey env) ]}
  ∪ crossAgentBlacklist
  ∪ list_to_set (map toLowerCase (recentSellAddresses env)).

Inductive BuyOutcome :=
| InsufficientBalance
| MaxHoldingsReached
| NoTokens
| UnknownStrategy
| NoSignal
| AllSkipped
| AlreadyClaimed
| AmountThrows (tokenAddress : string)
| ExceedsBalance
| BuyFailed
| Bought (tokenAddress : string) (amount : Q).

(** The stores a buy writes to. *)
Record BuyState := mkBuyState {
  claims : gmap string AgentCoordinator.TokenClaim;
  trailingStops : gmap string BaseAgent.TrailingState;
  monitor : PostBuyMonitor.MonitorState
}.

Definition withClaims (st : BuyState)
    (c : gmap string AgentCoordinator.TokenClaim) : BuyState :=
  {| claims := c; trailingStops := trailingStops st;
     monitor := monitor st |}.

(** [scanAndBuy(monBalance, sharedRecentTokens, crossAgentBlacklist)] at
    instant [now] (milliseconds), for the agent [agentId] called [name]. *)
Definition scanAndBuy (strategy agentId name : string) (env : BuyEnv)
    (now : Z) (monBalance : Z) (recentTokens : list RecentToken)
    (crossAgentBlacklist : gset string) (st : BuyState)
  : BuyOutcome * BuyState :=
  if monBalance <? minAmount then (InsufficientBalance, st)
  else
  let holdingsLength := Z.of_nat (length (holdingAddresses env)) in
  if MAX_HOLDINGS_PER_AGENT <=? holdingsLength then (MaxHoldingsReached, st)
  else
  match recentTokens with
  | nil => (NoTokens, st)
  | _ =>
  match BaseAgent.scanAndScore strategy (now / 1000)
          (cycleBlacklist env crossAgentBlacklist)
          (deadTokenBlacklisted env) (getCurveProgress env)
          (getTokenChart env) (getTokenHolders env) (Math_sqrt env)
          recentTokens with
  | None => (UnknownStrategy, st)
  | Some (_, nil) => (NoSignal, st)
  | Some (_, signals) =>
      let learningProfile := getAgentLearningProfile (tradePnls env) in
      match chooseToken learningProfile holdingsLength recentTokens
              (llm env) (topCandidates signals) with
      | None => (AllSkipped, st)
      | Some (topSignal, llmDecision) =>
          let '(claimed, claims) :=
            AgentCoordinator.claimToken
              (SignalEngine.tokenAddress topSignal) agentId name
              "LLM decision" 300000 now (claims st) in
          if negb claimed then (AlreadyClaimed, withClaims st claims)
          else
            match printable (tradeAmount learningProfile llmDecision) with
            | None =>
                (* thrown before the [try]: the claim is not released *)
                (AmountThrows
                   (toLowerCase (SignalEngine.tokenAddress topSignal)),
                 withClaims st claims)
            | Some tradeAmount =>
            if monBalance <? parseEther4 tradeAmount then
              (ExceedsBalance,
               withClaims st
                 (AgentCoordinator.releaseToken
                    (SignalEngine.tokenAddress topSignal) agentId claims))
            else
              match buyToken env (SignalEngine.tokenAddress topSignal)
                      tradeAmount with
              | None =>
                  (BuyFailed,
                   withClaims st
                     (AgentCoordinator.releaseToken
                        (SignalEngine.tokenAddress topSignal) agentId
                        claims))
              | Some _ =>
                  (Bought (toLowerCase (SignalEngine.tokenAddress topSignal))
                     tradeAmount,
                   {| claims := claims;
                      trailingStops :=
                        <[toLowerCase (SignalEngine.tokenAddress topSignal)
                            := {| BaseAgent.peakPnlPct := 0%Q;
                                  BaseAgent.lastUpdated := now |}]>
                          (trailingStops st);
                      monitor :=
                        PostBuyMonitor.startMonitoring
                          {| PostBuyMonitor.tokenAddress :=
                               SignalEngine.tokenAddress topSignal;
                             PostBuyMonitor.tokenSymbol :=
                               Some (SignalEngine.tokenSymbol topSignal);
                             PostBuyMonitor.buyTime := now;
                             PostBuyMonitor.buyPrice :=
                               PostBuyMonitor.parseFloat
                                 (SignalEngine.m_price
                                    (SignalEngine.metrics topSignal));
                             PostBuyMonitor.buyHolderCount :=
                               SignalEngine.m_holderCount
                                 (SignalEngine.metrics topSignal);
                             PostBuyMonitor.buyVolume :=
                               Some (SignalEngine.volumeToMon
                                       (SignalEngine.m_volume24h
                                          (SignalEngine.metrics topSignal)));
                             PostBuyMonitor.buyCurveProgress :=
                               Some (SignalEngine.m_curveProgress
                                       (SignalEngine.metrics topSignal)
                                     / 100)%Q |}
                          (monitor st) |})
              end
            end
      end
  end
  end.

(** One agent of a run: its strategy, identity, the environment and the
    instant of its [scanAndBuy], its vault balance, and the stores as the
    agent finds them. *)
Record AgentRun := mkRun {
  run_strategy : string;
  run_agentId : string;
  run_name : string;
  run_env : BuyEnv;
  run_now : Z;
  run_monBalance : Z;
  run_state : BuyState
}.

(** What [runCycle(sharedRecentTokens, crossAgentBlacklist)] returns: the
    address [scanAndBuy] bought, if any.  ([runCycle] catches every error
    of the cycle itself, the one [scanAndBuy] throws on an amount it cannot
    print included, and then returns what it had collected.) *)
Definition runCycle (sharedRecentTokens : list RecentToken) (a : AgentRun)
    (crossAgentBlacklist : gset string) : option (list string) :=
  Some (match fst (scanAndBuy (run_strategy a) (run_agentId a) (run_name a)
                     (run_env a) (run_now a) (run_monBalance a)
                     sharedRecentTokens crossAgentBlacklist (run_state a))
        with
        | Bought tok _ => tok :: nil
        | _ => nil
        end).

(** [runAllAgentCycles]: the loop over the agents with the shared set
    [boughtThisCycle].  [runCycle agent boughtThisCycle] is what the agent's
    cycle returns: the addresses bought, [None] when it throws. *)
Section Runner.

Variable Agent : Type.
Variable runCycle : Agent -> gset string -> option (list string).

Fixpoint runAllAgentCycles (agents : list Agent)
    (boughtThisCycle : gset string)
  : list (Agent * option (list string)) * gset string :=
  match agents with
  | nil => (nil, boughtThisCycle)
  | agent :: rest =>
      let bought := runCycle agent boughtThisCycle in
      let boughtThisCycle :=
        match bought with
        | Some addrs =>
            boughtThisCycle ∪ list_to_set (map toLowerCase addrs)
        | None => boughtThisCycle
        end in
      let '(results, final) := runAllAgentCycles rest boughtThisCycle in
      ((agent, bought) :: results, final)
  end.

End Runner.

End BuyDecision.

(** ** Holdings evaluation: the trailing-stop record ([evaluateHoldings]) *)

Module HoldingsCycle.

Import JS BaseAgent.
Local Open Scope Z_scope.

(** "Update trailing stop": the record of the token is created at the
    current PnL when absent and raised when the PnL exceeds its peak.  The
    record returned is the one stored in the map. *)
Definition updateTrailing (tokenAddress : string) (pnlPercent : Q) (now : Z)
    (trailingStops : gmap string TrailingState)
  : TrailingState * gmap string TrailingState :=
  let tokenKey := toLowerCase tokenAddress in
  let trailing :=
    match trailingStops !! tokenKey with
    | Some t => t
    | None => {| peakPnlPct := pnlPercent; lastUpdated := now |}
    end in
  let trailing :=
    if Qgtb pnlPercent (peakPnlPct trailing)
    then {| peakPnlPct := pnlPercent; lastUpdated := now |}
    else trailing in
  (trailing, <[tokenKey := trailing]> trailingStops).

(** The sell decision of [evaluateHoldings] for a holding whose sell quote
    is [monValue], acquired at [acquiredAt] ([None] when the column is
    empty), evaluated at instant [now]. *)
Definition evaluateHolding (strategy : string) (tokenAddress : string)
    (costBasis monValue : Z) (acquiredAt : option Z) (now : Z)
    (trailingStops : gmap string TrailingState)
  : SellDecision * gmap string TrailingState :=
  let unrealizedPnl := monValue - costBasis in
  let pnlPercent := holdingPnlPercent monValue costBasis in
  let holdDurationMinutes :=
    PostBuyMonitor.holdDurationMinutes acquiredAt now in
  let '(trailing, trailingStops) :=
    updateTrailing tokenAddress pnlPercent now trailingStops in
  (evaluateSellCondition strategy costBasis monValue unrealizedPnl trailing
     holdDurationMinutes,
   trailingStops).

End HoldingsCycle.

(** ** Trading helpers ([blockchain/trading.ts], [blockchain/client.ts]) *)

Module Trading.

Local Open Scope Z_scope.

Definition SLIPPAGE_BPS : Z := 500.

(** [(amountOut * (10000n - slippageBps)) / 10000n] *)
Definition calculateSlippage (amountOut slippageBps : Z) : Z :=
  Z.quot (amountOut * (10000 - slippageBps)) 10000.

Record TradeResult := mkTradeResult {
  amountIn : Z;
  amountOut : Z;
  amountOutMin : Z
}.

(** [sellToken(..., amount)]: [amount] is the optional argument,
    [vaultAmount] what the vault reports for the holding, [getQuote] the
    quote for a sale and [vaultExecuteSell amountIn amountOutMin] whether
    the vault call goes through.  [None] is a thrown error.  The result
    carries the minimum handed to the vault beside the two amounts the
    source returns. *)
Definition sellToken (amount : option Z) (vaultAmount : option Z)
    (getQuote : Z -> option Z) (vaultExecuteSell : Z -> Z -> bool)
  : option TradeResult :=
  match (match amount with Some a => Some a | None => vaultAmount end) with
  | None => None
  | Some balance =>
      if balance <=? 0 then None
      else
        match getQuote balance with
        | None => None
        | Some amountOut =>
            let amountOutMin := calculateSlippage amountOut SLIPPAGE_BPS in
            if vaultExecuteSell balance amountOutMin
            then Some {| amountIn := balance; amountOut := amountOut;
                         amountOutMin := amountOutMin |}
            else None
        end
  end.

(** [buyToken(..., monAmount)], with [amountIn] for [parseEther(monAmount)] *)
Definition buyToken (amountIn : Z) (getQuote : Z -> option Z)
    (vaultExecuteBuy : Z -> Z -> bool) : option TradeResult :=
  match getQuote amountIn with
  | None => None
  | Some amountOut =>
      let amountOutMin := calculateSlippage amountOut SLIPPAGE_BPS in
      if vaultExecuteBuy amountIn amountOutMin
      then Some {| amountIn := amountIn; amountOut := amountOut;
                   amountOutMin := amountOutMin |}
      else None
  end.

End Trading.

(** ** More sample inputs *)

Module Fixtures.

Import JS Nadfun Samples.
Local Open Scope Z_scope.

(** A seasoned token: reserve of 150 MON, 250 holders, 1200 MON of volume,
    up 12% on the hour, created 10000 seconds before [thinNow]. *)
Definition steadyMarket : MarketInfo :=
  {| market_type := "CURVE"; reserve_native := wei 150;
     mi_price := Str (Some 1%Q); price_native := Str (Some 1%Q);
     mi_volume := wei 1200; mi_holder_count := Some 250 |}.

Definition steadyToken (id : string) : RecentToken :=
  {| token_info := {| token_id := id; name := id; symbol := id;
                      created_at := thinNow - 10000 |};
     market_info := Some steadyMarket; percent := Some 12%Q;
     percent_1h := Some 12%Q |}.

Definition steadyBatch : list RecentToken :=
  steadyToken "0xc1" :: steadyToken "0xc2" :: steadyToken "0xc3"
  :: steadyToken "0xc4" :: steadyToken "0xc5" :: steadyToken "0xc6" :: nil.

(** A graduated token on a dip: 2,000,000 MON of volume, down 16% on the
    hour and up 1% on the day. *)
Definition dipToken : RecentToken :=
  {| token_info := {| token_id := "0xD1P"; name := "dip"; symbol := "DIP";
                      created_at := thinNow - 10000 |};
     market_info :=
       Some {| market_type := "DEX"; reserve_native := wei 150;
               mi_price := Str (Some 1%Q); price_native := Str (Some 1%Q);
               mi_volume := wei 2000000; mi_holder_count := Some 250 |};
     percent := Some 1%Q; percent_1h := Some (-16)%Q |}.

(** A chart of five flat candles and a holder list of two. *)
Definition flatChart (_ : string) : list TechnicalAnalysis.ChartCandle :=
  repeat {| TechnicalAnalysis.timestamp := 0;
            TechnicalAnalysis.price := Some 1%Q;
            TechnicalAnalysis.volume := Some 1%Q |} 5.

Definition twoHolders (_ : string) : list WhaleAnalysis.HolderData :=
  {| WhaleAnalysis.address := "0x01"; WhaleAnalysis.balance := "60";
     WhaleAnalysis.percentage := 60%Q |}
  :: {| WhaleAnalysis.address := "0x02"; WhaleAnalysis.balance := "40";
        WhaleAnalysis.percentage := 40%Q |} :: nil.

(** A contrarian's scan of [steadyBatch], every oracle answering, and its
    scan of the one-token batch [dipToken] with no chart and no holders. *)
Definition steadyScan
  : list (SignalEngine.TokenContext * SignalEngine.MarketSignal) :=
  BaseAgent.scanLoop "contrarian" thinNow ∅ (fun _ => false)
    (fun _ => None) flatChart twoHolders (fun x => x)
    nil MarketRegime.sideways SignalEngine.scoreContrarian 0%nat
    steadyBatch.

Definition dipScan :=
  BaseAgent.scanAndScore "contrarian" thinNow ∅ (fun _ => false)
    (fun _ => None) (fun _ => nil) (fun _ => nil) (fun x => x)
    (dipToken :: nil).

(** A history holding one snapshot of token 0xc1, at 100 MON and 240
    holders, and the detector's answer when [steadyToken] is seen next. *)
Definition seenOnce : gmap string (list VolumeSpikeDetector.VolumeSnapshot) :=
  {[ "0xc1"%string :=
       {| VolumeSpikeDetector.tokenAddress := "0xc1";
          VolumeSpikeDetector.volume24h := Some 100%Q;
          VolumeSpikeDetector.timestamp := 0;
          VolumeSpikeDetector.holderCount := 240 |} :: nil ]}.

Definition steadySpike :=
  VolumeSpikeDetector.analyzeToken (steadyToken "0xc1") 10000 seenOnce.

(** Two contrarian agents with ten MON each, an empty database, and a
    model that answers BUY at 90 percent confidence to everything. *)
Definition eagerEnv : BuyDecision.BuyEnv :=
  {| BuyDecision.mkey := "0xf70ED26B7c425481b365CD397E6b425805B27777";
     BuyDecision.holdingAddresses := nil;
     BuyDecision.recentSellAddresses := nil;
     BuyDecision.tradePnls := nil;
     BuyDecision.deadTokenBlacklisted := fun _ => false;
     BuyDecision.getCurveProgress := fun _ => None;
     BuyDecision.getTokenChart := fun _ => nil;
     BuyDecision.getTokenHolders := fun _ => nil;
     BuyDecision.Math_sqrt := fun x => x;
     BuyDecision.llm := fun _ _ =>
       Advisory.Parsed
         {| Advisory.dp_action := "BUY";
            Advisory.dp_confidence := Advisory.Finite 90;
            Advisory.dp_reasoning := None;
            Advisory.dp_targetAmount := Advisory.Falsy |};
     BuyDecision.buyToken := fun _ _ => Some (10 ^ 19, 1) |}.

Definition eagerAgent (id : string) : BuyDecision.AgentRun :=
  {| BuyDecision.run_strategy := "contrarian";
     BuyDecision.run_agentId := id; BuyDecision.run_name := id;
     BuyDecision.run_env := eagerEnv;
     BuyDecision.run_now := thinNow * 1000;
     BuyDecision.run_monBalance := 10 ^ 19;
     BuyDecision.run_state :=
       {| BuyDecision.claims := ∅; BuyDecision.trailingStops := ∅;
          BuyDecision.monitor :=
            {| PostBuyMonitor.snapshots := ∅;
               PostBuyMonitor.twoMinCheckDone := ∅;
               PostBuyMonitor.fiveMinCheckDone := ∅ |} |} |}.

(** The first of them on a day the model names an amount of [1e21] MON. *)
Definition lavishBuy :=
  let a := eagerAgent "a1" in
  BuyDecision.scanAndBuy "contrarian" "a1" "a1"
    {| BuyDecision.mkey := BuyDecision.mkey eagerEnv;
       BuyDecision.holdingAddresses := nil;
       BuyDecision.recentSellAddresses := nil;
       BuyDecision.tradePnls := nil;
       BuyDecision.deadTokenBlacklisted := fun _ => false;
       BuyDecision.getCurveProgress := fun _ => None;
       BuyDecision.getTokenChart := fun _ => nil;
       BuyDecision.getTokenHolders := fun _ => nil;
       BuyDecision.Math_sqrt := fun x => x;
       BuyDecision.llm := fun _ _ =>
         Advisory.Parsed
           {| Advisory.dp_action := "BUY";
              Advisory.dp_confidence := Advisory.Finite 90;
              Advisory.dp_reasoning := None;
              Advisory.dp_targetAmount :=
                Advisory.Finite (inject_Z (10 ^ 21)) |};
       BuyDecision.buyToken := fun _ _ => Some (10 ^ 19, 1) |}
    (BuyDecision.run_now a) (BuyDecision.run_monBalance a)
    (dipToken :: nil) ∅ (BuyDecision.run_state a).

Definition eagerRun :=
  BuyDecision.runAllAgentCycles BuyDecision.AgentRun
    (BuyDecision.runCycle (dipToken :: nil))
    (eagerAgent "a1" :: eagerAgent "a2" :: nil) ∅.

End Fixtures.

(** * Verified properties *)

Local Open Scope Z_scope.

(** ** Comparisons of the number model *)

Lemma Qltb_lt (x y : Q) : JS.Qltb x y = true <-> (x < y)%Q.
Proof.
  unfold JS.Qltb. rewrite negb_true_iff. split.
  - intros H. apply Qnot_le_lt. intros Hle.
    apply Qle_bool_iff in Hle. congruence.
  - intros H. destruct (Qle_bool y x) eqn:E; [|reflexivity].
    apply Qle_bool_iff in E. exfalso. exact (Qlt_not_le _ _ H E).
Qed.

Lemma Qgtb_gt (x y : Q) : JS.Qgtb x y = true <-> (y < x)%Q.
Proof. unfold JS.Qgtb. apply Qltb_lt. Qed.

Lemma Qle_bool_false (x y : Q) : Qle_bool x y = false <-> ~ (x <= y)%Q.
Proof.
  rewrite <- Qle_bool_iff. destruct (Qle_bool x y); split; intros H.
  - discriminate.
  - exfalso; apply H; reflexivity.
  - discriminate.
  - reflexivity.
Qed.

(** A comparison with [NaN] never holds. *)
Lemma NaN_compares_false (c : Q) :
  JS.nlt JS.NaN c = false /\ JS.ngt JS.NaN c = false
  /\ JS.nle JS.NaN c = false /\ JS.nge JS.NaN c = false.
Proof. repeat split. Qed.

(** Case analysis on every conditional left in the goal. *)
Ltac split_ifs :=
  repeat match goal with
         | |- context [if ?b then _ else _] => destruct b
         end.

(** ** binary64: a quotient of integers is a number *)

Section DoubleFacts.

Import JS.

Lemma shr_1_nonneg mrs : 0 <= shr_m mrs -> 0 <= shr_m (shr_1 mrs).
Proof.
  destruct mrs as [m r s]. simpl. destruct m as [|p|p]; [done| |lia].
  intros _. destruct p; simpl; lia.
Qed.

Lemma iter_pos_shr_1_nonneg p : forall mrs,
  0 <= shr_m mrs -> 0 <= shr_m (SpecFloat.iter_pos shr_1 p mrs).
Proof.
  induction p as [p IH|p IH|]; intros mrs H; simpl.
  - apply IH, IH. by apply shr_1_nonneg.
  - by apply IH, IH.
  - by apply shr_1_nonneg.
Qed.

Lemma shr_fexp_nonneg m e l :
  0 <= m -> 0 <= shr_m (fst (shr_fexp prec emax m e l)).
Proof.
  intros H. unfold shr_fexp, shr.
  assert (H0 : 0 <= shr_m (shr_record_of_loc m l)).
  { destruct l as [|[]]; exact H. }
  destruct (_ - e) as [|p|p]; simpl; try exact H0.
  by apply iter_pos_shr_1_nonneg.
Qed.

(** Rounding a non-negative significand gives a zero, a finite number or
    an infinity. *)
Lemma binary_round_aux_not_nan s m e l :
  0 <= m -> binary_round_aux prec emax s m e l <> S754_nan.
Proof.
  intros H. unfold binary_round_aux.
  pose proof (shr_fexp_nonneg m e l H) as H1.
  destruct (shr_fexp prec emax m e l) as [mrs' e']. simpl in H1.
  assert (H2 : 0 <= round_nearest_even (shr_m mrs') (loc_of_shr_record mrs')).
  { unfold round_nearest_even.
    destruct (loc_of_shr_record mrs') as [|[]]; try lia.
    destruct (Z.even _); lia. }
  pose proof (shr_fexp_nonneg _ e' loc_Exact H2) as H3.
  destruct (shr_fexp prec emax _ e' loc_Exact) as [mrs'' e'']. simpl in H3.
  destruct (shr_m mrs''); [done| |lia].
  by destruct (_ <=? _).
Qed.

Lemma Number_not_nan n : Number n <> S754_nan.
Proof.
  unfold Number, binary_normalize. destruct n as [|p|p]; [done| |].
  all: unfold binary_round; destruct (shl_align _ _ _) as [mz ez];
    by apply binary_round_aux_not_nan.
Qed.

(** [Number(n) / 100] is never [NaN]. *)
Lemma hundredth_not_nan n :
  SFdiv prec emax (Number n) (Number 100) <> S754_nan.
Proof.
  pose proof (Number_not_nan n) as H.
  change (Number 100) with (S754_finite false 7036874417766400 (-46)).
  destruct (Number n) as [s|s| |s m e]; [done|done|done|].
  unfold SFdiv.
  destruct (SFdiv_core_binary _ _ _ _ _ _) as [[mz ez] lz] eqn:E.
  apply binary_round_aux_not_nan.
  unfold SFdiv_core_binary in E.
  destruct (Z.div_eucl _ _) as [q r] eqn:Ed.
  inversion E; subst. clear E.
  match type of Ed with Z.div_eucl ?a ?b = _ =>
    assert (Ha : 0 <= a); [|
      pose proof (Z.div_pos a b Ha ltac:(lia)) as Hd;
      unfold Z.div in Hd; rewrite Ed in Hd; exact Hd] end.
  destruct (_ - _ - _) as [|p|p]; [lia| |lia].
  apply Z.shiftl_nonneg. lia.
Qed.

(** The PnL percentage is the value of the double the source computes. *)
Lemma pnlPercentOf_value unrealizedPnl costBasis :
  ofDouble
    (SFdiv prec emax (Number (Z.quot (unrealizedPnl * 10000) costBasis))
       (Number 100))
  = Some (BaseAgent.pnlPercentOf unrealizedPnl costBasis).
Proof.
  unfold BaseAgent.pnlPercentOf.
  pose proof (hundredth_not_nan (Z.quot (unrealizedPnl * 10000) costBasis))
    as H.
  destruct (SFdiv _ _ _ _) as [s|s| |s m e]; [done|done|done|done].
Qed.

End DoubleFacts.

(** ** Signal engine *)

Section SignalEngineFacts.

Import SignalEngine.

Lemma buildSignal_score_range ctx a : 0 <= score (buildSignal ctx a) <= 100.
Proof. unfold buildSignal; simpl. lia. Qed.

Lemma buildSignal_address ctx a :
  tokenAddress (buildSignal ctx a)
  = Nadfun.token_id (Nadfun.token_info (token ctx)).
Proof. reflexivity. Qed.

(** Every strategy name of the fleet has a scorer. *)
Lemma every_strategy_has_a_scorer :
  Forall (fun s => STRATEGY_SCORERS s <> None)
    ("alpha_hunter" :: "diamond_hands" :: "swing_trader" :: "degen_ape"
     :: "volume_watcher" :: "trend_follower" :: "contrarian" :: "sniper"
     :: nil)%string.
Proof. repeat constructor; discriminate. Qed.

Lemma technicalScoreAdjustment_range ta strategy :
  -30 <= fst (TechnicalScore.technicalScoreAdjustment ta strategy) <= 30.
Proof.
  unfold TechnicalScore.technicalScoreAdjustment.
  destruct (_ && _)%bool; cbn [fst]; lia.
Qed.

Lemma whaleScoreAdjustment_range wa strategy :
  -20 <= fst (WhaleAnalysis.whaleScoreAdjustment wa strategy) <= 20.
Proof.
  unfold WhaleAnalysis.whaleScoreAdjustment.
  destruct (_ =? 0); cbn [fst]; lia.
Qed.

(** C1. Whatever the token context (any market snapshot or none, any age,
    indicators, holder analysis and regime), every scorer of
    [STRATEGY_SCORERS] returns a signal for the token it was given, and the
    score of that signal lies between 0 and 100. *)
Theorem C1_signal_score_in_range (strategy : string)
    (scorer : TokenContext -> MarketSignal) (ctx : TokenContext) :
  STRATEGY_SCORERS strategy = Some scorer ->
  0 <= score (scorer ctx) <= 100
  /\ tokenAddress (scorer ctx)
     = Nadfun.token_id (Nadfun.token_info (token ctx)).
Proof.
  unfold STRATEGY_SCORERS. split_ifs;
    intros H; inversion H; subst; clear H;
    (split; [apply buildSignal_score_range | apply buildSignal_address]).
Qed.

Lemma C1_signal_score_in_range_witness :
  0 <= score (scoreSniper Samples.ghostContext) <= 100
  /\ tokenAddress (scoreSniper Samples.ghostContext) = "0xDEAD"%string.
Proof.
  apply (C1_signal_score_in_range "sniper" scoreSniper Samples.ghostContext).
  reflexivity.
Defined.

End SignalEngineFacts.

(** ** Token claim coordinator *)

Section CoordinatorFacts.

Import JS AgentCoordinator.

Implicit Types s : gmap string TokenClaim.

Lemma cleanup_lookup_Some now s k c :
  cleanupExpiredClaims now s !! k = Some c <->
  s !! k = Some c /\ now <= expiresAt c.
Proof.
  unfold cleanupExpiredClaims. rewrite map_lookup_filter_Some. simpl.
  split; intros [H1 H2]; split; auto; lia.
Qed.

Lemma cleanup_lookup_expired now s k c :
  s !! k = Some c -> expiresAt c < now ->
  cleanupExpiredClaims now s !! k = None.
Proof.
  intros Hk Hexp.
  destruct (cleanupExpiredClaims now s !! k) as [c'|] eqn:E; [|done].
  apply cleanup_lookup_Some in E as [E1 E2].
  rewrite Hk in E1. inversion E1; subst. lia.
Qed.

Lemma cleanup_lookup_None now s k :
  s !! k = None -> cleanupExpiredClaims now s !! k = None.
Proof.
  intros Hk.
  destruct (cleanupExpiredClaims now s !! k) as [c'|] eqn:E; [|done].
  apply cleanup_lookup_Some in E as [E1 _]. congruence.
Qed.

(** A successful claim leaves the caller as the holder of the token. *)
Lemma claimToken_holder tok A nA wA d t s s1 :
  claimToken tok A nA wA d t s = (true, s1) ->
  exists c, s1 !! toLowerCase tok = Some c /\ agentId c = A.
Proof.
  unfold claimToken, takeClaim.
  destruct (cleanupExpiredClaims t s !! toLowerCase tok) as [c|] eqn:E.
  - destruct (t <=? expiresAt c).
    + destruct (String.eqb (agentId c) A) eqn:EA.
      * intros H; inversion H; subst. eexists.
        rewrite lookup_insert_eq. split; [done|].
        simpl. by apply String.eqb_eq.
      * intros H; inversion H.
    + intros H; inversion H; subst. eexists. by rewrite lookup_insert_eq.
  - intros H; inversion H; subst. eexists. by rewrite lookup_insert_eq.
Qed.

Lemma claimToken_blocked tok A B nB wB d t s c :
  s !! toLowerCase tok = Some c -> agentId c = A -> A <> B ->
  t <= expiresAt c ->
  claimToken tok B nB wB d t s = (false, cleanupExpiredClaims t s).
Proof.
  intros Hk HA Hne Hlive. unfold claimToken.
  assert (E : cleanupExpiredClaims t s !! toLowerCase tok = Some c)
    by (by apply cleanup_lookup_Some).
  rewrite E.
  destruct (Z.leb_spec t (expiresAt c)); [|lia].
  destruct (String.eqb (agentId c) B) eqn:EB; [|done].
  apply String.eqb_eq in EB. congruence.
Qed.

Lemma claimToken_free tok X nX wX d t s :
  cleanupExpiredClaims t s !! toLowerCase tok = None ->
  claimToken tok X nX wX d t s
  = takeClaim (toLowerCase tok) X nX wX d t (cleanupExpiredClaims t s).
Proof. intros E. unfold claimToken. by rewrite E. Qed.

Lemma releaseToken_holder tok A s c :
  s !! toLowerCase tok = Some c -> agentId c = A ->
  releaseToken tok A s = delete (toLowerCase tok) s.
Proof.
  intros Hk HA. unfold releaseToken. rewrite Hk.
  by rewrite <- HA, String.eqb_refl.
Qed.

(** [releaseToken] by anyone but the holder, or on a free token, changes
    nothing. *)
Lemma releaseToken_noop tok B s :
  (s !! toLowerCase tok = None
   \/ exists c, s !! toLowerCase tok = Some c /\ agentId c <> B) ->
  releaseToken tok B s = s.
Proof.
  unfold releaseToken. intros [Hk | (c & Hk & Hne)]; rewrite Hk; [done|].
  destruct (String.eqb_spec (agentId c) B); [contradiction | done].
Qed.

(** The re-claim path: the record is kept and its expiry becomes
    [now + durationMs]. *)
Lemma claimToken_reclaim tok A nA wA d t s c :
  s !! toLowerCase tok = Some c -> agentId c = A -> t <= expiresAt c ->
  claimToken tok A nA wA d t s =
  (true,
   <[toLowerCase tok := withExpiresAt c (t + d)]> (cleanupExpiredClaims t s)).
Proof.
  intros Hk HA Hlive. unfold claimToken.
  assert (E : cleanupExpiredClaims t s !! toLowerCase tok = Some c)
    by (by apply cleanup_lookup_Some).
  rewrite E.
  destruct (Z.leb_spec t (expiresAt c)); [|lia].
  by rewrite <- HA, String.eqb_refl.
Qed.

(** The re-claim path applies no cap: any duration beyond
    [MAX_LOCK_DURATION] is stored as asked. *)
Lemma claimToken_reclaim_uncapped tok A nA wA d t s c :
  s !! toLowerCase tok = Some c -> agentId c = A -> t <= expiresAt c ->
  MAX_LOCK_DURATION < d ->
  exists c', snd (claimToken tok A nA wA d t s) !! toLowerCase tok = Some c'
             /\ t + MAX_LOCK_DURATION < expiresAt c'.
Proof.
  intros Hk HA Hlive Hd.
  rewrite (claimToken_reclaim tok A nA wA d t s c Hk HA Hlive). simpl.
  exists (withExpiresAt c (t + d)). rewrite lookup_insert_eq.
  split; [done|]. simpl. lia.
Qed.

(** A claim of a free token never outlives the hard cap. *)
Lemma takeClaim_capped k A nA wA d t s c :
  snd (takeClaim k A nA wA d t s) !! k = Some c ->
  expiresAt c <= t + MAX_LOCK_DURATION /\ claimedAt c = t.
Proof.
  unfold takeClaim. simpl. rewrite lookup_insert_eq.
  intros H; inversion H; subst; simpl. lia.
Qed.

(** Exclusion, release and expiry.  (1) After a successful claim by A, a
    claim by another agent B made while A's record has not expired returns
    false. (2) After A releases the token, a claim by any agent returns true.
    (3) A token whose record has expired ([expiresAt < now]) can be claimed
    by any agent. (4) A re-claim by the holder before expiry returns true and
    leaves exactly the records that survive the sweep, one of them for the
    token, still the holder's and with its first claim instant. *)
Lemma claim_exclusion_release_expiry :
  (forall s s1 tok A B nA nB wA wB dA dB t0 t1 c,
     A <> B -> claimToken tok A nA wA dA t0 s = (true, s1) ->
     s1 !! toLowerCase tok = Some c -> t1 <= expiresAt c ->
     fst (claimToken tok B nB wB dB t1 s1) = false)
  /\
  (forall s s1 tok A B nA nB wA wB dA dB t0 t1,
     claimToken tok A nA wA dA t0 s = (true, s1) ->
     fst (claimToken tok B nB wB dB t1 (releaseToken tok A s1)) = true)
  /\
  (forall s tok X nX wX dX t c,
     s !! toLowerCase tok = Some c -> expiresAt c < t ->
     fst (claimToken tok X nX wX dX t s) = true)
  /\
  (forall s tok A nA wA d t c,
     s !! toLowerCase tok = Some c -> agentId c = A -> t <= expiresAt c ->
     let r := claimToken tok A nA wA d t s in
     fst r = true
     /\ dom (snd r) = dom (cleanupExpiredClaims t s)
     /\ exists c',
          snd r !! toLowerCase tok = Some c'
          /\ agentId c' = A /\ claimedAt c' = claimedAt c).
Proof.
  split; [|split; [|split]].
  - intros s s1 tok A B nA nB wA wB dA dB t0 t1 c Hne Hclaim Hc Hlive.
    destruct (claimToken_holder _ _ _ _ _ _ _ _ Hclaim) as (c0 & Hc0 & HA).
    rewrite Hc in Hc0; inversion Hc0; subst c0.
    by rewrite (claimToken_blocked tok A B nB wB dB t1 s1 c).
  - intros s s1 tok A B nA nB wA wB dA dB t0 t1 Hclaim.
    destruct (claimToken_holder _ _ _ _ _ _ _ _ Hclaim) as (c0 & Hc0 & HA).
    rewrite (releaseToken_holder tok A s1 c0 Hc0 HA).
    rewrite claimToken_free; [done|].
    apply cleanup_lookup_None, lookup_delete_eq.
  - intros s tok X nX wX dX t c Hc Hexp.
    rewrite claimToken_free; [done|]. by eapply cleanup_lookup_expired.
  - intros s tok A nA wA d t c Hc HA Hlive r. subst r.
    rewrite (claimToken_reclaim tok A nA wA d t s c Hc HA Hlive). simpl.
    split; [done|]. split.
    + rewrite dom_insert_L.
      assert (toLowerCase tok ∈ dom (cleanupExpiredClaims t s)).
      { apply elem_of_dom. exists c. by apply cleanup_lookup_Some. }
      apply subseteq_union_1_L. by apply singleton_subseteq_l.
    + exists (withExpiresAt c (t + d)).
      split; [apply lookup_insert_eq|]. simpl. by split.
Qed.

(** C2. The re-claim branch of [claimToken], commented "Extend the lock" in
    the source, does not extend: it stores [now + durationMs] whatever the
    record held.  Agent A holds the token until 600000 and re-claims it at
    instant 1 for 1000 ms; the call returns true and the claim then expires
    at 1001, long before the expiry it had. *)
Theorem C2_reclaim_shortens_expiry :
  let s1 := snd (claimToken "0xabc" "agent-a" "Alpha" "standard trade"
                   600000 0 ∅) in
  let r := claimToken "0xabc" "agent-a" "Alpha" "standard trade" 1000 1 s1 in
  (expiresAt <$> s1 !! "0xabc"%string) = Some 600000
  /\ 1 <= 600000
  /\ fst r = true
  /\ (expiresAt <$> snd r !! "0xabc"%string) = Some 1001
  /\ 1001 < 600000.
Proof. vm_compute. repeat split; congruence. Qed.

(** C8. The hard cap of ten minutes is not applied on the re-claim path: the
    holder re-claims its token at instant 1 asking for 900000 ms, and the
    record then expires at 900001, later than [1 + MAX_LOCK_DURATION]. *)
Theorem C8_reclaim_exceeds_cap :
  let s1 := snd (claimToken "0xabc" "agent-a" "Alpha" "standard trade"
                   DEFAULT_LOCK_DURATION 0 ∅) in
  let r := claimToken "0xabc" "agent-a" "Alpha" "standard trade" 900000 1 s1 in
  fst r = true
  /\ (expiresAt <$> snd r !! "0xabc"%string) = Some 900001
  /\ 1 + MAX_LOCK_DURATION < 900001.
Proof. vm_compute. repeat split; congruence. Qed.

End CoordinatorFacts.

(** ** Position lifecycle: exits *)

Section SellFacts.

Import JS Score BaseAgent.



(** No exit of any kind without a cost basis. *)
Lemma evaluateSellCondition_no_cost_basis strategy costBasis currentValue
    unrealizedPnl trailing hold :
  costBasis <= 0 ->
  evaluateSellCondition strategy costBasis currentValue unrealizedPnl
    trailing hold
  = {| sell := false; reason := NoCostBasis; exitType := full |}.
Proof.
  intros H. unfold evaluateSellCondition.
  destruct (Z.leb_spec costBasis 0); [reflexivity | lia].
Qed.



(** Rounding at the threshold.  A diamond_hands position bought for 10000
    wei is quoted 11601, a PnL of 1601 basis points, and a minute later
    10101, a PnL of 101 basis points, 1500 basis points lower.  The doubles
    nearest to 16.01 and 1.01 are 15.000000000000002 apart, which exceeds
    the threshold of 15: the first evaluation holds and records the peak,
    the second sells on the trailing stop. *)
Lemma trailing_stop_at_the_threshold :
  let first := HoldingsCycle.evaluateHolding "diamond_hands" "0xabc" 10000
                 11601 None 0 ∅ in
  let second := HoldingsCycle.evaluateHolding "diamond_hands" "0xabc" 10000
                  10101 None 60000 (snd first) in
  Z.quot ((11601 - 10000) * 10000) 10000 = 1601
  /\ Z.quot ((10101 - 10000) * 10000) 10000 = 101
  /\ (inject_Z 1601 / 100 - inject_Z 101 / 100
      == getTrailingStopThreshold "diamond_hands")%Q
  /\ fst first = holdDecision
  /\ (exists t, snd first !! "0xabc"%string = Some t
                /\ (peakPnlPct t == holdingPnlPercent 11601 10000)%Q
                /\ (5 < peakPnlPct t)%Q)
  /\ sell (checkStrategyProfitTargets "diamond_hands"
             (holdingPnlPercent 10101 10000)) = false
  /\ ~ (holdingPnlPercent 10101 10000 <= stopLossOf "diamond_hands")%Q
  /\ fsub (holdingPnlPercent 11601 10000) (holdingPnlPercent 10101 10000)
     = Some (15 + (1 # 2 ^ 49))%Q
  /\ fst second = exitNow TrailingStop.
Proof.
  vm_compute.
  repeat split; try congruence.
  eexists. split; [reflexivity|]. split; reflexivity.
Qed.

Lemma withCostBasis_same h : withCostBasis h (h_costBasis h) = h.
Proof. by destruct h. Qed.

Lemma proportionalCost_bounds costBasis sold total :
  0 <= costBasis -> 0 <= sold -> sold <= total -> 0 < total ->
  0 <= proportionalCostOf costBasis sold total <= costBasis.
Proof.
  intros Hc Hs Hst Ht. unfold proportionalCostOf.
  destruct (Z.ltb_spec 0 total); [|lia].
  rewrite Z.quot_div_nonneg by nia.
  split.
  - apply Z.div_pos; nia.
  - apply Z.div_le_upper_bound; nia.
Qed.

(** The truncation of the bigint division leaves the remaining cost basis
    above the exact proportional share by less than one unit. *)
Lemma remaining_cost_rounding costBasis sold total :
  0 <= costBasis -> 0 <= sold -> 0 < total ->
  let newCost := costBasis - Z.quot (costBasis * sold) total in
  0 <= newCost * total - costBasis * (total - sold) < total.
Proof.
  intros Hc Hs Ht newCost. subst newCost.
  pose proof (Z.quot_rem' (costBasis * sold) total) as Hqr.
  pose proof (Z.rem_bound_pos (costBasis * sold) total ltac:(nia) Ht) as Hb.
  nia.
Qed.

(** Scaling value and cost basis by the same ratio [k / n] leaves the PnL
    percentage unchanged. *)
Lemma pnl_scale_invariant (V V' C C' k n : Z) :
  0 < C -> 0 < k -> 0 < n ->
  C' * n = C * k -> V' * n = V * k ->
  holdingPnlPercent V' C' = holdingPnlPercent V C.
Proof.
  intros HC Hk Hn HCs HVs. unfold holdingPnlPercent, pnlPercentOf.
  assert (HC' : 0 < C') by nia.
  destruct (Z.ltb_spec 0 C); [|lia].
  destruct (Z.ltb_spec 0 C'); [|lia].
  assert (Hq : Z.quot ((V' - C') * 10000) C' = Z.quot ((V - C) * 10000) C).
  { rewrite <- (Z.quot_mul_cancel_r ((V' - C') * 10000) C' n) by lia.
    rewrite <- (Z.quot_mul_cancel_r ((V - C) * 10000) C k) by lia.
    f_equal; nia. }
  by rewrite Hq.
Qed.

(** The partial exit sells half of the balance, rounded down. *)
Lemma calculateSellAmount_partial balance pnl :
  0 <= balance ->
  calculateSellAmount balance pnl partial = balance / 2.
Proof.
  intros Hb. unfold calculateSellAmount.
  rewrite !Z.quot_div_nonneg by lia.
  assert (balance * 50 / 100 = balance / 2).
  { replace (balance * 50) with (balance * 50 + 0) by lia.
    replace 100 with (50 * 2) by lia.
    rewrite <- Z.div_div by lia. rewrite Z.add_0_r, Z.div_mul by lia. done. }
  assert (balance / 4 <= balance / 2).
  { apply Z.div_le_lower_bound; [lia|].
    pose proof (Z.mul_div_le balance 4 ltac:(lia)).
    pose proof (Z.div_pos balance 4 Hb ltac:(lia)). lia. }
  destruct (Z.ltb_spec (balance / 4) (balance * 50 / 100)); lia.
Qed.

(** C3 (as amended). A partial sell, after which the vault reports
    [remaining] units, of [sold] units of a holding with cost basis
    [costBasis]: the stored cost basis is reduced by exactly the bigint
    quotient [costBasis * sold / (remaining + sold)], truncated, so that what
    remains exceeds the exact proportional share by less than one unit; when
    that division is exact, the PnL percentage of the remainder at a
    proportional valuation is the one before the sale; selling nothing
    leaves the holding as it was; and a sale of the whole balance is run as a
    full exit, which deletes the holding and its trailing state. *)
Theorem C3_partial_sell (st : AgentState) (h : Holding)
    (out sold remaining v : Z) :
  holdings st !! h_id h = Some h ->
  0 <= h_costBasis h -> 0 <= sold -> 0 <= remaining -> 0 < remaining + sold ->
  let costBasis := h_costBasis h in
  let total := remaining + sold in
  let newCost := costBasis - Z.quot (costBasis * sold) total in
  let st' :=
    executeSell (Some out) (Some remaining) h sold v costBasis false st in
  holdings st' = <[h_id h := withCostBasis h newCost]> (holdings st)
  /\ 0 <= newCost * total - costBasis * remaining < total
  /\ (0 < remaining -> (total | costBasis * sold) ->
      forall V V', V' * total = V * remaining ->
        holdingPnlPercent V' newCost = holdingPnlPercent V costBasis)
  /\ (sold = 0 -> holdings st' = holdings st)
  /\ (forall balance monValue exitType vaultAfter,
        calculateSellAmount balance (holdingPnlPercent monValue costBasis)
          exitType = balance ->
        let exited :=
          sellHolding (Some out) vaultAfter h balance monValue exitType st in
        exited = executeSell (Some out) vaultAfter h balance monValue
                   costBasis true st
        /\ holdings exited !! h_id h = None
        /\ trailingStops exited !! toLowerCase (h_tokenAddress h) = None)
  /\ (forall balance pnl, calculateSellAmount balance pnl full = balance).
Proof.
  intros Hh Hc Hs Hr Ht costBasis total newCost st'.
  assert (Hprop : proportionalCostOf costBasis sold total
                  = Z.quot (costBasis * sold) total).
  { unfold proportionalCostOf.
    destruct (Z.ltb_spec 0 total); [done|]. subst total; lia. }
  pose proof (proportionalCost_bounds costBasis sold total Hc Hs
                ltac:(subst total; lia) Ht) as Hpb.
  rewrite Hprop in Hpb.
  assert (Hst' : holdings st'
                 = <[h_id h := withCostBasis h newCost]> (holdings st)).
  { subst st'. unfold executeSell. simpl. fold total. rewrite Hprop.
    fold newCost. rewrite (alter_alt_Some _ _ _ _ Hh).
    destruct (Z.ltb_spec 0 newCost); [done|].
    replace newCost with 0 by (subst newCost; lia). done. }
  split; [exact Hst'|].
  split.
  { pose proof (remaining_cost_rounding costBasis sold total Hc Hs Ht) as Hb.
    simpl in Hb. fold newCost in Hb.
    replace (total - sold) with remaining in Hb by (subst total; lia).
    exact Hb. }
  split.
  { intros Hrem [k Hk] V V' HV.
    assert (Hq : Z.quot (costBasis * sold) total = k).
    { rewrite Hk. apply Z.quot_mul. lia. }
    assert (Hnc : newCost * total = costBasis * remaining).
    { subst newCost. rewrite Hq. subst total. nia. }
    destruct (Z.eq_dec costBasis 0) as [H0|Hn0].
    - assert (Hnew : newCost = 0) by nia.
      unfold holdingPnlPercent. rewrite H0, Hnew. done.
    - apply (pnl_scale_invariant V V' costBasis newCost remaining total);
        lia. }
  split.
  { intros H0. rewrite Hst'. subst newCost. rewrite H0, Z.mul_0_r.
    rewrite Z.quot_0_l by lia. rewrite Z.sub_0_r.
    subst costBasis. rewrite withCostBasis_same. by apply insert_id. }
  split.
  { intros balance monValue exitType vaultAfter Hall exited.
    subst exited. unfold sellHolding. fold costBasis. rewrite Hall.
    rewrite Z.eqb_refl. split; [done|].
    unfold executeSell. simpl. split; apply lookup_delete_eq. }
  { intros balance pnl. done. }
Qed.

(** Selling 400 of 1000 units bought for 500: the cost basis drops by 200. *)
Lemma C3_partial_sell_witness :
  let h := {| h_id := "h7"; h_tokenAddress := "0xBEEF"; h_tokenSymbol := "BF";
              h_amount := 1000; h_costBasis := 500 |} in
  let st := {| holdings := {[ "h7"%string := h ]}; trailingStops := ∅;
               trades := nil |} in
  holdings (executeSell (Some 450) (Some 600) h 400 0 500 false st)
  = <[ "h7"%string := withCostBasis h 300 ]> (holdings st).
Proof.
  intros h st.
  apply (proj1 (C3_partial_sell st h 450 400 600 0 ltac:(reflexivity)
                  ltac:(simpl; lia) ltac:(lia) ltac:(lia) ltac:(lia))).
Defined.

(** C3, as stated, fails on the PnL percentage.  A position of [2 * 10^18]
    units bought for [10^18 + 1] wei and quoted at twice its cost shows
    +100%; the partial exit sells half, the truncated quotient leaves a cost
    basis of [5 * 10^17 + 1], and the remaining half, quoted at half the
    value, shows +99.99%. *)
Lemma C3_partial_sell_changes_pnl :
  let before := 2 * (10 ^ 18 + 1) in
  let st' :=
    sellHolding (Some (10 ^ 18)) (Some (10 ^ 18)) Samples.oddHolding
      (2 * 10 ^ 18) before partial Samples.oddState in
  calculateSellAmount (2 * 10 ^ 18) 100 partial = 10 ^ 18
  /\ (h_costBasis <$> holdings st' !! "h1"%string) = Some (5 * 10 ^ 17 + 1)
  /\ (holdingPnlPercent before (10 ^ 18 + 1) == 100)%Q
  /\ (Some (holdingPnlPercent (10 ^ 18 + 1) (5 * 10 ^ 17 + 1))
      = ofDouble (toDouble 99.99))%Q.
Proof. vm_compute. repeat split; congruence. Qed.

End SellFacts.

(** ** Market regime detector *)

Section RegimeFacts.

Import MarketRegime.

Lemma decideRegime_cases bullS bearS :
  (bearS + 15 < bullS ->
   decideRegime bullS bearS
   = (bull, Z.min 90 (50 + bullS - bearS),
      "REGIME: Bull market detected"%string))
  /\ (~ bearS + 15 < bullS -> bullS + 15 < bearS ->
      decideRegime bullS bearS
      = (bear, Z.min 90 (50 + bearS - bullS),
         "REGIME: Bear market detected"%string))
  /\ (~ bearS + 15 < bullS -> ~ bullS + 15 < bearS ->
      decideRegime bullS bearS
      = (sideways, Z.max 30 (70 - Z.abs (bullS - bearS)),
         "REGIME: Sideways/choppy market"%string)).
Proof.
  unfold decideRegime.
  destruct (Z.ltb_spec (bearS + 15) bullS);
    destruct (Z.ltb_spec (bullS + 15) bearS);
    repeat split; intros; try lia; reflexivity.
Qed.

Lemma detectMarketRegime_enough nowSec pairs :
  (5 <= length (withMarket pairs))%nat ->
  let t := batchTally nowSec pairs in
  let r := detectMarketRegime nowSec pairs in
  (regime r, confidence r)
  = fst (decideRegime (bullScore t) (bearScore t)).
Proof.
  intros Hlen t r. subst r. unfold detectMarketRegime.
  destruct (Nat.ltb_spec (length (withMarket pairs)) 5); [lia|].
  fold t. destruct (decideRegime (bullScore t) (bearScore t)) as [[rg c] w].
  reflexivity.
Qed.

(** C5 (as amended). With fewer than five tokens carrying market data the
    detector answers sideways with confidence 20 and the single reason
    "Insufficient data for regime detection".  With five or more, the regime
    is bull when [bullScore > bearScore + 15], bear when
    [bearScore > bullScore + 15] and sideways otherwise; the confidence of a
    bull or bear verdict is [clamp(50 + |bullScore - bearScore|, 30, 90)],
    and the confidence of a sideways verdict is
    [max(30, 70 - |bullScore - bearScore|)]. *)
Theorem C5_regime_and_confidence (nowSec : Z) (pairs : list TokenDataPair) :
  let t := batchTally nowSec pairs in
  let r := detectMarketRegime nowSec pairs in
  ((length (withMarket pairs) < 5)%nat ->
   regime r = sideways /\ confidence r = 20
   /\ reasons r = "Insufficient data for regime detection"%string :: nil)
  /\
  ((5 <= length (withMarket pairs))%nat ->
   (bearScore t + 15 < bullScore t ->
    regime r = bull
    /\ confidence r = spec_confidence (bullScore t) (bearScore t))
   /\ (~ bearScore t + 15 < bullScore t -> bullScore t + 15 < bearScore t ->
       regime r = bear
       /\ confidence r = spec_confidence (bullScore t) (bearScore t))
   /\ (~ bearScore t + 15 < bullScore t -> ~ bullScore t + 15 < bearScore t ->
       regime r = sideways
       /\ confidence r = Z.max 30 (70 - Z.abs (bullScore t - bearScore t)))).
Proof.
  intros t r. split.
  - intros Hlen. subst r. unfold detectMarketRegime.
    destruct (Nat.ltb_spec (length (withMarket pairs)) 5); [|lia].
    repeat split.
  - intros Hlen.
    pose proof (detectMarketRegime_enough nowSec pairs Hlen) as Hr.
    simpl in Hr. fold t in Hr. fold r in Hr.
    destruct (decideRegime_cases (bullScore t) (bearScore t))
      as (Hbull & Hbear & Hside).
    split; [|split].
    + intros H. rewrite (Hbull H) in Hr. inversion Hr.
      split; [reflexivity|]. unfold spec_confidence. lia.
    + intros H1 H2. rewrite (Hbear H1 H2) in Hr. inversion Hr.
      split; [reflexivity|]. unfold spec_confidence. lia.
    + intros H1 H2. rewrite (Hside H1 H2) in Hr. inversion Hr.
      split; reflexivity.
Qed.

(** A batch whose average 1h change is +8% with 80% of the tokens up is
    classified bull, with a confidence of at least 50. *)
Lemma C5_regime_and_confidence_witness :
  regime (detectMarketRegime 100000 Samples.risingBatch) = bull
  /\ confidence (detectMarketRegime 100000 Samples.risingBatch)
     = spec_confidence 55 10
  /\ 50 <= spec_confidence 55 10.
Proof.
  destruct (proj1 (proj2 (C5_regime_and_confidence 100000 Samples.risingBatch)
                     ltac:(vm_compute; lia))
              ltac:(vm_compute; reflexivity)) as [Hr Hc].
  split; [exact Hr|]. split; [exact Hc|]. vm_compute. discriminate.
Defined.

(** C5, as stated, fails on the confidence of a sideways verdict.  On a calm
    batch both totals are 0; the detector reports sideways with confidence
    70, where [clamp(50 + |0 - 0|, 30, 90)] is 50. *)
Lemma C5_sideways_confidence_differs :
  let t := batchTally 100 Samples.calmBatch in
  let r := detectMarketRegime 100 Samples.calmBatch in
  length (withMarket Samples.calmBatch) = 5%nat
  /\ bullScore t = 0 /\ bearScore t = 0
  /\ regime r = sideways
  /\ confidence r = 70
  /\ spec_confidence (bullScore t) (bearScore t) = 50.
Proof. vm_compute. repeat split; congruence. Qed.

End RegimeFacts.

(** ** Advisory fallbacks *)

Section AdvisoryFacts.

Import Advisory.

(** C6 (as amended). When the advisory request throws (or its answer is not
    JSON), [confirmTradeWithLLM] approves exactly when the signal score is
    at least 85, so a score of 92 is approved and a score of 70 is not;
    [makeAgentDecision] answers SKIP with confidence 0 whatever the
    signal. *)
Theorem C6_advisory_fallbacks (signal : SignalEngine.MarketSignal) :
  (approved (confirmTradeWithLLM signal CallThrows) = true
   <-> 85 <= SignalEngine.score signal)
  /\ (approved (confirmTradeWithLLM signal MalformedJSON) = true
      <-> 85 <= SignalEngine.score signal)
  /\ (SignalEngine.score signal = 92 ->
      approved (confirmTradeWithLLM signal CallThrows) = true)
  /\ (SignalEngine.score signal = 70 ->
      approved (confirmTradeWithLLM signal CallThrows) = false)
  /\ action (makeAgentDecision CallThrows) = SKIP
  /\ action (makeAgentDecision MalformedJSON) = SKIP
  /\ confidence (makeAgentDecision CallThrows) = Some 0%Q
  /\ targetAmount (makeAgentDecision CallThrows) = Falsy
  /\ fallbackApproves ConfirmPath signal = (85 <=? SignalEngine.score signal)
  /\ fallbackApproves DecisionPath signal = false.
Proof.
  unfold confirmTradeWithLLM, makeAgentDecision, fallbackApproves; simpl.
  repeat split; try (intros H; try rewrite H; try reflexivity);
    try (apply Z.leb_le; assumption); try (apply Z.leb_le in H; assumption).
Qed.

(** C6, as stated, fails on the decision path: the request throws for a
    signal scoring 92, above the bar of 85, and the trade is skipped. *)
Lemma C6_decision_fallback_skips_high_score :
  SignalEngine.score (Samples.signalScoring 92) = 92
  /\ 85 <= 92
  /\ fallbackApproves DecisionPath (Samples.signalScoring 92) = false
  /\ action (makeAgentDecision CallThrows) = SKIP.
Proof. vm_compute. repeat split; congruence. Qed.

End AdvisoryFacts.

(** ** Quality gate and scan loop *)

Section ScanFacts.

Import JS Score Nadfun BaseAgent.

Variable strategy : string.
Variable nowSec : Z.
Variable blacklist : gset string.
Variable deadTokenBlacklisted : string -> bool.
Variable getCurveProgress : string -> option Q.
Variable getTokenChart : string -> list TechnicalAnalysis.ChartCandle.
Variable getTokenHolders : string -> list WhaleAnalysis.HolderData.
Variable Math_sqrt : Q -> Q.
Variable pairs : list MarketRegime.TokenDataPair.
Variable regime : MarketRegime.MarketRegime.

(** An iteration reaches the scorer only past the quality check. *)
Lemma prepareContext_passed dc token ctx :
  prepareContext strategy nowSec blacklist deadTokenBlacklisted
    getCurveProgress getTokenChart getTokenHolders Math_sqrt pairs regime
    dc token = Some ctx ->
  SignalEngine.token ctx = token
  /\ QualityFilter.passed (QualityFilter.checkTokenQuality nowSec token)
     = true.
Proof.
  unfold prepareContext.
  destruct (decide _); [discriminate|].
  destruct (match market_info token with
            | Some m => Some (inlineMarket token m)
            | None => cachedMarket pairs (tokenKey token)
            end) as [market|]; [|discriminate].
  destruct (deadTokenBlacklisted _); [discriminate|].
  destruct (QualityFilter.passed _) eqn:Hq; [|discriminate].
  simpl.
  repeat match goal with
         | |- (if ?b then None else _) = Some _ -> _ =>
             destruct b; [discriminate|]
         end.
  intros H; inversion H; subst; clear H. simpl. auto.
Qed.

Lemma scanLoop_calls scorer tokens : forall dc ctx sig,
  In (ctx, sig)
     (scanLoop strategy nowSec blacklist deadTokenBlacklisted
        getCurveProgress getTokenChart getTokenHolders Math_sqrt pairs
        regime scorer dc tokens) ->
  In (SignalEngine.token ctx) tokens
  /\ QualityFilter.passed
       (QualityFilter.checkTokenQuality nowSec (SignalEngine.token ctx))
     = true
  /\ sig = scorer ctx.
Proof.
  induction tokens as [|t rest IH]; intros dc ctx sig; simpl; [tauto|].
  destruct (prepareContext _ _ _ _ _ _ _ _ _ _ dc t) as [c|] eqn:E.
  - intros [Heq | Hin].
    + inversion Heq; subst. apply prepareContext_passed in E as [E1 E2].
      rewrite E1. auto.
    + apply IH in Hin as (H1 & H2 & H3). auto.
  - intros Hin. apply IH in Hin as (H1 & H2 & H3). auto.
Qed.

End ScanFacts.

Section QualityFacts.

Import JS Nadfun BaseAgent.

Lemma quality_few_holders nowSec token m :
  market_info token = Some m ->
  countOr0 (mi_holder_count m) < 30 ->
  let q := QualityFilter.checkTokenQuality nowSec token in
  QualityFilter.passed q = false /\ QualityFilter.score q = 0
  /\ (QualityFilter.reason q
      = Some (QualityFilter.TooFewHolders (countOr0 (mi_holder_count m)))
      \/ exists r, QualityFilter.reason q
                   = Some (QualityFilter.InsufficientLiquidity r)).
Proof.
  intros Hm Hh q. subst q. unfold QualityFilter.checkTokenQuality.
  rewrite Hm. destruct (nlt _ 3).
  - simpl. repeat split. right. eexists. reflexivity.
  - destruct (Z.ltb_spec (countOr0 (mi_holder_count m)) 30); [|lia].
    simpl. repeat split. left. reflexivity.
Qed.

(** A token without market data is rejected as well. *)
Lemma quality_no_market nowSec token :
  market_info token = None ->
  QualityFilter.checkTokenQuality nowSec token
  = QualityFilter.reject QualityFilter.NoMarketData 0.
Proof. intros Hm. unfold QualityFilter.checkTokenQuality. by rewrite Hm. Qed.

(** Whatever passes the filter has a score of at least 60 and at most 100. *)
Lemma quality_passed_score nowSec token :
  let q := QualityFilter.checkTokenQuality nowSec token in
  QualityFilter.passed q = true -> 60 <= QualityFilter.score q <= 100.
Proof.
  intros q. subst q. unfold QualityFilter.checkTokenQuality.
  destruct (market_info token); [|discriminate].
  repeat match goal with
         | |- context [if ?b then QualityFilter.reject _ _ else _] =>
             destruct b; [discriminate|]
         end.
  destruct (if Qgtb _ 10 then _ else _); [|discriminate].
  match goal with
  | |- context [if (?s <? 60) then _ else _] =>
      destruct (Z.ltb_spec s 60); [discriminate|]
  end.
  intros _. simpl. lia.
Qed.

(** C7. A token whose holder count is below 30 is rejected by the quality
    filter with score 0 and a reason, whatever its other metrics, and in no
    scan cycle is a strategy scorer called on it. *)
Theorem C7_few_holders_never_scored (nowSec : Z) (token : RecentToken)
    (m : MarketInfo) :
  market_info token = Some m ->
  countOr0 (mi_holder_count m) < 30 ->
  let q := QualityFilter.checkTokenQuality nowSec token in
  QualityFilter.passed q = false /\ QualityFilter.score q = 0
  /\ (exists r, QualityFilter.reason q = Some r)
  /\ forall strategy blacklist dead curve chart holderList Math_sqrt
            recentTokens calls signals,
       scanAndScore strategy nowSec blacklist dead curve chart holderList
         Math_sqrt recentTokens = Some (calls, signals) ->
       forall ctx sig, In (ctx, sig) calls -> SignalEngine.token ctx <> token.
Proof.
  intros Hm Hh q.
  destruct (quality_few_holders nowSec token m Hm Hh) as (Hp & Hs & Hr).
  fold q in Hp, Hs, Hr.
  split; [exact Hp|]. split; [exact Hs|]. split.
  { destruct Hr as [Hr | [r Hr]]; eauto. }
  intros strategy blacklist dead curve chart holderList Math_sqrt
         recentTokens calls signals Hscan ctx sig Hin Heq.
  unfold scanAndScore in Hscan.
  destruct (SignalEngine.STRATEGY_SCORERS strategy) as [scorer|];
    [|discriminate].
  inversion Hscan; subst calls signals; clear Hscan.
  apply scanLoop_calls in Hin as (_ & Hpass & _).
  rewrite Heq in Hpass. subst q. congruence.
Qed.

(** The token with a reserve of 10 MON, 5 holders and an age of 30 minutes. *)
Lemma C7_few_holders_never_scored_witness :
  QualityFilter.passed
    (QualityFilter.checkTokenQuality Samples.thinNow Samples.thinToken)
  = false
  /\ QualityFilter.score
       (QualityFilter.checkTokenQuality Samples.thinNow Samples.thinToken)
     = 0.
Proof.
  destruct (C7_few_holders_never_scored Samples.thinNow Samples.thinToken
              Samples.thinMarket ltac:(reflexivity) ltac:(simpl; lia))
    as (Hp & Hs & _).
  split; [exact Hp | exact Hs].
Defined.

Example thin_token_reason :
  QualityFilter.reason
    (QualityFilter.checkTokenQuality Samples.thinNow Samples.thinToken)
  = Some (QualityFilter.TooFewHolders 5).
Proof. vm_compute. reflexivity. Qed.

End QualityFacts.

(** ** Technical indicators on short series *)

Section IndicatorFacts.

Import JS TechnicalAnalysis.

Lemma calculateRSI_None_iff prices period :
  calculateRSI prices period = None <-> (length prices < period + 1)%nat.
Proof.
  unfold calculateRSI.
  destruct (Nat.ltb_spec (length prices) (period + 1)).
  - tauto.
  - split; [|lia]. destruct (Qeq_bool _ 0); discriminate.
Qed.

Lemma calculateSMA_None_iff prices period :
  calculateSMA prices period = None <-> (length prices < period)%nat.
Proof.
  unfold calculateSMA.
  destruct (Nat.ltb_spec (length prices) period).
  - tauto.
  - split; [discriminate | lia].
Qed.

Lemma calculateEMA_None_iff prices period :
  calculateEMA prices period = None <-> (length prices < period)%nat.
Proof.
  unfold calculateEMA.
  destruct (Nat.ltb_spec (length prices) period).
  - tauto.
  - split; [discriminate | lia].
Qed.

Lemma calculateVolatility_short Math_sqrt prices :
  (length prices < 3)%nat -> calculateVolatility Math_sqrt prices = None.
Proof.
  intros H. unfold calculateVolatility.
  destruct (Nat.ltb_spec (length prices) 3); [reflexivity | lia].
Qed.

Lemma getVolumeTrend_short volumes :
  (length volumes < 4)%nat -> getVolumeTrend volumes = Stable.
Proof.
  intros H. unfold getVolumeTrend.
  destruct (Nat.ltb_spec (length volumes) 4); [reflexivity | lia].
Qed.

(** C9 (as amended). RSI, SMA and EMA return [null] exactly when the series
    is shorter than their window, and the volatility returns [null] on
    fewer than three prices, so the caller can tell these from a computed
    value; the VWAP returns [null] on an empty series.  The volume-trend
    classifier has no such value: on fewer than four samples it returns
    "stable", and a crossover whose average is missing is "neutral". *)
Theorem C9_insufficient_data (Math_sqrt : Q -> Q) (prices volumes : list Q)
    (period : nat) :
  (calculateRSI prices period = None <-> (length prices < period + 1)%nat)
  /\ (calculateSMA prices period = None <-> (length prices < period)%nat)
  /\ (calculateEMA prices period = None <-> (length prices < period)%nat)
  /\ ((length prices < 3)%nat -> calculateVolatility Math_sqrt prices = None)
  /\ calculateVWAP nil volumes = None
  /\ calculateVWAP prices nil = None
  /\ ((length volumes < 4)%nat -> getVolumeTrend volumes = Stable)
  /\ (forall long, crossover None long = Neutral)
  /\ (forall short, crossover short None = Neutral).
Proof.
  split; [apply calculateRSI_None_iff|].
  split; [apply calculateSMA_None_iff|].
  split; [apply calculateEMA_None_iff|].
  split; [apply calculateVolatility_short|].
  split; [reflexivity|].
  split; [by destruct prices|].
  split; [apply getVolumeTrend_short|].
  split; [reflexivity|]. by intros [s|].
Qed.

(** Thirteen prices are too few for RSI(14). *)
Lemma C9_insufficient_data_witness :
  calculateRSI (repeat 1%Q 13) 14 = None.
Proof.
  apply (proj1 (C9_insufficient_data (fun x => x) (repeat 1%Q 13) nil 14)).
  simpl. lia.
Defined.

(** C9, as stated, fails on the volume trend: with no sample at all the
    classifier answers "stable", the answer it computes for six equal
    samples, so the caller cannot tell the two apart. *)
Lemma C9_volume_trend_has_no_sentinel :
  (length (@nil Q) < 4)%nat
  /\ getVolumeTrend nil = Stable
  /\ (6 <= length (repeat 1%Q 6))%nat
  /\ getVolumeTrend (repeat 1%Q 6) = Stable
  /\ getVolumeTrend nil = getVolumeTrend (repeat 1%Q 6).
Proof. vm_compute. repeat split; lia. Qed.

End IndicatorFacts.

(** ** Learning controller *)

Section LearningFacts.

Import LearningSystem.


(** The base size the controller derives is one of its four tiers. *)
Lemma calculateAdaptivePositionSize_tiers winRate netPnL :
  In (calculateAdaptivePositionSize winRate netPnL)
     (2%Q :: 10%Q :: 7%Q :: 5%Q :: nil).
Proof.
  unfold calculateAdaptivePositionSize. split_ifs; simpl; auto.
Qed.

End LearningFacts.

(** ** Coordinator housekeeping *)

Section CoordinatorOpsFacts.

Import JS AgentCoordinator CoordinatorOps.
Implicit Types s : gmap string TokenClaim.

Lemma ascii_lower_idem c : ascii_lower (ascii_lower c) = ascii_lower c.
Proof.
  destruct c as [[] [] [] [] [] [] [] []]; vm_compute; reflexivity.
Qed.

Lemma toLowerCase_idem tok : toLowerCase (toLowerCase tok) = toLowerCase tok.
Proof.
  induction tok as [|c r IH]; simpl; [done|]. by rewrite ascii_lower_idem, IH.
Qed.

(** X1. For an agent that is not the recorded holder of a token,
    [isTokenAvailable] answers exactly what [claimToken] would answer at the
    same instant: the query and the claim agree on when a token is free. *)
Theorem available_iff_claimable s tok X nX wX d now :
  (forall c, s !! toLowerCase tok = Some c -> agentId c <> X) ->
  fst (claimToken tok X nX wX d now s) = fst (isTokenAvailable tok now s).
Proof.
  intros Hnot. unfold isTokenAvailable.
  destruct (s !! toLowerCase tok) as [c|] eqn:E.
  - destruct (Z.ltb_spec (expiresAt c) now).
    + simpl. rewrite claimToken_free; [done|]. by eapply cleanup_lookup_expired.
    + simpl. rewrite (claimToken_blocked tok (agentId c) X nX wX d now s c); auto.
  - simpl. rewrite claimToken_free; [done|]. by apply cleanup_lookup_None.
Qed.

Lemma available_iff_claimable_witness :
  fst (claimToken "0xAB" "a2" "Two" "scan" 1000 50
         (snd (claimToken "0xab" "a1" "One" "scan" 1000 0 ∅)))
  = fst (isTokenAvailable "0xAB" 50
           (snd (claimToken "0xab" "a1" "One" "scan" 1000 0 ∅))).
Proof.
  apply available_iff_claimable.
  vm_compute. intros c Hc. inversion Hc; subst. simpl. discriminate.
Defined.

(** X2. A call of [claimToken] never touches an unexpired record of another
    token, and a refused claim leaves every unexpired record as it was. *)
Theorem claimToken_frame s tok X nX wX d now k c :
  s !! k = Some c -> now <= expiresAt c ->
  (k <> toLowerCase tok \/ fst (claimToken tok X nX wX d now s) = false) ->
  snd (claimToken tok X nX wX d now s) !! k = Some c.
Proof.
  intros Hk Hlive Hor.
  assert (Hc : cleanupExpiredClaims now s !! k = Some c)
    by (by apply cleanup_lookup_Some).
  unfold claimToken, takeClaim in *.
  destruct (cleanupExpiredClaims now s !! toLowerCase tok) as [e|] eqn:E.
  - destruct (now <=? expiresAt e).
    + destruct (String.eqb (agentId e) X).
      * simpl in *. destruct Hor as [Hne|]; [|done]. by rewrite lookup_insert_ne.
      * done.
    + simpl in *. destruct Hor as [Hne|]; [|done].
      rewrite lookup_insert_ne by done. by rewrite lookup_delete_ne.
  - simpl in *. destruct Hor as [Hne|]; [|done]. by rewrite lookup_insert_ne.
Qed.

Lemma claimToken_frame_witness :
  snd (claimToken "0xBB" "a2" "Two" "scan" 1000 50
         (snd (claimToken "0xAA" "a1" "One" "scan" 1000 0 ∅))) !! "0xaa"
  = snd (claimToken "0xAA" "a1" "One" "scan" 1000 0 ∅) !! "0xaa".
Proof.
  apply (claimToken_frame
           (snd (claimToken "0xAA" "a1" "One" "scan" 1000 0 ∅))
           "0xBB" "a2" "Two" "scan" 1000 50 "0xaa"
           {| tokenAddress := "0xaa"; agentId := "a1"; agentName := "One";
              claimedAt := 0; expiresAt := 1000; reason := "scan" |}).
  - vm_compute. reflexivity.
  - simpl. lia.
  - left. vm_compute. discriminate.
Defined.

Lemma releaseAll_fold agent n0 (b m : gmap string TokenClaim) :
  fst (map_fold (releaseStep agent) (n0, b) m)
  = n0 + Z.of_nat (size (filter (fun kv : string * TokenClaim =>
                                   agentId kv.2 = agent) m))
  /\ forall k,
       snd (map_fold (releaseStep agent) (n0, b) m) !! k
       = match m !! k with
         | Some c => if String.eqb (agentId c) agent then None else b !! k
         | None => b !! k
         end.
Proof.
  apply (map_fold_weak_ind
    (fun r m => fst r = n0 + Z.of_nat (size (filter (fun kv : string * TokenClaim =>
                                   agentId kv.2 = agent) m))
       /\ forall k, snd r !! k = match m !! k with
         | Some c => if String.eqb (agentId c) agent then None else b !! k
         | None => b !! k
         end)).
  - split.
    + rewrite map_filter_empty, map_size_empty. simpl. lia.
    + intros k. by rewrite lookup_empty.
  - intros i x m' r Hi [Hn Hl]. unfold releaseStep.
    destruct (String.eqb_spec (agentId x) agent) as [E|E].
    + split.
      * simpl. rewrite Hn. rewrite map_filter_insert_True by done.
        rewrite map_size_insert_None; [lia|].
        apply map_lookup_filter_None. by left.
      * intros k. simpl. destruct (decide (k = i)) as [->|Hne].
        -- rewrite lookup_delete_eq, lookup_insert_eq.
           destruct (String.eqb_spec (agentId x) agent); done.
        -- rewrite lookup_delete_ne, lookup_insert_ne by done. apply Hl.
    + split.
      * rewrite Hn. rewrite map_filter_insert_False by done.
        by rewrite delete_id.
      * intros k. destruct (decide (k = i)) as [->|Hne].
        -- rewrite lookup_insert_eq. rewrite Hl, Hi.
           destruct (String.eqb_spec (agentId x) agent); done.
        -- rewrite lookup_insert_ne by done. apply Hl.
Qed.

Lemma releaseAllByAgent_filter s agent :
  snd (releaseAllByAgent agent s)
  = filter (fun kv : string * TokenClaim => agentId kv.2 <> agent) s.
Proof.
  unfold releaseAllByAgent.
  destruct (releaseAll_fold agent 0 s s) as [_ Hl].
  apply map_eq. intros k. rewrite Hl.
  destruct (s !! k) as [c|] eqn:E.
  - destruct (String.eqb_spec (agentId c) agent) as [Ea|Ea].
    + symmetry. apply map_lookup_filter_None. right.
      intros c' Hc'. simpl. rewrite E in Hc'. inversion Hc'; subst. auto.
    + symmetry. by apply map_lookup_filter_Some.
  - symmetry. apply map_lookup_filter_None. by left.
Qed.

(** X3. [releaseAllByAgent] removes exactly the records of the agent: none
    of its records is left, every other record is kept as it was, the number
    returned is the number of records removed, and a token the agent held can
    be claimed by anyone right afterwards. *)
Theorem releaseAllByAgent_spec s agent :
  let r := releaseAllByAgent agent s in
  (forall k c, snd r !! k = Some c ->
     s !! k = Some c /\ agentId c <> agent)
  /\ (forall k c, s !! k = Some c -> agentId c <> agent ->
        snd r !! k = Some c)
  /\ fst r + Z.of_nat (size (snd r)) = Z.of_nat (size s)
  /\ (forall tok X nX wX d now c,
        s !! toLowerCase tok = Some c -> agentId c = agent ->
        fst (claimToken tok X nX wX d now (snd r)) = true).
Proof.
  intros r. subst r.
  pose proof (releaseAllByAgent_filter s agent) as Hsnd.
  unfold releaseAllByAgent in *.
  destruct (releaseAll_fold agent 0 s s) as [Hn Hl].
  split; [|split; [|split]].
  - intros k c H. rewrite Hsnd in H.
    by apply map_lookup_filter_Some in H.
  - intros k c H Hne. rewrite Hsnd. by apply map_lookup_filter_Some.
  - rewrite Hn, Hsnd. rewrite Z.add_0_l, <- Nat2Z.inj_add. f_equal.
    rewrite <- map_size_disj_union by apply map_disjoint_filter_complement.
    by rewrite map_filter_union_complement.
  - intros tok X nX wX d now c Hc HA.
    rewrite claimToken_free; [done|].
    apply cleanup_lookup_None. rewrite Hl, Hc.
    destruct (String.eqb_spec (agentId c) agent); done.
Qed.

Lemma statsStep_fold (m : gmap string TokenClaim) :
  (forall n,
     match map_fold statsStep ∅ m !! n with Some k => k | None => 0 end
     = Z.of_nat (size (filter (fun kv : string * TokenClaim =>
                                 agentName kv.2 = n) m)))
  /\ (forall n k, map_fold statsStep ∅ m !! n = Some k -> 0 < k).
Proof.
  apply (map_fold_weak_ind
    (fun (r : gmap string Z) (m : gmap string TokenClaim) =>
       (forall n, match r !! n with Some k => k | None => 0 end
          = Z.of_nat (size (filter (fun kv : string * TokenClaim =>
                                      agentName kv.2 = n) m)))
       /\ (forall n k, r !! n = Some k -> 0 < k))).
  - split.
    + intros n. rewrite lookup_empty, map_filter_empty, map_size_empty. done.
    + intros n k. by rewrite lookup_empty.
  - intros i x m' r Hi [Hc Hp]. unfold statsStep. split.
    + intros n. destruct (decide (n = agentName x)) as [->|Hne].
      * rewrite lookup_insert_eq.
        rewrite map_filter_insert_True by done.
        rewrite map_size_insert_None
          by (apply map_lookup_filter_None; by left).
        rewrite Nat2Z.inj_succ, <- (Hc (agentName x)).
        destruct (r !! agentName x) as [k|] eqn:E; [|lia].
        apply Hp in E. destruct (Z.eqb_spec k 0); lia.
      * rewrite lookup_insert_ne by done.
        rewrite map_filter_insert_False by (simpl; congruence).
        rewrite delete_id by done. apply Hc.
    + intros n k. destruct (decide (n = agentName x)) as [->|Hne].
      * rewrite lookup_insert_eq. intros H; inversion H; subst.
        destruct (r !! agentName x) as [k|] eqn:E; [|lia].
        apply Hp in E. destruct (Z.eqb_spec k 0); lia.
      * rewrite lookup_insert_ne by done. apply Hp.
Qed.

(** X4. The figures of [getStats]: [activeClaims] counts the unexpired
    records, the figure of an agent name is the number of unexpired records
    under that name, and a name without such a record has no entry. *)
Theorem getStats_counts now s :
  let st := fst (getStats now s) in
  let live := cleanupExpiredClaims now s in
  activeClaims st = Z.of_nat (size live)
  /\ (forall n k, claimsByAgent st !! n = Some k ->
        0 < k /\ k = Z.of_nat (size (filter (fun kv : string * TokenClaim =>
                                                 agentName kv.2 = n) live)))
  /\ (forall n, claimsByAgent st !! n = None ->
        forall a c, live !! a = Some c -> agentName c <> n).
Proof.
  intros st live. subst st live. unfold getStats. simpl.
  destruct (statsStep_fold (cleanupExpiredClaims now s)) as [Hc Hp].
  split; [done|]. split.
  - intros n k E. split; [by eapply Hp|]. specialize (Hc n). by rewrite E in Hc.
  - intros n E a c Ha Hn. specialize (Hc n). rewrite E in Hc.
    assert (Hf : filter (fun kv : string * TokenClaim => agentName kv.2 = n)
                   (cleanupExpiredClaims now s) !! a = Some c)
      by (by apply map_lookup_filter_Some).
    assert (size (filter (fun kv : string * TokenClaim => agentName kv.2 = n)
                   (cleanupExpiredClaims now s)) = 0%nat) as Hz by lia.
    apply map_size_empty_iff in Hz. rewrite Hz in Hf.
    by rewrite lookup_empty in Hf.
Qed.

Lemma keyed_empty : keyed ∅.
Proof. intros k c H. by rewrite lookup_empty in H. Qed.

Lemma keyed_filter (P : string * TokenClaim -> Prop)
    `{!forall x, Decision (P x)} s :
  keyed s -> keyed (filter P s).
Proof.
  intros Hk k c Hf. apply map_lookup_filter_Some in Hf as [Hf _]. by apply Hk.
Qed.

Lemma keyed_delete s a : keyed s -> keyed (delete a s).
Proof.
  intros Hk k c H. apply lookup_delete_Some in H as [_ H]. by apply Hk.
Qed.

Lemma keyed_insert s a c :
  keyed s -> tokenAddress c = a -> toLowerCase a = a -> keyed (<[a := c]> s).
Proof.
  intros Hk Ha Hl k c' H. apply lookup_insert_Some in H as [[<- <-]|[_ H]].
  - done.
  - by apply Hk.
Qed.

(** X5. Every operation of the coordinator keeps the map keyed by the
    lower-case token address: a record always sits under its own
    [tokenAddress], so [getClaimInfo] of any spelling of an address returns
    the record of that address in lower case. *)
Theorem coordinator_keeps_keys s :
  keyed s ->
  (forall tok X nX wX d now, keyed (snd (claimToken tok X nX wX d now s)))
  /\ (forall tok X, keyed (releaseToken tok X s))
  /\ (forall tok now, keyed (snd (isTokenAvailable tok now s)))
  /\ (forall X, keyed (snd (releaseAllByAgent X s)))
  /\ (forall now, keyed (snd (getAllClaims now s)))
  /\ (forall tok c, getClaimInfo tok s = Some c ->
        tokenAddress c = toLowerCase tok).
Proof.
  intros Hk. split; [|split; [|split; [|split; [|split]]]].
  - intros tok X nX wX d now.
    pose proof (keyed_filter (fun kv : string * TokenClaim =>
                  ~ (expiresAt kv.2 < now)) s Hk) as Hc.
    fold (cleanupExpiredClaims now s) in Hc.
    unfold claimToken, takeClaim.
    destruct (cleanupExpiredClaims now s !! toLowerCase tok) as [e|] eqn:E.
    + destruct (now <=? expiresAt e).
      * destruct (String.eqb (agentId e) X); [|done]. simpl.
        apply keyed_insert; [done| |apply toLowerCase_idem].
        simpl. by apply Hc in E as [E _].
      * simpl. apply keyed_insert;
          [by apply keyed_delete|done|apply toLowerCase_idem].
    + simpl. apply keyed_insert; [done|done|apply toLowerCase_idem].
  - intros tok X. unfold releaseToken.
    destruct (s !! toLowerCase tok) as [e|]; [|done].
    destruct (negb (String.eqb (agentId e) X)); [done|]. by apply keyed_delete.
  - intros tok now. unfold isTokenAvailable.
    destruct (s !! toLowerCase tok) as [e|]; [|done].
    destruct (expiresAt e <? now); [|done]. by apply keyed_delete.
  - intros X. rewrite releaseAllByAgent_filter. by apply keyed_filter.
  - intros now. simpl. by apply keyed_filter.
  - intros tok c H. unfold getClaimInfo in H. by apply Hk in H as [H _].
Qed.

Lemma coordinator_keeps_keys_witness :
  keyed (snd (claimToken "0xAB" "a1" "One" "scan" 1000 0 ∅)).
Proof.
  destruct (coordinator_keeps_keys ∅) as [H _].
  - intros k c Hk. by rewrite lookup_empty in Hk.
  - apply H.
Defined.

End CoordinatorOpsFacts.

(** ** Dead-token blacklist *)

Section BlacklistFacts.

Import JS DeadTokenBlacklist.
Implicit Types bl : gmap string DeadTokenEntry.

Lemma blacklist_cleanup_lookup bl now k e :
  cleanup now bl !! k = Some e
  <-> bl !! k = Some e /\ now - detectedAt e <= BLACKLIST_DURATION.
Proof.
  unfold cleanup. rewrite map_lookup_filter_Some. simpl. split.
  - intros [H1 H2]. split; [done|lia].
  - intros [H1 H2]. split; [done|lia].
Qed.

Lemma isBlacklisted_true bl tok now :
  fst (isBlacklisted tok now bl) = true
  <-> exists e, bl !! toLowerCase tok = Some e
                /\ now - detectedAt e <= BLACKLIST_DURATION.
Proof.
  unfold isBlacklisted. simpl.
  destruct (cleanup now bl !! toLowerCase tok) as [e|] eqn:E.
  - apply blacklist_cleanup_lookup in E. split; [|done]. intros _. by exists e.
  - split; [done|]. intros [e He].
    apply blacklist_cleanup_lookup in He. congruence.
Qed.

(** X6. A token put on the dead-token blacklist at instant [t0] is reported
    as blacklisted, under any spelling of its address, exactly as long as no
    more than one hour has passed since [t0]; the verdict on every other
    address is what it was before the addition. *)
Theorem blacklist_one_hour bl a sym growth why t0 b now :
  (toLowerCase b = toLowerCase a ->
     fst (isBlacklisted b now (add a sym growth why t0 bl))
     = (now - t0 <=? 3600000))
  /\ (toLowerCase b <> toLowerCase a ->
     fst (isBlacklisted b now (add a sym growth why t0 bl))
     = fst (isBlacklisted b now bl)).
Proof.
  split.
  - intros E.
    destruct (Z.leb_spec (now - t0) 3600000) as [H|H].
    + apply isBlacklisted_true. unfold add. simpl. rewrite E.
      rewrite lookup_insert_eq. eexists. split; [done|]. simpl.
      unfold BLACKLIST_DURATION. lia.
    + apply not_true_is_false. intros Ht.
      apply isBlacklisted_true in Ht as [e [He Hd]].
      unfold add in He. simpl in He. rewrite E, lookup_insert_eq in He.
      inversion He; subst. simpl in Hd. unfold BLACKLIST_DURATION in Hd. lia.
  - intros Hne.
    destruct (fst (isBlacklisted b now bl)) eqn:E.
    + apply isBlacklisted_true in E as [e [He Hd]].
      apply isBlacklisted_true. exists e. split; [|done].
      unfold add. simpl. by rewrite lookup_insert_ne.
    + apply not_true_is_false. intros Ht.
      apply isBlacklisted_true in Ht as [e [He Hd]].
      unfold add in He. simpl in He.
      rewrite lookup_insert_ne in He by done.
      assert (fst (isBlacklisted b now bl) = true)
        by (apply isBlacklisted_true; eauto).
      congruence.
Qed.

End BlacklistFacts.

(** ** Holder concentration *)

Section WhaleFacts.

Import JS WhaleAnalysis.
Local Open Scope Q_scope.

Lemma insertDesc_perm h l : Permutation (insertDesc h l) (h :: l).
Proof.
  induction l as [|x r IH]; simpl; [done|].
  destruct (Qle_bool (percentage x) (percentage h)); [done|].
  rewrite IH. apply perm_swap.
Qed.

Lemma sortDesc_perm l : Permutation (sortDesc l) l.
Proof.
  induction l as [|h l IH]; simpl; [done|].
  rewrite insertDesc_perm. by constructor.
Qed.

(** The head of a sorted list dominates the rest. *)
Lemma insertDesc_headMax h l :
  match l with
  | nil => True
  | h0 :: r0 => Forall (fun x => percentage x <= percentage h0) r0
  end ->
  match insertDesc h l with
  | nil => True
  | h0 :: r0 => Forall (fun x => percentage x <= percentage h0) r0
  end.
Proof.
  destruct l as [|x r]; simpl; [constructor|]. intros Hx.
  destruct (Qle_bool (percentage x) (percentage h)) eqn:E.
  - apply Qle_bool_iff in E. simpl. constructor; [done|].
    eapply Forall_impl; [exact Hx|]. simpl. intros y Hy. lra.
  - apply Qle_bool_false in E. simpl.
    rewrite insertDesc_perm. constructor; [lra|done].
Qed.

Lemma sortDesc_headMax l :
  match sortDesc l with
  | nil => True
  | h0 :: r0 => Forall (fun x => percentage x <= percentage h0) r0
  end.
Proof.
  induction l as [|h l IH]; simpl; [done|]. by apply insertDesc_headMax.
Qed.

Lemma filter_length_perm (f : HolderData -> bool) l l' :
  Permutation l l' ->
  length (List.filter f l) = length (List.filter f l').
Proof.
  induction 1; simpl.
  - done.
  - destruct (f x); simpl; congruence.
  - destruct (f x), (f y); simpl; congruence.
  - congruence.
Qed.

(** X10. [analyzeHolders] does not depend on the order of the holder list
    where it should not: [top1Pct] is the largest percentage, so
    [hasLargeWhale] holds exactly when some holder owns more than 20 percent,
    in which case the concentration is [High]; and the head count and the
    two tallies are those of the list as given. *)
Theorem analyzeHolders_order_free holders :
  let wa := analyzeHolders holders in
  Forall (fun h => percentage h <= top1Pct wa) holders
  /\ (hasLargeWhale wa = true
      <-> exists h, In h holders /\ 20 < percentage h)
  /\ (hasLargeWhale wa = true -> concentration wa = High)
  /\ totalHolders wa = Z.of_nat (length holders)
  /\ whaleCount wa
     = countIf (fun h => Qgtb (percentage h) 5) holders
  /\ microHolders wa
     = countIf (fun h => Qltb (percentage h) 0.1) holders.
Proof.
  intros wa. subst wa. unfold analyzeHolders.
  cbn [top1Pct hasLargeWhale concentration totalHolders whaleCount
       microHolders].
  pose proof (sortDesc_perm holders) as Hp.
  pose proof (sortDesc_headMax holders) as Hm.
  assert (Hall : Forall (fun h => percentage h
                   <= match sortDesc holders with
                      | h0 :: _ => percentage h0 | nil => 0 end) holders).
  { rewrite <- Hp. destruct (sortDesc holders) as [|h0 r]; [constructor|].
    constructor; [lra|exact Hm]. }
  split; [exact Hall|]. split; [|split; [|split; [|split]]].
  - split.
    + intros H. apply Qgtb_gt in H.
      destruct (sortDesc holders) as [|h0 r] eqn:E; [lra|].
      exists h0. split; [|done].
      eapply Permutation_in; [exact Hp|]. by left.
    + intros (h & Hin & Hh). apply Qgtb_gt.
      rewrite List.Forall_forall in Hall. specialize (Hall h Hin). lra.
  - intros ->. by rewrite orb_true_r.
  - by rewrite (Permutation_length Hp).
  - unfold countIf. f_equal. by apply filter_length_perm.
  - unfold countIf. f_equal. by apply filter_length_perm.
Qed.

End WhaleFacts.

(** ** Market regime: confidence and thresholds *)

Section RegimeRanges.

Import JS MarketRegime.

(** X11. The confidence a regime verdict can carry: 20 when the data is
    insufficient, between 55 and 70 for any other sideways verdict, and
    between 66 and 90 for a bull or bear verdict.  A sideways verdict
    therefore never reaches the floor of 30 written in its formula. *)
Theorem regime_confidence_range nowSec pairs :
  let r := detectMarketRegime nowSec pairs in
  match regime r with
  | sideways => confidence r = 20 \/ 55 <= confidence r <= 70
  | _ => 66 <= confidence r <= 90
  end.
Proof.
  intros r. subst r. unfold detectMarketRegime.
  destruct (length (withMarket pairs) <? 5)%nat; [simpl; auto|].
  unfold decideRegime.
  destruct (Z.ltb_spec (bearScore (batchTally nowSec pairs) + 15)
              (bullScore (batchTally nowSec pairs))); [simpl; lia|].
  destruct (Z.ltb_spec (bullScore (batchTally nowSec pairs) + 15)
              (bearScore (batchTally nowSec pairs))); simpl; lia.
Qed.

(** X12. [regimeThresholdAdjustment] never lowers a threshold of 85 or
    less: in a bull market such a threshold becomes exactly 85, in a bear
    market it rises by 15, and sideways leaves it alone.  For the fleet's
    base threshold of 75 the bar is 85 in a bull market, 90 in a bear market
    and 75 otherwise. *)
Theorem regime_threshold_never_lower rg base :
  base <= 85 ->
  base <= regimeThresholdAdjustment rg base
  /\ regimeThresholdAdjustment bull base = 85
  /\ (base <= 80 -> regimeThresholdAdjustment bear base = base + 15)
  /\ regimeThresholdAdjustment sideways base = base.
Proof.
  intros H. unfold regimeThresholdAdjustment. destruct rg; repeat split; lia.
Qed.

Lemma regime_threshold_never_lower_witness :
  regimeThresholdAdjustment bull BaseAgent.SIGNAL_THRESHOLD = 85
  /\ regimeThresholdAdjustment bear BaseAgent.SIGNAL_THRESHOLD = 90
  /\ regimeThresholdAdjustment sideways BaseAgent.SIGNAL_THRESHOLD = 75.
Proof.
  destruct (regime_threshold_never_lower bull BaseAgent.SIGNAL_THRESHOLD)
    as (_ & H1 & H2 & H3).
  - unfold BaseAgent.SIGNAL_THRESHOLD. lia.
  - split; [exact H1|]. split; [|exact H3].
    rewrite H2; unfold BaseAgent.SIGNAL_THRESHOLD; lia.
Defined.

End RegimeRanges.

(** ** Quality gate: what passing guarantees *)

Section QualityGuarantees.

Import JS Nadfun QualityFilter.

(** X13. What a verdict of the quality filter guarantees.  A token that
    passes carries market data, has at least 30 holders, is at least 7200
    seconds old, did not fall by 15 percent or more, and scores between 60
    and 100 with no reason attached; its reserve and its price, where they
    parse as numbers, are at least 3 MON and positive.  A token that fails
    always carries a reason and a score below 60. *)
Theorem quality_verdict nowSec token :
  let q := checkTokenQuality nowSec token in
  (passed q = true ->
     reason q = None /\ 60 <= score q <= 100
     /\ exists m, market_info token = Some m
        /\ 30 <= countOr0 (mi_holder_count m)
        /\ 7200 <= nowSec - created_at (token_info token)
        /\ (-15 < nor (percent token) 0)%Q
        /\ (forall r, parseFloatOr0 (reserve_native m) = Some r ->
              (3 <= r / e18)%Q)
        /\ (forall p, parseFloatOr0 (mi_price m) = Some p -> (0 < p)%Q))
  /\ (passed q = false -> reason q <> None /\ 0 <= score q < 60).
Proof.
  intros q. subst q. unfold checkTokenQuality.
  destruct (market_info token) as [m|]; [|split; [discriminate|done]].
  destruct (nlt _ 3) eqn:Hres; [split; [discriminate|done]|].
  destruct (Z.ltb_spec (countOr0 (mi_holder_count m)) 30) as [|Hh];
    [split; [discriminate|done]|].
  destruct (Qltb _ 2) eqn:Hage; [split; [discriminate|done]|].
  destruct (nle _ 0) eqn:Hprice; [split; [discriminate|done]|].
  destruct (Qgtb (nor (percent token) 0) (-15)) eqn:Hpc.
  2:{ assert (Hn : (if Qgtb (nor (percent token) 0) 10 then Some (50 + 20)
                    else if Qgtb (nor (percent token) 0) 0 then Some (50 + 10)
                    else if Qgtb (nor (percent token) 0) (-5) then Some (50 + 5)
                    else if false then Some (50 - 10) else None) = None).
      { destruct (Qgtb (nor (percent token) 0) 10) eqn:E1.
        { apply Qgtb_gt in E1. apply not_true_iff_false in Hpc.
          exfalso. apply Hpc. apply Qgtb_gt. lra. }
        destruct (Qgtb (nor (percent token) 0) 0) eqn:E2.
        { apply Qgtb_gt in E2. apply not_true_iff_false in Hpc.
          exfalso. apply Hpc. apply Qgtb_gt. lra. }
        destruct (Qgtb (nor (percent token) 0) (-5)) eqn:E3.
        { apply Qgtb_gt in E3. apply not_true_iff_false in Hpc.
          exfalso. apply Hpc. apply Qgtb_gt. lra. }
        done. }
      rewrite Hn. split; [discriminate|done]. }
  destruct (if Qgtb (nor (percent token) 0) 10 then _ else _) as [s0|] eqn:Hs0.
  2:{ split; [discriminate|done]. }
  match goal with
  | |- context [if (?s <? 60) then _ else _] =>
      destruct (Z.ltb_spec s 60) as [Hlt|Hge]
  end.
  - split; [discriminate|]. intros _. simpl. split; [done|]. lia.
  - split; [|discriminate]. intros _. cbn [reason score passed].
    split; [done|]. split; [lia|].
    exists m. split; [done|]. split; [lia|]. split.
    { assert (Hq : (2 <= inject_Z (nowSec - created_at (token_info token))
                          / 3600)%Q).
      { apply Qnot_lt_le. intros Hc. apply Qltb_lt in Hc. congruence. }
      assert (He : (3600 * (inject_Z (nowSec - created_at (token_info token))
                            / 3600)
                    == inject_Z (nowSec - created_at (token_info token)))%Q).
      { apply Qmult_div_r. lra. }
      rewrite Zle_Qle. change (inject_Z 7200) with 7200%Q. lra. }
    split; [by apply Qgtb_gt in Hpc|]. split.
    + intros r Hr. rewrite Hr in Hres. simpl in Hres.
      apply Qnot_lt_le. intros Hc. apply Qltb_lt in Hc. congruence.
    + intros p Hp. rewrite Hp in Hprice. simpl in Hprice.
      apply Qle_bool_false in Hprice. by apply Qnot_le_lt.
Qed.

End QualityGuarantees.

(** ** Scan loop: who gets scored *)

Section ScanGates.

Import JS Score Nadfun BaseAgent.

Variable strategy : string.
Variable nowSec : Z.
Variable blacklist : gset string.
Variable deadTokenBlacklisted : string -> bool.
Variable getCurveProgress : string -> option Q.
Variable getTokenChart : string -> list TechnicalAnalysis.ChartCandle.
Variable getTokenHolders : string -> list WhaleAnalysis.HolderData.
Variable Math_sqrt : Q -> Q.
Variable pairs : list MarketRegime.TokenDataPair.
Variable regime : MarketRegime.MarketRegime.

(** Every gate an iteration has passed when it reaches the scorer. *)
Lemma prepareContext_gates dc token ctx :
  prepareContext strategy nowSec blacklist deadTokenBlacklisted
      getCurveProgress getTokenChart getTokenHolders Math_sqrt pairs regime
      dc token = Some ctx ->
  SignalEngine.token ctx = token
  /\ (tokenKey token ∉ blacklist)
  /\ deadTokenBlacklisted (tokenKey token) = false
  /\ QualityFilter.passed (QualityFilter.checkTokenQuality nowSec token)
     = true
  /\ SignalEngine.ageSeconds ctx = nowSec - created_at (token_info token)
  /\ AgentSpecialization.isTokenInWindow strategy
       (nowSec - created_at (token_info token))
       (getCurveProgress (tokenKey token)) = true
  /\ (SignalEngine.technical ctx <> None \/ SignalEngine.whaleData ctx <> None
      -> (dc < MAX_DETAILED)%nat).
Proof.
  unfold prepareContext.
  destruct (decide _) as [|Hbl]; [discriminate|].
  destruct (match market_info token with
            | Some m => Some (inlineMarket token m)
            | None => cachedMarket pairs (tokenKey token)
            end) as [market|]; [|discriminate].
  destruct (deadTokenBlacklisted _) eqn:Hdead; [discriminate|].
  destruct (QualityFilter.passed _) eqn:Hq; [|discriminate].
  simpl.
  destruct (nle _ 0); [discriminate|].
  destruct (Qltb _ _); [discriminate|].
  destruct (match holder_count market with
            | Some h => h <? 30 | None => false end); [discriminate|].
  destruct (_ && Qltb _ _)%bool; [discriminate|].
  destruct (AgentSpecialization.isTokenInWindow _ _ _) eqn:Hw;
    [|discriminate].
  simpl. intros H; inversion H; subst; clear H. simpl.
  repeat (split; [done|]).
  destruct (Nat.ltb_spec dc MAX_DETAILED) as [Hd|Hd]; [done|].
  simpl. intros [?|?]; done.
Qed.

Lemma isTokenInWindow_enabled s age cp :
  AgentSpecialization.isTokenInWindow s age cp = true ->
  (s = "volume_watcher"%string /\ 300 <= age <= 7200)
  \/ (s = "contrarian"%string /\ 3600 <= age).
Proof.
  unfold AgentSpecialization.isTokenInWindow,
    AgentSpecialization.AGENT_TIME_WINDOWS, eqs.
  destruct (String.eqb_spec s "sniper"); [done|].
  destruct (String.eqb_spec s "alpha_hunter"); [done|].
  destruct (String.eqb_spec s "volume_watcher") as [->|].
  { simpl. destruct (Z.ltb_spec age 300); [done|].
    destruct (Z.ltb_spec 7200 age); [done|]. intros _. left. split; [done|lia]. }
  destruct (String.eqb_spec s "trend_follower"); [done|].
  destruct (String.eqb_spec s "contrarian") as [->|].
  { simpl. destruct (Z.ltb_spec age 3600); [done|].
    intros _. right. split; [done|lia]. }
  destruct (String.eqb_spec s "diamond_hands"); [done|].
  destruct (String.eqb_spec s "swing_trader"); [done|].
  destruct (String.eqb_spec s "degen_ape"); done.
Qed.

Lemma quality_passed_age token :
  QualityFilter.passed (QualityFilter.checkTokenQuality nowSec token) = true ->
  7200 <= nowSec - created_at (token_info token).
Proof.
  unfold QualityFilter.checkTokenQuality.
  destruct (market_info token) as [m|]; [|discriminate].
  destruct (nlt _ 3); [discriminate|].
  destruct (countOr0 (mi_holder_count m) <? 30); [discriminate|].
  destruct (Qltb _ 2) eqn:Hage; [discriminate|]. intros _.
  assert (Hq : (2 <= inject_Z (nowSec - created_at (token_info token))
                     / 3600)%Q).
  { apply Qnot_lt_le. intros Hc. apply Qltb_lt in Hc. congruence. }
  assert (He : (3600 * (inject_Z (nowSec - created_at (token_info token))
                        / 3600)
                == inject_Z (nowSec - created_at (token_info token)))%Q).
  { apply Qmult_div_r. lra. }
  rewrite Zle_Qle. change (inject_Z 7200) with 7200%Q. lra.
Qed.

(** X14. Who can be scored at all.  Only the strategies "volume_watcher" and
    "contrarian" ever reach a scorer; every token scored is at least 7200
    seconds old, and a token scored for "volume_watcher" is exactly 7200
    seconds old, since the quality filter turns away anything younger and
    the strategy's window anything older. *)
Theorem scan_age_gate scorer dc tokens :
  let calls :=
    scanLoop strategy nowSec blacklist deadTokenBlacklisted
      getCurveProgress getTokenChart getTokenHolders Math_sqrt pairs regime
      scorer dc tokens in
  (strategy <> "volume_watcher"%string -> strategy <> "contrarian"%string ->
     calls = nil)
  /\ Forall (fun c => 7200 <= SignalEngine.ageSeconds (fst c)) calls
  /\ (strategy = "volume_watcher"%string ->
      Forall (fun c => SignalEngine.ageSeconds (fst c) = 7200) calls).
Proof.
  intros calls. subst calls. revert dc.
  induction tokens as [|t rest IH]; intros dc; simpl.
  { split; [done|]. split; [constructor|]. intros _. constructor. }
  destruct (prepareContext _ _ _ _ _ _ _ _ _ _ dc t) as [ctx|] eqn:E; [|apply IH].
  apply prepareContext_gates in E as (_ & _ & _ & Hq & Hage & Hw & _).
  apply quality_passed_age in Hq. apply isTokenInWindow_enabled in Hw.
  match goal with
  | |- context [scanLoop _ _ _ _ _ _ _ _ _ _ scorer ?d rest] => destruct (IH d) as (_ & I2 & I3)
  end.
  split; [|split].
  - intros H1 H2. destruct Hw as [[-> _]|[-> _]]; done.
  - constructor; [simpl; lia|done].
  - intros Hs. constructor; [|by apply I3].
    simpl. destruct Hw as [[_ Hw]|[Hw _]]; [lia|congruence].
Qed.

(** What is known of every context the loop hands to the scorer. *)
Lemma scanLoop_gates scorer tokens : forall dc ctx sig,
  In (ctx, sig)
     (scanLoop strategy nowSec blacklist deadTokenBlacklisted
        getCurveProgress getTokenChart getTokenHolders Math_sqrt pairs
        regime scorer dc tokens) ->
  In (SignalEngine.token ctx) tokens
  /\ (tokenKey (SignalEngine.token ctx) ∉ blacklist)
  /\ deadTokenBlacklisted (tokenKey (SignalEngine.token ctx)) = false
  /\ QualityFilter.passed
       (QualityFilter.checkTokenQuality nowSec (SignalEngine.token ctx))
     = true
  /\ sig = scorer ctx.
Proof.
  induction tokens as [|t rest IH]; intros dc ctx sig; simpl; [tauto|].
  destruct (prepareContext _ _ _ _ _ _ _ _ _ _ dc t) as [c|] eqn:E.
  - intros [Heq | Hin].
    + inversion Heq; subst.
      apply prepareContext_gates in E as (E1 & E2 & E3 & E4 & _).
      rewrite E1. auto.
    + apply IH in Hin as (H1 & H2). auto.
  - intros Hin. apply IH in Hin as (H1 & H2). auto.
Qed.

(** X15. A token on the cycle's blacklist, or on the dead-token list, is
    never handed to a scorer; what is scored is a token of the batch that
    passed the quality filter, scored once per occurrence. *)
Theorem scan_respects_blacklists scorer dc tokens :
  Forall (fun c =>
            In (SignalEngine.token (fst c)) tokens
            /\ (tokenKey (SignalEngine.token (fst c)) ∉ blacklist)
            /\ deadTokenBlacklisted (tokenKey (SignalEngine.token (fst c)))
               = false
            /\ snd c = scorer (fst c))
    (scanLoop strategy nowSec blacklist deadTokenBlacklisted
      getCurveProgress getTokenChart getTokenHolders Math_sqrt pairs regime
      scorer dc tokens)
  /\ (length (scanLoop strategy nowSec blacklist deadTokenBlacklisted
      getCurveProgress getTokenChart getTokenHolders Math_sqrt pairs regime
                scorer dc tokens) <= length tokens)%nat.
Proof.
  revert dc. induction tokens as [|t rest IH]; intros dc; simpl.
  { split; [constructor|lia]. }
  destruct (prepareContext _ _ _ _ _ _ _ _ _ _ dc t) as [ctx|] eqn:E.
  - apply prepareContext_gates in E as (Ht & Hb & Hd & _).
    match goal with
    | |- context [scanLoop _ _ _ _ _ _ _ _ _ _ scorer ?d rest] => destruct (IH d) as [I1 I2]
    end.
    split; [|simpl; lia]. constructor.
    + simpl. rewrite Ht. auto.
    + eapply Forall_impl; [exact I1|]. simpl. intros c (H1 & H2). auto.
  - destruct (IH dc) as [I1 I2]. split; [|lia].
    eapply Forall_impl; [exact I1|]. simpl. intros c (H1 & H2). auto.
Qed.

(** X16. The budget of detailed analysis: counting from the start of the
    loop, only the first five contexts handed to the scorer can carry
    technical indicators or holder analysis; every later one has neither. *)
Theorem scan_detail_budget scorer tokens i c :
  scanLoop strategy nowSec blacklist deadTokenBlacklisted
      getCurveProgress getTokenChart getTokenHolders Math_sqrt pairs regime
    scorer 0%nat tokens !! i = Some c ->
  (5 <= i)%nat ->
  SignalEngine.technical (fst c) = None
  /\ SignalEngine.whaleData (fst c) = None.
Proof.
  assert (G : forall toks dc j c',
             scanLoop strategy nowSec blacklist deadTokenBlacklisted
               getCurveProgress getTokenChart getTokenHolders Math_sqrt pairs regime
               scorer dc toks !! j = Some c' ->
             (MAX_DETAILED <= dc + j)%nat ->
             SignalEngine.technical (fst c') = None
             /\ SignalEngine.whaleData (fst c') = None).
  { induction toks as [|t rest IH]; intros dc j c'; simpl; [done|].
    destruct (prepareContext _ _ _ _ _ _ _ _ _ _ dc t) as [ctx|] eqn:E; [|apply IH].
    destruct j as [|j]; simpl.
    - intros H; inversion H; subst; clear H. simpl. intros Hd.
      apply prepareContext_gates in E as (_ & _ & _ & _ & _ & _ & Hdet).
      rewrite Nat.add_0_r in Hd.
      destruct (SignalEngine.technical ctx) eqn:E1.
      { exfalso. assert (dc < MAX_DETAILED)%nat by (apply Hdet; left; done).
        lia. }
      destruct (SignalEngine.whaleData ctx) eqn:E2; [|done].
      exfalso. assert (dc < MAX_DETAILED)%nat by (apply Hdet; right; done).
      lia.
    - intros H Hd. eapply IH; [exact H|].
      destruct (Nat.ltb_spec dc MAX_DETAILED); lia. }
  intros H Hi. eapply G; [exact H|]. unfold MAX_DETAILED. lia.
Qed.

End ScanGates.

Lemma scan_detail_budget_witness :
  match Fixtures.steadyScan !! 5%nat with
  | Some c => SignalEngine.technical (fst c) = None
              /\ SignalEngine.whaleData (fst c) = None
  | None => False
  end.
Proof.
  destruct (Fixtures.steadyScan !! 5%nat) as [c|] eqn:E.
  - apply (scan_detail_budget _ _ _ _ _ _ _ _ _ _ _ _ 5%nat c E). lia.
  - vm_compute in E. discriminate.
Defined.

Section ScanThreshold.

Import JS Score Nadfun BaseAgent.

(** X17. The signals a cycle keeps.  Each is the scorer's answer on one of
    the cycle's contexts and reaches the regime's threshold: at least 75 in
    any market, at least 85 when the batch reads as a bull market and at
    least 90 when it reads as a bear market. *)
Theorem kept_signals_reach_threshold strategy nowSec blacklist dead getCurve
    getChart getHolders Math_sqrt recentTokens calls signals :
  scanAndScore strategy nowSec blacklist dead getCurve getChart getHolders
    Math_sqrt recentTokens = Some (calls, signals) ->
  let rg := MarketRegime.regime
              (MarketRegime.detectMarketRegime nowSec
                 (tokenMarketPairs recentTokens)) in
  Forall (fun s =>
            (exists ctx, In (ctx, s) calls)
            /\ 75 <= SignalEngine.score s
            /\ (rg = MarketRegime.bull -> 85 <= SignalEngine.score s)
            /\ (rg = MarketRegime.bear -> 90 <= SignalEngine.score s))
         signals.
Proof.
  intros H rg. unfold scanAndScore in H.
  destruct (SignalEngine.STRATEGY_SCORERS strategy) as [scorer|];
    [|discriminate].
  inversion H; subst; clear H.
  rewrite List.Forall_forall. intros s Hs.
  apply List.filter_In in Hs as [Hin Hth].
  apply List.in_map_iff in Hin as ([ctx s'] & Heq & Hin). simpl in Heq. subst s'.
  split; [by exists ctx|].
  apply Z.leb_le in Hth. fold rg in Hth.
  unfold MarketRegime.regimeThresholdAdjustment, SIGNAL_THRESHOLD in Hth.
  destruct rg; repeat split; try discriminate; lia.
Qed.

Lemma kept_signals_reach_threshold_witness :
  match Fixtures.dipScan with
  | Some (calls, signals) =>
      signals <> nil /\ Forall (fun s => 75 <= SignalEngine.score s) signals
  | None => False
  end.
Proof.
  destruct Fixtures.dipScan as [[calls signals]|] eqn:E.
  - split.
    + intros ->. vm_compute in E. discriminate.
    + eapply Forall_impl;
        [exact (kept_signals_reach_threshold _ _ _ _ _ _ _ _ _
                  calls signals E)|].
      simpl. intros s (_ & H & _). exact H.
  - vm_compute in E. discriminate.
Defined.

End ScanThreshold.

(** ** Post-buy monitor *)

Section MonitorFacts.

Import JS Nadfun Ext PostBuyMonitor.

Lemma elapsed_geb (d k : Z) :
  Qgeb (inject_Z d / 1000) (inject_Z k) = (k * 1000 <=? d).
Proof.
  unfold Qgeb.
  assert (He : (1000 * (inject_Z d / 1000) == inject_Z d)%Q).
  { apply Qmult_div_r. lra. }
  destruct (Z.leb_spec (k * 1000) d) as [H|H].
  - apply Qle_bool_iff.
    assert ((inject_Z (k * 1000) <= inject_Z d)%Q) by (by rewrite <- Zle_Qle).
    rewrite inject_Z_mult in *. change (inject_Z 1000) with 1000%Q in *. lra.
  - apply Qle_bool_false. intros Hc.
    assert ((inject_Z d < inject_Z (k * 1000))%Q) as Hlt
      by (by rewrite <- Zlt_Qlt).
    rewrite inject_Z_mult in Hlt. change (inject_Z 1000) with 1000%Q in Hlt.
    lra.
Qed.

Lemma xge_weaken a c c' : (c' <= c)%Q -> xge a c = true -> xge a c' = true.
Proof.
  destruct a as [| |q|]; simpl; try done. unfold Qgeb. intros H H'.
  apply Qle_bool_iff in H'. apply Qle_bool_iff. lra.
Qed.

Lemma xlt_weaken a c c' : (c <= c')%Q -> xlt a c = true -> xlt a c' = true.
Proof.
  destruct a as [| |q|]; simpl; try done. intros H H'.
  apply Qltb_lt in H'. apply Qltb_lt. lra.
Qed.

(** X18. During the first ten minutes after the buy the monitor always
    answers [HOLD], and neither of its check-point flags nor the dead-token
    blacklist changes, whatever the market data says. *)
Theorem monitor_quiet_period tok b now fetched hl st bl :
  now - buyTime b < 600000 ->
  let '(r, st', bl') := checkMomentum tok b now fetched hl st bl in
  action r = HOLD
  /\ twoMinCheckDone st' = twoMinCheckDone st
  /\ fiveMinCheckDone st' = fiveMinCheckDone st
  /\ bl' = bl.
Proof.
  intros H. unfold checkMomentum.
  destruct fetched as [| |m]; [done|done|]. cbv zeta.
  change 900%Q with (inject_Z 900). change 1800%Q with (inject_Z 1800).
  change 600%Q with (inject_Z 600). rewrite !elapsed_geb.
  destruct (Z.leb_spec (900 * 1000) (now - buyTime b)); [lia|].
  destruct (Z.leb_spec (1800 * 1000) (now - buyTime b)); [lia|].
  destruct (Z.leb_spec (600 * 1000) (now - buyTime b)); [lia|].
  simpl. done.
Qed.

Lemma monitor_quiet_period_witness :
  let '(r, st', bl') :=
    checkMomentum "0xF00D"
      {| tokenAddress := "0xF00D"; tokenSymbol := None; buyTime := 0;
         buyPrice := Some 1%Q; buyHolderCount := 40; buyVolume := Some 1%Q;
         buyCurveProgress := Some 0%Q |}
      599999 (FetchData {| Nadfun.price := Str (Some 0.5%Q);
                           market_cap := EmptyStr; volume_24h := EmptyStr;
                           price_change_1h := None; price_change_24h := None;
                           holder_count := Some 40; is_graduated := false |})
      None {| snapshots := ∅; twoMinCheckDone := ∅; fiveMinCheckDone := ∅ |}
      ∅ in
  action r = HOLD /\ twoMinCheckDone st' = ∅ /\ fiveMinCheckDone st' = ∅
  /\ bl' = ∅.
Proof.
  apply (monitor_quiet_period "0xF00D"
           {| tokenAddress := "0xF00D"; tokenSymbol := None; buyTime := 0;
              buyPrice := Some 1%Q; buyHolderCount := 40;
              buyVolume := Some 1%Q; buyCurveProgress := Some 0%Q |}
           599999).
  simpl. lia.
Defined.

(** Case analysis on the conditions of [checkMomentum], keeping what each
    branch knows. *)
Ltac monitor_cases :=
  repeat match goal with
         | |- context [if ?b then _ else _] => destruct b eqn:?
         | |- context [match analyzeMomentumTrend ?l with _ => _ end] =>
             destruct (analyzeMomentumTrend l) eqn:?
         end.

Ltac split_ands :=
  repeat match goal with
         | H : (_ && _)%bool = true |- _ => apply andb_true_iff in H as [? ?]
         end.

(** X19. The monitor sells only on a clear move: a [SELL_DEMAND_SPIKE]
    verdict means the price is at least 10 percent above the buy price, a
    [SELL_DEAD_TOKEN] or [SELL_MOMENTUM_DYING] verdict means it is more than
    2 percent below; in between, and whenever the price cannot be read, the
    verdict is [HOLD]. *)
Theorem monitor_sell_bands tok b now fetched hl st bl :
  let r := (checkMomentum tok b now fetched hl st bl).1.1 in
  match action r with
  | HOLD => True
  | SELL_DEMAND_SPIKE =>
      exists m, metrics r = Some m /\ xge (priceChange m) 10 = true
  | SELL_DEAD_TOKEN | SELL_MOMENTUM_DYING =>
      exists m, metrics r = Some m /\ xlt (priceChange m) (-2) = true
  end.
Proof.
  intros r. subst r. unfold checkMomentum.
  destruct fetched as [| |m]; [done|done|]. cbv zeta.
  monitor_cases; cbn [fst snd action metrics sellResult]; try done;
    split_ands; eexists; (split; [reflexivity|cbn [priceChange]]).
  all: first [ eapply xge_weaken; [|eassumption]; lra
             | eapply xlt_weaken; [|eassumption]; lra ].
Qed.

Lemma notDone_set m tok : notDone (<[tok := true]> m) tok = false.
Proof. unfold notDone. by rewrite lookup_insert_eq. Qed.

(** The early flag, once set, stays set through [checkMomentum]. *)
Lemma early_flag_kept tok b now fetched hl st bl :
  notDone (twoMinCheckDone st) tok = false ->
  notDone (twoMinCheckDone (checkMomentum tok b now fetched hl st bl).1.2) tok
  = false.
Proof.
  intros H. unfold checkMomentum.
  destruct fetched as [| |m]; [done|done|]. cbv zeta.
  cbn [twoMinCheckDone]. rewrite H. rewrite andb_false_r.
  monitor_cases; cbn [fst snd twoMinCheckDone]; done.
Qed.

(** X20. [SELL_DEAD_TOKEN] comes from the early check point only: it needs
    at least 15 minutes since the buy, at most 4 new holders and a price
    more than 3 percent down; the token is then on the dead-token blacklist
    for the next hour, under any spelling of its address.  The verdict is
    given at most once: after it, and whenever the early check point has
    been used, no later call for that token answers [SELL_DEAD_TOKEN] (until
    [stopMonitoring] clears the flag). *)
Theorem dead_token_verdict tok b now fetched hl st bl :
  let '(r, st', bl') := checkMomentum tok b now fetched hl st bl in
  (action r = SELL_DEAD_TOKEN ->
     900000 <= now - buyTime b
     /\ notDone (twoMinCheckDone st) tok = true
     /\ (exists m, metrics r = Some m /\ holderGrowth m <= 4
                   /\ xlt (priceChange m) (-3) = true)
     /\ (forall spelling later,
           toLowerCase spelling = toLowerCase tok ->
           later - now <= 3600000 ->
           fst (DeadTokenBlacklist.isBlacklisted spelling later bl') = true))
  /\ (action r = SELL_DEAD_TOKEN
      \/ notDone (twoMinCheckDone st) tok = false ->
      forall b2 now2 fetched2 hl2,
        action (checkMomentum tok b2 now2 fetched2 hl2 st' bl').1.1
        <> SELL_DEAD_TOKEN).
Proof.
  assert (Hflag : forall b2 now2 fetched2 hl2 st2 bl2,
            notDone (twoMinCheckDone st2) tok = false ->
            action (checkMomentum tok b2 now2 fetched2 hl2 st2 bl2).1.1
            <> SELL_DEAD_TOKEN).
  { intros b2 now2 f2 hl2 st2 bl2 H. unfold checkMomentum.
    destruct f2 as [| |m]; [done|done|]. cbv zeta.
    cbn [twoMinCheckDone]. rewrite H, andb_false_r.
    monitor_cases; cbn [fst snd action sellResult]; done. }
  destruct (checkMomentum tok b now fetched hl st bl) as [[r st'] bl'] eqn:E.
  assert (Hdead : action r = SELL_DEAD_TOKEN ->
     900000 <= now - buyTime b
     /\ notDone (twoMinCheckDone st) tok = true
     /\ (exists m, metrics r = Some m /\ holderGrowth m <= 4
                   /\ xlt (priceChange m) (-3) = true)
     /\ (forall spelling later,
           toLowerCase spelling = toLowerCase tok ->
           later - now <= 3600000 ->
           fst (DeadTokenBlacklist.isBlacklisted spelling later bl') = true)
     /\ notDone (twoMinCheckDone st') tok = false).
  { unfold checkMomentum in E.
    destruct fetched as [| |m];
      [inversion E; subst; done|inversion E; subst; done|].
    cbv zeta in E. revert E.
    change 900%Q with (inject_Z 900). rewrite !elapsed_geb.
    monitor_cases; intros E; inversion E; subst; clear E;
      cbn [action sellResult]; try done.
    intros _. split_ands.
    split; [lia|]. split; [done|]. split; [|split].
    + eexists. split; [reflexivity|]. cbn [holderGrowth priceChange].
      split; [lia|done].
    + intros spelling later Hsp Hlater.
      apply isBlacklisted_true. unfold DeadTokenBlacklist.add.
      cbn [DeadTokenBlacklist.tokenAddress]. rewrite Hsp, lookup_insert_eq.
      eexists. split; [reflexivity|]. simpl.
      unfold DeadTokenBlacklist.BLACKLIST_DURATION. lia.
    + cbn [twoMinCheckDone]. apply notDone_set. }
  split.
  - intros Ha. destruct (Hdead Ha) as (H1 & H2 & H3 & H4 & _). auto.
  - intros [Ha|Hn] b2 now2 f2 hl2; apply Hflag.
    + by destruct (Hdead Ha) as (_ & _ & _ & _ & H5).
    + pose proof (early_flag_kept tok b now fetched hl st bl Hn) as Hk.
      by rewrite E in Hk.
Qed.

Lemma holdDuration_le (d : Z) :
  Qle_bool (inject_Z d / 60000) 10 = true -> d <= 600000.
Proof.
  intros H. apply Qle_bool_iff in H.
  assert (He : (60000 * (inject_Z d / 60000) == inject_Z d)%Q).
  { apply Qmult_div_r. lra. }
  rewrite Zle_Qle. change (inject_Z 600000) with 600000%Q. lra.
Qed.

(** X21. The post-buy step of [evaluateHoldings] calls the monitor only for
    holdings at most ten minutes old.  Unless the monitor reads the clock
    five minutes or more after the agent did, neither check point of
    [checkMomentum] can then be reached: the step never answers
    [SELL_DEAD_TOKEN] or [SELL_MOMENTUM_DYING], never marks a check point as
    used and never adds to the dead-token blacklist; the only sell it can
    order is the [SELL_DEMAND_SPIKE] of the momentum analysis (confidence
    90), at ten minutes or later. *)
Theorem postBuyCheck_reach tok acquiredAt now signal monitorNow fetched hl
    st bl :
  monitorNow - now < 300000 ->
  let '(r, st', bl') :=
    postBuyCheck tok acquiredAt now signal monitorNow fetched hl st bl in
  bl' = bl
  /\ twoMinCheckDone st' = twoMinCheckDone st
  /\ fiveMinCheckDone st' = fiveMinCheckDone st
  /\ match r with
     | None => True
     | Some r =>
         action r = HOLD
         \/ (action r = SELL_DEMAND_SPIKE /\ confidence r = 90
             /\ exists t, acquiredAt = Some t /\ 600000 <= monitorNow - t)
     end.
Proof.
  intros Hclock. unfold postBuyCheck.
  destruct acquiredAt as [t|]; [|done].
  destruct (Qle_bool _ 10) eqn:Hgate; [|done].
  destruct signal as [s|]; [|done].
  cbn [holdDurationMinutes] in Hgate. apply holdDuration_le in Hgate.
  unfold checkMomentum.
  destruct fetched as [| |m]; [simpl; auto|simpl; auto|]. cbv zeta.
  cbn [buyTime].
  change 900%Q with (inject_Z 900). change 1800%Q with (inject_Z 1800).
  change 600%Q with (inject_Z 600). rewrite !elapsed_geb.
  destruct (Z.leb_spec (900 * 1000) (monitorNow - t)); [lia|].
  destruct (Z.leb_spec (1800 * 1000) (monitorNow - t)); [lia|].
  rewrite !andb_false_l, !andb_false_r.
  destruct (Z.leb_spec (600 * 1000) (monitorNow - t)) as [H600|H600].
  - monitor_cases; cbn [fst snd action confidence sellResult
                        twoMinCheckDone fiveMinCheckDone];
      repeat (split; [done|]); auto.
    right. repeat (split; [done|]). exists t. split; [done|lia].
  - rewrite andb_false_l. cbn [fst snd action sellResult twoMinCheckDone
                               fiveMinCheckDone]. auto.
Qed.

Lemma postBuyCheck_reach_witness :
  let '(r, st', bl') :=
    postBuyCheck "0xF00D" (Some 0) 600000
      (Some {| tokenAddress := "0xF00D"; tokenSymbol := None; buyTime := 0;
               buyPrice := Some 1%Q; buyHolderCount := 40;
               buyVolume := Some 1%Q; buyCurveProgress := Some 0%Q |})
      890000
      (FetchData {| Nadfun.price := Str (Some 0.5%Q);
                    market_cap := EmptyStr; volume_24h := EmptyStr;
                    price_change_1h := None; price_change_24h := None;
                    holder_count := Some 40; is_graduated := false |})
      None {| snapshots := ∅; twoMinCheckDone := ∅; fiveMinCheckDone := ∅ |}
      ∅ in
  bl' = ∅ /\ twoMinCheckDone st' = ∅ /\ fiveMinCheckDone st' = ∅
  /\ match r with
     | None => True
     | Some r =>
         action r = HOLD
         \/ (action r = SELL_DEMAND_SPIKE /\ confidence r = 90
             /\ exists t, Some 0 = Some t /\ 600000 <= 890000 - t)
     end.
Proof.
  apply (postBuyCheck_reach "0xF00D" (Some 0) 600000
           (Some {| tokenAddress := "0xF00D"; tokenSymbol := None;
                    buyTime := 0; buyPrice := Some 1%Q; buyHolderCount := 40;
                    buyVolume := Some 1%Q; buyCurveProgress := Some 0%Q |})
           890000).
  lia.
Defined.

End MonitorFacts.

(** ** Volume spike detector *)

Section SpikeFacts.

Import JS Nadfun Ext VolumeSpikeDetector.
Local Open Scope Z_scope.

(** The history map after [analyzeToken], whatever it reports. *)
Lemma analyzeToken_history tokenData now hist :
  let key := toLowerCase (token_id (token_info tokenData)) in
  let vol := ndivc (parseFloatOr0 (match market_info tokenData with
                                   | Some m => mi_volume m
                                   | None => EmptyStr
                                   end)) e18 in
  let grown :=
    (match hist !! key with Some h => h | None => nil end)
    ++ {| tokenAddress := key; volume24h := vol; timestamp := now;
          holderCount := match market_info tokenData with
                         | Some m => countOr0 (mi_holder_count m)
                         | None => 0
                         end |} :: nil in
  snd (analyzeToken tokenData now hist)
  = if nlt vol MIN_BASE_VOLUME then hist
    else <[key := if (SNAPSHOT_HISTORY_SIZE <? length grown)%nat
                  then tl grown else grown]> hist.
Proof.
  intros key vol grown. unfold analyzeToken. fold key vol. cbv zeta.
  fold grown.
  destruct (nlt vol MIN_BASE_VOLUME); [done|].
  destruct (length _ <? 2)%nat; [done|].
  destruct (nth_error _ _); [|done].
  destruct (_ && _)%bool; done.
Qed.

(** X22. The history the detector keeps stays tidy: through [analyzeToken]
    and [cleanupOldSnapshots] no token ever has an empty history or more
    than six snapshots, and no recorded volume is a number below the base
    volume of 10 MON. *)
Theorem spike_history_tidy tokenData now hist :
  tidy hist ->
  tidy (snd (analyzeToken tokenData now hist))
  /\ tidy (cleanupOldSnapshots now hist).
Proof.
  intros Ht. split.
  - rewrite analyzeToken_history.
    destruct (nlt _ MIN_BASE_VOLUME) eqn:Hvol; [done|].
    intros k h. destruct (decide (k = toLowerCase
                                        (token_id (token_info tokenData))))
      as [->|Hne].
    2:{ rewrite lookup_insert_ne by done. apply Ht. }
    rewrite lookup_insert_eq. intros H; inversion H; subst; clear H.
    set (old := match hist !! _ with Some h => h | None => nil end).
    assert (Hold : (length old <= SNAPSHOT_HISTORY_SIZE)%nat
                   /\ Forall (fun s => nlt (volume24h s) MIN_BASE_VOLUME
                                       = false) old).
    { subst old. destruct (hist !! _) as [h|] eqn:E.
      - destruct (Ht _ _ E) as [[_ H1] H2]. done.
      - split; [simpl; lia|constructor]. }
    destruct Hold as [Hlen Hall].
    assert (Hgrown : Forall (fun s => nlt (volume24h s) MIN_BASE_VOLUME
                                      = false)
                       (old ++ {| tokenAddress := toLowerCase
                                    (token_id (token_info tokenData));
                                  volume24h := ndivc (parseFloatOr0
                                    (match market_info tokenData with
                                     | Some m => mi_volume m
                                     | None => EmptyStr
                                     end)) e18;
                                  timestamp := now;
                                  holderCount :=
                                    match market_info tokenData with
                                    | Some m => countOr0 (mi_holder_count m)
                                    | None => 0
                                    end |} :: nil)).
    { apply Forall_app. split; [done|]. constructor; [done|constructor]. }
    set (grown := old ++ _ :: nil) in *.
    assert (Hg : length grown = S (length old)).
    { subst grown. rewrite length_app. simpl. lia. }
    unfold SNAPSHOT_HISTORY_SIZE in *.
    destruct (Nat.ltb_spec 6 (length grown)).
    + destruct grown as [|g0 gr]; [simpl in *; lia|]. simpl in *.
      split; [lia|]. by inversion Hgrown.
    + split; [lia|done].
  - intros k h. unfold cleanupOldSnapshots. rewrite lookup_omap.
    destruct (hist !! k) as [h0|] eqn:E; [|done]. simpl.
    destruct (Ht _ _ E) as [[_ H1] H2].
    destruct (List.filter _ h0) as [|s r] eqn:Hf; [done|].
    intros H; inversion H; subst; clear H. rewrite <- Hf. split.
    + split.
      * rewrite Hf. simpl. lia.
      * pose proof (List.filter_length_le
                      (fun s => now - 60 * 60 * 1000 <? timestamp s) h0).
        lia.
    + apply List.Forall_forall. intros x Hx.
      apply List.filter_In in Hx as [Hx _].
      rewrite List.Forall_forall in H2. by apply H2.
Qed.

Lemma spike_history_tidy_witness :
  tidy (snd (analyzeToken (Fixtures.steadyToken "0xc1") 0 ∅))
  /\ tidy (cleanupOldSnapshots 0 ∅).
Proof.
  apply spike_history_tidy. intros k h H. by rewrite lookup_empty in H.
Defined.

Lemma nth_error_grown {A} (old : list A) (x : A) :
  (length old <= 6)%nat ->
  let grown := old ++ x :: nil in
  let kept := if (6 <? length grown)%nat then tl grown else grown in
  (length kept <? 2)%nat = false ->
  nth_error kept (length kept - 2) = List.last (map Some old) None
  /\ old <> nil.
Proof.
  intros Hlen.
  destruct old as [|a [|b [|c [|d [|e [|f [|g r]]]]]]];
    simpl in *; try lia; intros H; try discriminate; split; done.
Qed.

Lemma last_Some_In {A} (l : list A) (x : A) :
  List.last (map Some l) None = Some x -> In x l.
Proof.
  induction l as [|a r IH]; [discriminate|].
  destruct r as [|b r'].
  - simpl. intros H; inversion H. by left.
  - intros H. right. apply IH. exact H.
Qed.

(** X23. What a reported spike means.  On a tidy history a spike is only
    ever reported for a token seen before: the previous snapshot recorded a
    volume [p] of at least 10 MON, the current volume is at least one and a
    half times [p], and at least 3 holders were gained since; a token seen
    for the first time, or one below 10 MON, never spikes. *)
Theorem spike_means tokenData now hist spike hist' :
  tidy hist ->
  analyzeToken tokenData now hist = (Some spike, hist') ->
  exists h prev p c,
    hist !! toLowerCase (token_id (token_info tokenData)) = Some h
    /\ List.last (map Some h) None = Some prev
    /\ previousVolume spike = Some p /\ volume24h prev = Some p
    /\ currentVolume spike = Some c
    /\ (10 <= p)%Q /\ (1.5 * p <= c)%Q
    /\ 3 <= holderGrowth spike.
Proof.
  intros Ht. unfold analyzeToken. cbv zeta.
  set (key := toLowerCase (token_id (token_info tokenData))).
  set (vol := ndivc (parseFloatOr0 _) e18).
  set (hc := match market_info tokenData with
             | Some m => countOr0 (mi_holder_count m)
             | None => 0
             end).
  destruct (nlt vol MIN_BASE_VOLUME) eqn:Hvol; [discriminate|].
  set (old := match hist !! key with Some h => h | None => nil end).
  assert (Hold : (length old <= 6)%nat
                 /\ Forall (fun s => nlt (volume24h s) MIN_BASE_VOLUME
                                     = false) old
                 /\ (old <> nil -> hist !! key = Some old)).
  { subst old. destruct (hist !! key) as [h|] eqn:E.
    - destruct (Ht _ _ E) as [[_ H1] H2]. done.
    - split; [simpl; lia|]. split; [constructor|done]. }
  destruct Hold as (Hlen & Hall & Hsome).
  unfold SNAPSHOT_HISTORY_SIZE.
  destruct (length _ <? 2)%nat eqn:Hshort; [discriminate|].
  destruct (nth_error_grown old _ Hlen Hshort) as [Hnth Hne].
  rewrite Hnth.
  destruct (List.last (map Some old) None) as [prev|] eqn:Hlast;
    [|discriminate].
  destruct (_ && _)%bool eqn:Hcond; [|discriminate].
  intros H; inversion H; subst; clear H.
  cbn [previousVolume currentVolume holderGrowth].
  apply andb_true_iff in Hcond as [Hinc Hgrow]. apply Z.leb_le in Hgrow.
  assert (Hin : In prev old) by (by apply last_Some_In).
  rewrite List.Forall_forall in Hall. specialize (Hall prev Hin).
  destruct (volume24h prev) as [p|] eqn:Hp.
  2:{ destruct vol; simpl in Hinc; discriminate. }
  destruct vol as [c|] eqn:Hc; [|simpl in Hinc; discriminate].
  simpl in Hall.
  assert (H10 : (10 <= p)%Q).
  { unfold MIN_BASE_VOLUME in Hall. apply Qnot_lt_le. intros Hlt.
    apply Qltb_lt in Hlt. congruence. }
  simpl in Hinc.
  destruct (Qeq_bool p 0) eqn:Hz.
  { apply Qeq_bool_iff in Hz. lra. }
  simpl in Hinc. unfold MIN_VOLUME_INCREASE, Qgeb in Hinc.
  apply Qle_bool_iff in Hinc.
  assert (He : (p * ((c - p) / p) == c - p)%Q) by (apply Qmult_div_r; lra).
  exists old, prev, p, c.
  split; [by apply Hsome|]. repeat (split; [done|]).
  split; [nra|done].
Qed.

Lemma spike_means_witness :
  match fst Fixtures.steadySpike with
  | Some spike => 3 <= holderGrowth spike
  | None => False
  end.
Proof.
  destruct Fixtures.steadySpike as [[spike|] hist'] eqn:E.
  - assert (Ht : tidy Fixtures.seenOnce).
    { intros k h H. unfold Fixtures.seenOnce in H.
      apply lookup_singleton_Some in H as [_ <-].
      split; [simpl; unfold SNAPSHOT_HISTORY_SIZE; lia|].
      constructor; [reflexivity|constructor]. }
    destruct (spike_means _ _ _ _ _ Ht E)
      as (h & prev & p & c & _ & _ & _ & _ & _ & _ & _ & H3).
    exact H3.
  - vm_compute in E. discriminate.
Defined.

End SpikeFacts.

(** ** The buy side of a cycle *)

Section BuyFacts.

Import JS Score Nadfun LearningSystem Advisory BuyDecision.

Lemma scorer_address strategy scorer ctx :
  SignalEngine.STRATEGY_SCORERS strategy = Some scorer ->
  SignalEngine.tokenAddress (scorer ctx)
  = token_id (token_info (SignalEngine.token ctx)).
Proof.
  unfold SignalEngine.STRATEGY_SCORERS.
  repeat (destruct (eqs strategy _);
          [intros H; inversion H; reflexivity|]).
  discriminate.
Qed.

Lemma insertByScore_perm s l : Permutation (insertByScore s l) (s :: l).
Proof.
  induction l as [|x r IH]; simpl; [done|].
  destruct (_ <=? _); [done|]. rewrite IH. apply perm_swap.
Qed.

Lemma sortByScore_perm l : Permutation (sortByScore l) l.
Proof.
  induction l as [|h l IH]; simpl; [done|].
  rewrite insertByScore_perm. by constructor.
Qed.

Lemma In_firstn_In {A} n (l : list A) x : In x (firstn n l) -> In x l.
Proof.
  revert l. induction n as [|n IH]; intros [|a l]; simpl; try tauto.
  intros [->|H]; [by left|right; by apply IH].
Qed.

Lemma topCandidates_In s l : In s (topCandidates l) -> In s l.
Proof.
  unfold topCandidates. intros H.
  eapply Permutation_in; [apply sortByScore_perm|].
  by eapply In_firstn_In.
Qed.

Lemma chooseToken_spec profile h recentTokens oracle cands s d :
  chooseToken profile h recentTokens oracle cands = Some (s, d) ->
  In s cands
  /\ action d = BUY
  /\ shouldTakeTradeBasedOnLearning profile (confidence d) h = true
  /\ exists t, In t recentTokens /\ d = makeAgentDecision (oracle t s).
Proof.
  induction cands as [|c rest IH]; simpl; [discriminate|].
  destruct (List.find _ recentTokens) as [t|] eqn:Hf.
  2:{ intros H. destruct (IH H) as (H1 & H2). auto. }
  destruct (action (makeAgentDecision (oracle t c))) eqn:Ha.
  - destruct (shouldTakeTradeBasedOnLearning profile
                (confidence (makeAgentDecision (oracle t c))) h) eqn:Hl.
    + intros H; inversion H; subst; clear H.
      split; [by left|]. split; [done|]. split; [done|].
      exists t. split; [|done]. by apply List.find_some in Hf as [Hf _].
    + intros H. destruct (IH H) as (H1 & H2). auto.
  - intros H. destruct (IH H) as (H1 & H2). auto.
  - intros H. destruct (IH H) as (H1 & H2). auto.
Qed.

Lemma makeAgentDecision_BUY out :
  action (makeAgentDecision out) = BUY ->
  exists p, out = Parsed p
    /\ targetAmount (makeAgentDecision out)
       = (if truthyField (dp_targetAmount p) then dp_targetAmount p
          else Finite (if ngt (confidence (makeAgentDecision out)) 70
                       then 10 else 5)%Q)
    /\ truthyField (targetAmount (makeAgentDecision out)) = true.
Proof.
  destruct out as [| | |p]; simpl; try discriminate.
  destruct (validateAction (dp_action p)) eqn:Hv; try discriminate.
  intros _. exists p. split; [done|].
  destruct (truthyField (dp_targetAmount p)) eqn:Ht; [done|].
  split; [done|]. simpl. destruct (ngt _ 70); reflexivity.
Qed.

(** X24. The learned limit on open positions never decides a buy.  The
    limit is 2, 3 or 5, while [scanAndBuy] only gets as far as the learning
    check with fewer than [MAX_HOLDINGS_PER_AGENT = 2] holdings; so for a
    profile computed from any trade history the check passes exactly when
    the model's confidence is not below the learned threshold, which is 60,
    70 or 75 (75 with fewer than ten trades).  A confidence that is a number
    passes when it reaches the threshold; a confidence that is [NaN], which
    is what [makeAgentDecision] returns when the model writes a confidence
    such as "85%", is below nothing and always passes. *)
Theorem max_positions_never_binds pnls (conf : num) h :
  h < MAX_HOLDINGS_PER_AGENT ->
  let profile := getAgentLearningProfile pnls in
  shouldTakeTradeBasedOnLearning profile conf h
  = negb (nlt conf (confidenceThreshold profile))
  /\ (forall c, conf = Some c ->
      shouldTakeTradeBasedOnLearning profile conf h
      = Qgeb c (confidenceThreshold profile))
  /\ (conf = NaN -> shouldTakeTradeBasedOnLearning profile conf h = true)
  /\ (forall p, dp_confidence p = Other Ext.XNaN ->
      confidence (makeAgentDecision (Parsed p)) = NaN)
  /\ (confidenceThreshold profile = 60%Q \/ confidenceThreshold profile = 70%Q
      \/ confidenceThreshold profile = 75%Q)
  /\ ((length pnls < 10)%nat -> confidenceThreshold profile = 75%Q)
  /\ 2 <= maxPositions profile <= 5.
Proof.
  intros Hh profile. subst profile. unfold getAgentLearningProfile.
  cbn [confidenceThreshold maxPositions].
  unfold shouldTakeTradeBasedOnLearning. cbn [confidenceThreshold maxPositions].
  set (wr := if 0 <? Z.of_nat (length pnls) then _ else 0%Q).
  assert (Hmax : 2 <= calculateMaxPositions wr <= 5).
  { unfold calculateMaxPositions.
    destruct (Qgeb wr 0.5); [lia|]. destruct (Qgeb wr 0.35); lia. }
  assert (Hpos : (calculateMaxPositions wr <=? h) = false).
  { unfold MAX_HOLDINGS_PER_AGENT in Hh. apply Z.leb_gt. lia. }
  rewrite Hpos.
  split; [|split; [|split; [|split; [|split; [|split]]]]].
  - by destruct (nlt conf _).
  - intros c ->. unfold nlt, Qltb, Qgeb. by destruct (Qle_bool _ c).
  - intros ->. reflexivity.
  - intros p Hp. simpl. rewrite Hp. reflexivity.
  - unfold calculateAdaptiveConfidence.
    destruct (_ <? 10); [auto|]. destruct (Qgeb wr 0.5); [auto|].
    destruct (Qgeb wr 0.35); auto.
  - intros Hl. unfold calculateAdaptiveConfidence.
    destruct (Z.ltb_spec (Z.of_nat (length pnls)) 10); [done|lia].
  - exact Hmax.
Qed.

(** With three trades behind it the threshold is 75: a confidence of 80
    passes. *)
Lemma max_positions_never_binds_witness :
  shouldTakeTradeBasedOnLearning
    (getAgentLearningProfile (Some 5 :: None :: Some (-3) :: nil))
    (Some 80%Q) 1
  = true.
Proof.
  destruct (max_positions_never_binds (Some 5 :: None :: Some (-3) :: nil)
              (Some 80%Q) 1) as (H & _).
  - unfold MAX_HOLDINGS_PER_AGENT. lia.
  - rewrite H. reflexivity.
Defined.

(** X25. The amount of a buy is the model's: a [BUY] decision always
    carries a target amount (the model's own when it gave one, otherwise 10
    MON above 70 percent confidence and 5 MON below), so the amount
    [scanAndBuy] trades never comes from the learned position size. *)
Theorem trade_amount_is_models out profile :
  action (makeAgentDecision out) = BUY ->
  exists p, out = Parsed p
    /\ tradeAmount profile (makeAgentDecision out)
       = (if truthyField (dp_targetAmount p) then dp_targetAmount p
          else Finite (if ngt (confidence (makeAgentDecision out)) 70
                       then 10 else 5)%Q).
Proof.
  intros H. destruct (makeAgentDecision_BUY out H) as (p & Hp & Ht & Htr).
  exists p. split; [done|]. unfold tradeAmount. by rewrite Htr.
Qed.

Lemma trade_amount_is_models_witness :
  tradeAmount (getAgentLearningProfile nil)
    (makeAgentDecision
       (Parsed {| dp_action := "BUY"; dp_confidence := Finite 80;
                  dp_reasoning := None; dp_targetAmount := Falsy |}))
  = Finite 10.
Proof.
  destruct (trade_amount_is_models
              (Parsed {| dp_action := "BUY"; dp_confidence := Finite 80;
                         dp_reasoning := None; dp_targetAmount := Falsy |})
              (getAgentLearningProfile nil) eq_refl) as (p & Hp & ->).
  inversion Hp; subst. reflexivity.
Defined.

(** Every signal a scan keeps belongs to a token of the batch that passed
    the gates of the loop. *)
Lemma scanAndScore_signal strategy nowSec bl dead getCurve getChart
    getHolders sqrt recentTokens calls signals s :
  BaseAgent.scanAndScore strategy nowSec bl dead getCurve getChart
    getHolders sqrt recentTokens = Some (calls, signals) ->
  In s signals ->
  exists t, In t recentTokens
    /\ (BaseAgent.tokenKey t ∉ bl)
    /\ dead (BaseAgent.tokenKey t) = false
    /\ QualityFilter.passed (QualityFilter.checkTokenQuality nowSec t) = true
    /\ toLowerCase (SignalEngine.tokenAddress s) = BaseAgent.tokenKey t.
Proof.
  unfold BaseAgent.scanAndScore.
  destruct (SignalEngine.STRATEGY_SCORERS strategy) as [scorer|] eqn:Hs;
    [|discriminate].
  intros H Hin. inversion H; subst; clear H.
  apply List.filter_In in Hin as [Hin _].
  apply List.in_map_iff in Hin as ([ctx s'] & Heq & Hin).
  simpl in Heq. subst s'.
  apply scanLoop_gates in Hin as (H1 & H2 & H3 & H4 & H5).
  exists (SignalEngine.token ctx). repeat (split; [done|]).
  subst s. by rewrite (scorer_address _ _ _ Hs).
Qed.

Lemma claimToken_outcome tok A nA wA t s :
  let r := AgentCoordinator.claimToken tok A nA wA 300000 t s in
  if fst r then
    (exists c, snd r !! toLowerCase tok = Some c
               /\ AgentCoordinator.agentId c = A
               /\ AgentCoordinator.expiresAt c = t + 300000)
    /\ AgentCoordinator.releaseToken tok A (snd r) ⊆ s
  else snd r = AgentCoordinator.cleanupExpiredClaims t s.
Proof.
  intros r. subst r.
  assert (Hsub : forall m : gmap string AgentCoordinator.TokenClaim,
            m ⊆ AgentCoordinator.cleanupExpiredClaims t s -> m ⊆ s).
  { intros m Hm. etrans; [exact Hm|]. apply map_filter_subseteq. }
  unfold AgentCoordinator.claimToken, AgentCoordinator.takeClaim.
  destruct (AgentCoordinator.cleanupExpiredClaims t s !! toLowerCase tok)
    as [c|] eqn:E.
  - destruct (t <=? AgentCoordinator.expiresAt c).
    + destruct (String.eqb_spec (AgentCoordinator.agentId c) A) as [EA|EA];
        [|done].
      cbn [fst snd]. split.
      * eexists. rewrite lookup_insert_eq. split; [done|]. by simpl.
      * unfold AgentCoordinator.releaseToken. rewrite lookup_insert_eq.
        simpl. rewrite <- EA at 1. rewrite String.eqb_refl. simpl.
        rewrite delete_insert_eq. apply Hsub, delete_subseteq.
    + cbn [fst snd]. split.
      * eexists. rewrite lookup_insert_eq. split; [done|].
        cbn [AgentCoordinator.expiresAt AgentCoordinator.agentId].
        unfold AgentCoordinator.MAX_LOCK_DURATION. split; [done|lia].
      * unfold AgentCoordinator.releaseToken. rewrite lookup_insert_eq.
        simpl. rewrite String.eqb_refl. simpl.
        rewrite delete_insert_eq. apply Hsub.
        etrans; apply delete_subseteq.
  - cbn [fst snd]. split.
    + eexists. rewrite lookup_insert_eq. split; [done|].
      cbn [AgentCoordinator.expiresAt AgentCoordinator.agentId].
      unfold AgentCoordinator.MAX_LOCK_DURATION. split; [done|lia].
    + unfold AgentCoordinator.releaseToken. rewrite lookup_insert_eq.
      simpl. rewrite String.eqb_refl. simpl.
      rewrite delete_insert_eq. apply Hsub, delete_subseteq.
Qed.

(** The outcomes of [scanAndBuy], case by case. *)
Lemma scanAndBuy_cases strategy agent name env now monBalance
    recentTokens cross st :
  let '(o, st') :=
    scanAndBuy strategy agent name env now monBalance recentTokens cross st in
  match o with
  | Bought tok amount =>
      minAmount <= monBalance
      /\ Z.of_nat (length (holdingAddresses env)) < MAX_HOLDINGS_PER_AGENT
      /\ parseEther4 amount <= monBalance
      /\ (tok ∉ cycleBlacklist env cross)
      /\ deadTokenBlacklisted env tok = false
      /\ (exists t, In t recentTokens /\ BaseAgent.tokenKey t = tok
            /\ QualityFilter.passed
                 (QualityFilter.checkTokenQuality (now / 1000) t) = true)
      /\ (exists c, claims st' !! tok = Some c
            /\ AgentCoordinator.agentId c = agent
            /\ AgentCoordinator.expiresAt c = now + 300000)
      /\ trailingStops st' !! tok
         = Some {| BaseAgent.peakPnlPct := 0%Q;
                   BaseAgent.lastUpdated := now |}
  | ExceedsBalance | BuyFailed =>
      claims st' ⊆ claims st
      /\ trailingStops st' = trailingStops st /\ monitor st' = monitor st
  | AmountThrows tok =>
      (exists c, claims st' !! tok = Some c
         /\ AgentCoordinator.agentId c = agent
         /\ AgentCoordinator.expiresAt c = now + 300000)
      /\ trailingStops st' = trailingStops st /\ monitor st' = monitor st
  | AlreadyClaimed =>
      claims st' = AgentCoordinator.cleanupExpiredClaims now (claims st)
      /\ trailingStops st' = trailingStops st /\ monitor st' = monitor st
  | _ => st' = st
  end.
Proof.
  unfold scanAndBuy.
  destruct (Z.ltb_spec monBalance minAmount) as [|Hbal]; [done|].
  destruct (Z.leb_spec MAX_HOLDINGS_PER_AGENT
              (Z.of_nat (length (holdingAddresses env)))) as [|Hhold];
    [done|].
  destruct recentTokens as [|t0 rest]; [done|].
  set (tokens := t0 :: rest).
  destruct (BaseAgent.scanAndScore _ _ _ _ _ _ _ _ tokens)
    as [[calls signals]|] eqn:Hscan; [|done].
  destruct signals as [|s0 srest]; [done|].
  set (signals := s0 :: srest) in *.
  destruct (chooseToken _ _ _ _ _) as [[topSignal llmDecision]|] eqn:Hch;
    [|done].
  apply chooseToken_spec in Hch as (Hin & _).
  apply topCandidates_In in Hin.
  destruct (scanAndScore_signal _ _ _ _ _ _ _ _ _ _ _ _ Hscan Hin)
    as (t & Ht & Hbl & Hdead & Hq & Hkey).
  pose proof (claimToken_outcome (SignalEngine.tokenAddress topSignal)
                agent name "LLM decision" now (claims st)) as Hclaim.
  cbv zeta in Hclaim.
  destruct (AgentCoordinator.claimToken _ _ _ _ _ _ _) as [claimed cl].
  cbn [fst snd] in Hclaim.
  destruct claimed; cbn [negb].
  2:{ cbn [claims trailingStops monitor withClaims]. done. }
  destruct Hclaim as [(c & Hc1 & Hc2 & Hc3) Hrel].
  destruct (printable _) as [amount|].
  2:{ cbn [claims trailingStops monitor withClaims].
      split; [|done]. exists c. done. }
  destruct (Z.ltb_spec monBalance (parseEther4 amount)) as [|Hpay].
  { cbn [claims trailingStops monitor withClaims]. done. }
  match goal with
  | |- context [buyToken env ?a ?b] => destruct (buyToken env a b) as [res|]
  end.
  2:{ cbn [claims trailingStops monitor withClaims]. done. }
  cbn [claims trailingStops monitor]. rewrite Hkey.
  repeat (split; [first [done|lia]|]).
  split; [by exists t|]. split.
  - exists c. rewrite <- Hkey. done.
  - rewrite <- Hkey. by rewrite lookup_insert_eq.
Qed.

(** The model names an amount of [1e21] MON: the claim is taken, the amount
    cannot be printed, and the claim is still the agent's when [scanAndBuy]
    is left. *)
Lemma unprintable_amount_keeps_claim :
  let '(o, st') := Fixtures.lavishBuy in
  o = AmountThrows "0xd1p"
  /\ (AgentCoordinator.agentId <$> claims st' !! "0xd1p"%string)
     = Some "a1"%string.
Proof. vm_compute. split; reflexivity. Qed.

(** X26. What [scanAndBuy] leaves behind.  A buy is only made with at
    least half a MON in the vault, fewer than two holdings and an amount the
    vault can pay; the token bought is a token of the batch that passed the
    quality filter and is on none of the cycle's blacklists (held, MKEY,
    bought by another agent this cycle, recently sold, dead); the agent then
    holds the token's claim until 300000 ms later and a fresh trailing-stop
    record.  When the buy is abandoned inside the guarded part (amount above
    the balance, or the buy throws) the claim is released: no claim is left
    that was not there before.  When the amount cannot be printed as a
    decimal, [toFixed] or [parseEther] throws before the guarded part and
    the claim is not released: the agent holds it until 300000 ms later with
    nothing bought.  When the claim is refused only expired claims have been
    swept, and every other outcome changes nothing. *)
Theorem scanAndBuy_outcome strategy agent name env now monBalance
    recentTokens cross st :
  let '(o, st') :=
    scanAndBuy strategy agent name env now monBalance recentTokens cross st in
  match o with
  | Bought tok amount =>
      minAmount <= monBalance
      /\ Z.of_nat (length (holdingAddresses env)) < MAX_HOLDINGS_PER_AGENT
      /\ parseEther4 amount <= monBalance
      /\ (tok ∉ cycleBlacklist env cross)
      /\ deadTokenBlacklisted env tok = false
      /\ (exists t, In t recentTokens /\ BaseAgent.tokenKey t = tok
            /\ QualityFilter.passed
                 (QualityFilter.checkTokenQuality (now / 1000) t) = true)
      /\ (exists c, claims st' !! tok = Some c
            /\ AgentCoordinator.agentId c = agent
            /\ AgentCoordinator.expiresAt c = now + 300000)
      /\ trailingStops st' !! tok
         = Some {| BaseAgent.peakPnlPct := 0%Q;
                   BaseAgent.lastUpdated := now |}
  | ExceedsBalance | BuyFailed =>
      claims st' ⊆ claims st
      /\ trailingStops st' = trailingStops st /\ monitor st' = monitor st
  | AmountThrows tok =>
      (exists c, claims st' !! tok = Some c
         /\ AgentCoordinator.agentId c = agent
         /\ AgentCoordinator.expiresAt c = now + 300000)
      /\ trailingStops st' = trailingStops st /\ monitor st' = monitor st
  | AlreadyClaimed =>
      claims st' = AgentCoordinator.cleanupExpiredClaims now (claims st)
      /\ trailingStops st' = trailingStops st /\ monitor st' = monitor st
  | _ => st' = st
  end.
Proof. apply scanAndBuy_cases. Qed.

(** An agent's cycle buys at most one token, and never one of the
    cross-agent set it was handed. *)
Lemma runCycle_fresh tokens a bl addrs :
  runCycle tokens a bl = Some addrs ->
  NoDup (map toLowerCase addrs)
  /\ forall x, In x addrs -> toLowerCase x ∉ bl.
Proof.
  unfold runCycle. intros H; inversion H; subst; clear H.
  pose proof (scanAndBuy_cases (run_strategy a) (run_agentId a) (run_name a)
                (run_env a) (run_now a) (run_monBalance a) tokens bl
                (run_state a)) as Hc.
  destruct (scanAndBuy _ _ _ _ _ _ _ _ _) as [o st']. cbn [fst].
  destruct o; try (split; [apply NoDup_nil_2|intros x []]).
  destruct Hc as (_ & _ & _ & Hbl & _ & (t & _ & Hkey & _) & _).
  split; [simpl; apply NoDup_singleton|].
  intros x [<-|[]]. subst tokenAddress. unfold BaseAgent.tokenKey.
  rewrite toLowerCase_idem. fold (BaseAgent.tokenKey t).
  intros Hin. apply Hbl. unfold cycleBlacklist.
  apply elem_of_union_l. by apply elem_of_union_r.
Qed.


(** X27. Across one run of all agents no token is bought twice.  Provided
    each agent's cycle buys nothing that is in the cross-agent set it was
    handed, and nothing twice (as [scanAndBuy] guarantees), the addresses
    bought during [runAllAgentCycles] are pairwise distinct up to case and
    none was in the set at the start; the set at the end holds them all. *)
Theorem cycle_buys_distinct {Agent} (runCycle : Agent -> gset string
                                                -> option (list string))
    agents bought0 :
  (forall a bl addrs, runCycle a bl = Some addrs ->
     NoDup (map toLowerCase addrs)
     /\ forall x, In x addrs -> toLowerCase x ∉ bl) ->
  let r := runAllAgentCycles Agent runCycle agents bought0 in
  let boughtAll :=
    concat (map (fun res : Agent * option (list string) =>
                   match snd res with
                   | Some addrs => map toLowerCase addrs
                   | None => nil
                   end) (fst r)) in
  NoDup boughtAll
  /\ (forall x, In x boughtAll -> x ∉ bought0)
  /\ snd r = bought0 ∪ list_to_set boughtAll
  /\ map fst (fst r) = agents.
Proof.
  intros Hcycle. cbv zeta. revert bought0.
  induction agents as [|a rest IH]; intros bought0.
  - simpl. split; [constructor|]. split; [done|]. split; [|done].
    symmetry. apply (right_id_L ∅ (∪)).
  - cbn [runAllAgentCycles].
    set (bl1 := match runCycle a bought0 with
                | Some addrs => bought0 ∪ list_to_set (map toLowerCase addrs)
                | None => bought0
                end).
    destruct (IH bl1) as (I1 & I2 & I3 & I4).
    destruct (runAllAgentCycles Agent runCycle rest bl1) as [results final].
    cbn [fst snd] in *. cbn [map concat].
    destruct (runCycle a bought0) as [addrs|] eqn:E; cbn [snd fst].
    + destruct (Hcycle _ _ _ E) as [Hnd Hfresh]. subst bl1.
      split; [|split; [|split]].
      * apply NoDup_app. split; [done|]. split; [|done].
        intros x Hx Hx'. apply list_elem_of_In in Hx'.
        apply I2 in Hx'. apply Hx'. apply elem_of_union_r.
        by apply elem_of_list_to_set.
      * intros x Hx. apply in_app_or in Hx as [Hx|Hx].
        -- apply List.in_map_iff in Hx as (y & <- & Hy). by apply Hfresh.
        -- apply I2 in Hx. intros Hc. apply Hx. by apply elem_of_union_l.
      * rewrite I3. rewrite list_to_set_app_L. symmetry.
        apply (assoc_L (∪)).
      * by rewrite I4.
    + subst bl1. split; [done|]. split; [done|]. split; [done|].
      by rewrite I4.
Qed.

Lemma cycle_buys_distinct_witness :
  NoDup (concat (map (fun res : AgentRun * option (list string) =>
                        match snd res with
                        | Some addrs => map toLowerCase addrs
                        | None => nil
                        end)
                   (fst Fixtures.eagerRun)))
  /\ map snd (fst Fixtures.eagerRun)
     = Some ("0xd1p"%string :: nil) :: Some nil :: nil.
Proof.
  split; [|vm_compute; reflexivity].
  apply (cycle_buys_distinct (runCycle (Fixtures.dipToken :: nil))
           (Fixtures.eagerAgent "a1" :: Fixtures.eagerAgent "a2" :: nil) ∅).
  intros a bl addrs. apply runCycle_fresh.
Defined.

End BuyFacts.

(** ** Sell decisions beyond the trailing stop *)

Section SellGuarantees.

Import JS Score BaseAgent HoldingsCycle.
Local Open Scope Q_scope.

Lemma Qgeb_ge (x y : Q) : Qgeb x y = true <-> y <= x.
Proof. unfold Qgeb. apply Qle_bool_iff. Qed.

Lemma Qgeb_lt (x y : Q) : Qgeb x y = false <-> x < y.
Proof.
  unfold Qgeb. rewrite Qle_bool_false. split.
  - apply Qnot_le_lt.
  - apply Qlt_not_le.
Qed.

(** What a verdict of [checkStrategyProfitTargets] means. *)
Lemma profit_targets_facts strategy pnl :
  let d := checkStrategyProfitTargets strategy pnl in
  (sell d = true -> 8 <= pnl /\ exists label, reason d = ProfitTarget label)
  /\ (sell d = false -> d = holdDecision).
Proof.
  intros d. subst d. unfold checkStrategyProfitTargets, hit, holdDecision.
  repeat match goal with
         | |- context [if eqs strategy ?s then _ else _] =>
             destruct (eqs strategy s)
         end.
  all: repeat match goal with
              | |- context [if Qgeb ?p ?c then _ else _] =>
                  destruct (Qgeb p c) eqn:?
              end.
  all: cbn [sell reason]; split; intros Hs; try discriminate.
  all: repeat match goal with
              | H : Qgeb _ _ = true |- _ => apply Qgeb_ge in H
              | H : Qgeb _ _ = false |- _ => apply Qgeb_lt in H
              end.
  all: try (split; [lra|eexists; reflexivity]).
  all: reflexivity.
Qed.

(** X28. What a sell decision guarantees for a holding with a cost basis.
    A partial exit is only ever ordered by a profit target, with the PnL at
    8 percent or more; a PnL of -7 percent or worse is always sold in full
    on the hard stop-loss; a position held for 90 minutes or more is always
    sold; and when nothing is sold the reason is [Hold]. *)
Theorem sell_decision_guarantees strategy costBasis currentValue
    unrealizedPnl trailing hold :
  (0 < costBasis)%Z ->
  let pnl := pnlPercentOf unrealizedPnl costBasis in
  let d := evaluateSellCondition strategy costBasis currentValue
             unrealizedPnl trailing hold in
  (exitType d = partial ->
     sell d = true /\ 8 <= pnl /\ exists label, reason d = ProfitTarget label)
  /\ (pnl <= -7 -> d = exitNow StopLoss)
  /\ (90 <= hold -> sell d = true)
  /\ (sell d = false -> reason d = Hold /\ hold < 90).
Proof.
  intros Hc pnl d. subst d. unfold evaluateSellCondition.
  destruct (Z.leb_spec costBasis 0); [lia|]. fold pnl.
  destruct (profit_targets_facts strategy pnl) as [Hs Hn].
  destruct (sell (checkStrategyProfitTargets strategy pnl)) eqn:Hsell.
  - destruct (Hs eq_refl) as (H8 & label & Hl). cbv beta iota.
    split; [eauto|]. split; [intros; lra|]. split; [done|].
    rewrite Hsell. discriminate.
  - clear Hs. pose proof (Hn eq_refl) as Hd. clear Hn. cbv beta iota.
    assert (Hstop : (-7 <= stopLossOf strategy)%Q).
    { unfold stopLossOf. destruct (_ || _)%bool; lra. }
    destruct (Qle_bool pnl (stopLossOf strategy)) eqn:Hsl.
    { cbn. repeat split; try done. }
    apply Qle_bool_false in Hsl.
    unfold STALE_HOLD_MINUTES.
    repeat match goal with
           | |- context [if ?b then _ else _] => destruct b eqn:?
           end; cbn [sell reason exitType exitNow holdDecision].
    all: split; [try discriminate|].
    all: split; [intros; lra|].
    all: split; [try done|try discriminate].
    all: repeat match goal with
                | H : Qgeb _ _ = true |- _ => apply Qgeb_ge in H
                | H : Qgeb _ _ = false |- _ => apply Qgeb_lt in H
                end.
    all: try (intros; exfalso; lra).
    all: try (intros _; split; [reflexivity|lra]).
Qed.

Lemma sell_decision_guarantees_witness :
  evaluateSellCondition "contrarian" 1000 900 (-100)
    {| peakPnlPct := 0; lastUpdated := 0 |} 5
  = exitNow StopLoss.
Proof.
  destruct (sell_decision_guarantees "contrarian" 1000 900 (-100)
              {| peakPnlPct := 0; lastUpdated := 0 |} 5) as (_ & H & _).
  - lia.
  - apply H. vm_compute. discriminate.
Defined.

(** The binary64 difference of a double and itself is [0], or [NaN] for an
    infinity: no drop. *)
Lemma fsub_no_drop (a b thr : Q) :
  a == b -> 0 <= thr -> ngt (fsub a b) thr = false.
Proof.
  intros Hab Hthr. unfold fsub.
  assert (Hd : toDouble a = toDouble b).
  { unfold toDouble. by rewrite (Qred_complete _ _ Hab). }
  assert (H0 : ngt (Some 0) thr = false).
  { unfold ngt, Qgtb, Qltb. apply negb_false_iff.
    by apply Qle_bool_iff. }
  rewrite Hd. destruct (toDouble b) as [s|s| |s m e].
  - by destruct s.
  - by destruct s.
  - reflexivity.
  - unfold SFsub. rewrite Z.sub_diag. exact H0.
Qed.

(** X29. The trailing-stop record of [evaluateHoldings]: after the update
    the stored peak is at least the current PnL and at least the peak that
    was stored before, and a holding evaluated for the first time, or at a
    new peak, is never sold on the trailing stop. *)
Theorem trailing_record_facts strategy tokenAddress costBasis monValue
    acquiredAt now stops :
  let pnl := holdingPnlPercent monValue costBasis in
  let key := toLowerCase tokenAddress in
  let t := fst (updateTrailing tokenAddress pnl now stops) in
  let stops' := snd (updateTrailing tokenAddress pnl now stops) in
  let d := fst (evaluateHolding strategy tokenAddress costBasis monValue
                  acquiredAt now stops) in
  pnl <= peakPnlPct t
  /\ stops' !! key = Some t
  /\ (forall old, stops !! key = Some old -> peakPnlPct old <= peakPnlPct t)
  /\ (forall k, k <> key -> stops' !! k = stops !! k)
  /\ ((forall old, stops !! key = Some old -> peakPnlPct old <= pnl) ->
      reason d <> TrailingStop).
Proof.
  intros pnl key t stops' d. subst t stops' d.
  unfold evaluateHolding, updateTrailing. fold pnl key. cbn [fst snd].
  set (t0 := match stops !! key with
             | Some t => t
             | None => {| peakPnlPct := pnl; lastUpdated := now |}
             end).
  assert (Hpeak : pnl <= peakPnlPct (if Qgtb pnl (peakPnlPct t0)
                                     then {| peakPnlPct := pnl;
                                             lastUpdated := now |}
                                     else t0)).
  { destruct (Qgtb pnl (peakPnlPct t0)) eqn:E; [simpl; lra|].
    apply not_true_iff_false in E. rewrite Qgtb_gt in E. lra. }
  split; [exact Hpeak|]. split; [by rewrite lookup_insert_eq|].
  split; [|split].
  - intros old Hold. subst t0. rewrite Hold.
    destruct (Qgtb pnl (peakPnlPct old)) eqn:E; [|lra].
    apply Qgtb_gt in E. simpl. lra.
  - intros k Hk. by rewrite lookup_insert_ne.
  - intros Hnew.
    assert (Heq : peakPnlPct (if Qgtb pnl (peakPnlPct t0)
                              then {| peakPnlPct := pnl; lastUpdated := now |}
                              else t0) <= pnl).
    { destruct (Qgtb pnl (peakPnlPct t0)) eqn:E; [simpl; lra|].
      subst t0. destruct (stops !! key) as [old|]; [by apply Hnew|simpl; lra]. }
    set (tr := if Qgtb pnl (peakPnlPct t0) then _ else t0) in *.
    unfold evaluateSellCondition.
    destruct (Z.leb_spec costBasis 0) as [|Hpos]; [done|].
    assert (Hpnl : pnl = pnlPercentOf (monValue - costBasis) costBasis).
    { subst pnl. unfold holdingPnlPercent.
      destruct (Z.ltb_spec 0 costBasis); [done|lia]. }
    rewrite <- Hpnl.
    destruct (profit_targets_facts strategy pnl) as [Hs Hn].
    destruct (sell (checkStrategyProfitTargets _ _)) eqn:Hsell.
    { destruct (Hs eq_refl) as (_ & label & ->). done. }
    destruct (Qle_bool _ (stopLossOf strategy)); [done|].
    assert (Hthr : 8 <= getTrailingStopThreshold strategy).
    { unfold getTrailingStopThreshold.
      repeat match goal with
             | |- context [if ?b then _ else _] => destruct b
             end; lra. }
    rewrite (fsub_no_drop (peakPnlPct tr) pnl) by lra.
    rewrite andb_false_r.
    repeat match goal with
           | |- context [if ?b then _ else _] => destruct b
           end; done.
Qed.

End SellGuarantees.

(** ** Trading helpers *)

Section TradingFacts.

Import Trading.

Lemma calculateSlippage_bounds amountOut bps :
  0 <= amountOut -> 0 <= bps <= 10000 ->
  0 <= calculateSlippage amountOut bps <= amountOut
  /\ 10000 * calculateSlippage amountOut bps <= amountOut * (10000 - bps)
     < 10000 * (calculateSlippage amountOut bps + 1).
Proof.
  intros Ha Hb. unfold calculateSlippage.
  rewrite Z.quot_div_nonneg by nia.
  pose proof (Z.mul_div_le (amountOut * (10000 - bps)) 10000 ltac:(lia)).
  pose proof (Z.mul_succ_div_gt (amountOut * (10000 - bps)) 10000 ltac:(lia)).
  pose proof (Z.div_pos (amountOut * (10000 - bps)) 10000 ltac:(nia)
                ltac:(lia)).
  assert (amountOut * (10000 - bps) / 10000 <= amountOut).
  { apply Z.div_le_upper_bound; nia. }
  lia.
Qed.

(** X30. A sale that goes through sold a positive amount, reports the quote
    as its [amountOut], and asked the vault for a minimum of 95 percent of
    that quote rounded down, so never more than the quote itself. *)
Theorem sellToken_result amount vaultAmount getQuote vaultExecuteSell r :
  (forall a q, getQuote a = Some q -> 0 <= q) ->
  sellToken amount vaultAmount getQuote vaultExecuteSell = Some r ->
  0 < amountIn r
  /\ getQuote (amountIn r) = Some (amountOut r)
  /\ vaultExecuteSell (amountIn r) (amountOutMin r) = true
  /\ 0 <= amountOutMin r <= amountOut r
  /\ 100 * amountOutMin r <= 95 * amountOut r < 100 * (amountOutMin r + 1)
  /\ (amount = Some (amountIn r)
      \/ (amount = None /\ vaultAmount = Some (amountIn r))).
Proof.
  intros Hq. unfold sellToken.
  destruct (match amount with Some a => Some a | None => vaultAmount end)
    as [balance|] eqn:Hb; [|discriminate].
  destruct (Z.leb_spec balance 0); [discriminate|].
  destruct (getQuote balance) as [q|] eqn:Hquote; [|discriminate].
  destruct (vaultExecuteSell balance _) eqn:Hexec; [|discriminate].
  intros H'; inversion H'; subst; clear H'. cbn [amountIn amountOut amountOutMin].
  pose proof (calculateSlippage_bounds q SLIPPAGE_BPS (Hq _ _ Hquote)
                ltac:(unfold SLIPPAGE_BPS; lia)) as [H1 H2].
  unfold SLIPPAGE_BPS in *.
  repeat (split; [first [done|lia]|]).
  destruct amount; [left; congruence|right; done].
Qed.

Lemma sellToken_result_witness :
  exists r,
    sellToken None (Some 1000) (fun _ => Some 2001) (fun _ _ => true)
    = Some r
    /\ 0 < amountIn r /\ amountOut r = 2001 /\ amountOutMin r = 1900.
Proof.
  eexists. split; [reflexivity|].
  destruct (sellToken_result None (Some 1000) (fun _ => Some 2001)
              (fun _ _ => true) _
              ltac:(intros a q H; inversion H; lia) eq_refl)
    as (H1 & _).
  split; [exact H1|]. split; reflexivity.
Defined.

End TradingFacts.
